(** * KTCC tool changer: tool selection, heaters and standby timers

    A shallow embedding of [tool.py], [toollock.py] and [toolgroup.py].
    The Python objects live in one [State] record: the printer's object
    registry (tools, heaters), the timers owned by the physical tools, the
    fields of the [ToolLock] singleton and the reactor clock.  Methods are
    computations in a state-and-exception monad; [self] is the registry key
    of the object, so that every access reads the shared object and aliasing
    between a virtual tool and its physical parent is kept.

    External collaborators (G-code scripts and templates, the heater and
    fan services, the reactor) are not executed: every call made to them is
    appended to [trace], and a template fails when the oracle
    [template_fails] says so.  Calls to the logger [ktcclog] are left out. *)

From Stdlib Require Import ZArith QArith Bool List.
From stdpp Require Import base option gmap strings list.

Local Open Scope Z_scope.

(** ** Constants and enumerations *)

(** [Tool.TOOL_UNKNOWN], [Tool.TOOL_UNLOCKED] (same values in [ToolLock]). *)
Definition TOOL_UNKNOWN : Z := -2.
Definition TOOL_UNLOCKED : Z := -1.

(** [Tool.HEATER_STATE_OFF = 0], [HEATER_STATE_STANDBY = 1],
    [HEATER_STATE_ACTIVE = 2]. *)
Inductive HeaterState : Set :=
| HEATER_STATE_OFF
| HEATER_STATE_STANDBY
| HEATER_STATE_ACTIVE.

Definition HeaterState_code (h : HeaterState) : Z :=
  match h with
  | HEATER_STATE_OFF => 0
  | HEATER_STATE_STANDBY => 1
  | HEATER_STATE_ACTIVE => 2
  end.

Definition HeaterState_eqb (a b : HeaterState) : bool :=
  HeaterState_code a =? HeaterState_code b.

(** [ToolStandbyTempTimer.TIMER_TO_SHUTDOWN = 0], [TIMER_TO_STANDBY = 1]. *)
Inductive temp_type : Set := TIMER_TO_SHUTDOWN | TIMER_TO_STANDBY.

(** The letters of [homed_axes]. *)
Inductive axis : Set := AxisX | AxisY | AxisZ.

Definition axis_eqb (a b : axis) : bool :=
  match a, b with
  | AxisX, AxisX | AxisY, AxisY | AxisZ, AxisZ => true
  | _, _ => false
  end.

(** The four G-code templates of a tool. *)
Inductive template : Set :=
| pickup_gcode
| dropoff_gcode
| virtual_toolload_gcode
| virtual_toolunload_gcode.

(** Calls made to the external services, in the order they are made. *)
Inductive event : Type :=
| RunTemplate (g : template) (tool : Z)
    (* <template>.run_gcode_from_command(context) of tool [tool] *)
| ActivateExtruder (extruder : string)      (* ACTIVATE_EXTRUDER extruder=.. *)
| Dwell                                     (* G4 P0.2 *)
| SetFanSpeed (fan : string) (speed : Q)    (* SET_FAN_SPEED FAN=.. SPEED=.. *)
| SetInputShaper (tool : Z)                 (* SET_INPUT_SHAPER .. *)
| Home (axes : list axis)                   (* G28 <axes> *)
| TemperatureWait (sensor : string) (minimum maximum : Z)
    (* TEMPERATURE_WAIT SENSOR=.. MINIMUM=.. MAXIMUM=.. *)
| SetTemp (heater : string) (temp : Z)      (* heater.set_temp(temp) *)
| UpdateTimer (tool_id : Z) (k : temp_type) (waketime : option Q)
    (* reactor.update_timer(timer_handler, waketime); None is NEVER *)
| SaveVariable (value : Z).                 (* SAVE_VARIABLE tool_current *)

(** Exceptions.  [InvalidState] and [NotHomed] are the two
    [printer.command_error]s of [select_tool_actual] and [Pickup];
    [GcodeScriptError] is the [Exception] the four operations wrap a
    template failure in. *)
Inductive exn : Set :=
| InvalidState                    (* "Unknown tool already mounted ..." *)
| NotHomed                        (* "Tool.Pickup: Printer not homed ..." *)
| GcodeScriptError (g : template) (tool : Z)
| NotSamePhysicalTool             (* "Shouldn't reach this ..." *)
| UnknownObject                   (* printer.lookup_object of a missing name *)
| TypeError                       (* int(None), None > -1 *)
| AttributeError                  (* a timer attribute the tool never got *)
| TimerEventError (tool_id : Z).  (* "Failed to set Standby temp ..." *)

(** ** Objects *)

(** A section [[tool <name>]] of the configuration, as the [config]
    getters return it; a key that is absent is [None].  [section_name] is
    [int(name)], [None] when that raises [ValueError].  The three
    coordinate lists are the values already split at the commas. *)
Record ToolConfig : Type := mkConfig {
  section_name : option Z;
  cfg_tool_group : Z;
  cfg_physical_parent : option Z;
  cfg_is_virtual : option bool;
  cfg_extruder : option string;
  cfg_fan : option string;
  cfg_lazy_home_when_parking : option bool;
  cfg_zone : option (list string);
  cfg_park : option (list string);
  cfg_offset : option (list string);
  cfg_shaper_freq_x : option Q;
  cfg_shaper_freq_y : option Q;
  cfg_idle_to_standby_time : option Q;
  cfg_idle_to_powerdown_time : option Q;
  cfg_unload_virtual_at_dropoff : option bool
}.

(** The attributes of a [Tool] object that only [__init__] assigns.
    [timer_ref] is the [tool_id] of the [ToolStandbyTempTimer] objects the
    attributes [timer_idle_to_standby] and [timer_idle_to_powerdown] point
    to ([None]: the tool has no such attributes): a virtual tool shares the
    objects of its physical parent. *)
Record ToolSettings : Type := mkSettings {
  config : ToolConfig;
  is_virtual : bool;
  physical_parent_id : option Z;
  extruder : option string;
  fan : option string;
  lazy_home_when_parking : Z;
  zone : list string;
  park : list string;
  offset : list string;
  shaper_freq_x : Q;
  shaper_freq_y : Q;
  unload_virtual_at_dropoff : option bool;
  timer_ref : option Z
}.

(** A [Tool] object: its settings and the attributes the operations
    assign.  Its [name] is its key in the registry. *)
Record Tool : Type := mkTool {
  settings :> ToolSettings;
  virtual_loaded : Z;
  heater_state : HeaterState;
  heater_active_temp : Z;
  heater_standby_temp : Z;
  idle_to_standby_time : option Q;
  idle_to_powerdown_time : option Q
}.

(** A [ToolStandbyTempTimer] object; [scheduled] is the wake time the
    reactor holds for its [timer_handler] ([None] is [reactor.NEVER]). *)
Record ToolStandbyTempTimer : Type := mkTimer {
  last_virtual_tool_using_physical_timer : option Z;
  duration : Q;
  inside_timer : bool;
  repeat : bool;
  counting_down : bool;
  nextwake : option Q;
  scheduled : option Q
}.

(** The part of a heater's [get_status] the code reads. *)
Record Heater : Type := mkHeater {
  target : Q;
  temperature : Q
}.

Record State : Type := mkState {
  (* printer objects *)
  tools : gmap Z Tool;
  timers_to_standby : gmap Z ToolStandbyTempTimer;
  timers_to_powerdown : gmap Z ToolStandbyTempTimer;
  heaters : gmap string Heater;
  (* ToolLock *)
  tool_current : Z;
  tool_map : gmap Z Z;
  saved_fan_speed : Q;
  saved_position : option (list Q);
  restore_axis_on_toolchange : list axis;
  (* toolhead, gcode_move, reactor *)
  homed_axes : list axis;
  gcode_position : list Q;
  monotonic : Q;
  (* environment *)
  template_fails : template -> Z -> bool;
  trace : list event
}.

Definition set_tools (f : gmap Z Tool -> gmap Z Tool) (s : State) : State :=
  mkState (f (tools s)) (timers_to_standby s) (timers_to_powerdown s)
    (heaters s) (tool_current s) (tool_map s) (saved_fan_speed s)
    (saved_position s) (restore_axis_on_toolchange s) (homed_axes s)
    (gcode_position s) (monotonic s) (template_fails s) (trace s).

Definition set_timers_to_standby
    (f : gmap Z ToolStandbyTempTimer -> gmap Z ToolStandbyTempTimer)
    (s : State) : State :=
  mkState (tools s) (f (timers_to_standby s)) (timers_to_powerdown s)
    (heaters s) (tool_current s) (tool_map s) (saved_fan_speed s)
    (saved_position s) (restore_axis_on_toolchange s) (homed_axes s)
    (gcode_position s) (monotonic s) (template_fails s) (trace s).

Definition set_timers_to_powerdown
    (f : gmap Z ToolStandbyTempTimer -> gmap Z ToolStandbyTempTimer)
    (s : State) : State :=
  mkState (tools s) (timers_to_standby s) (f (timers_to_powerdown s))
    (heaters s) (tool_current s) (tool_map s) (saved_fan_speed s)
    (saved_position s) (restore_axis_on_toolchange s) (homed_axes s)
    (gcode_position s) (monotonic s) (template_fails s) (trace s).

Definition set_heaters (f : gmap string Heater -> gmap string Heater)
    (s : State) : State :=
  mkState (tools s) (timers_to_standby s) (timers_to_powerdown s)
    (f (heaters s)) (tool_current s) (tool_map s) (saved_fan_speed s)
    (saved_position s) (restore_axis_on_toolchange s) (homed_axes s)
    (gcode_position s) (monotonic s) (template_fails s) (trace s).

Definition set_tool_current (t : Z) (s : State) : State :=
  mkState (tools s) (timers_to_standby s) (timers_to_powerdown s)
    (heaters s) t (tool_map s) (saved_fan_speed s)
    (saved_position s) (restore_axis_on_toolchange s) (homed_axes s)
    (gcode_position s) (monotonic s) (template_fails s) (trace s).

Definition set_tool_map (m : gmap Z Z) (s : State) : State :=
  mkState (tools s) (timers_to_standby s) (timers_to_powerdown s)
    (heaters s) (tool_current s) m (saved_fan_speed s)
    (saved_position s) (restore_axis_on_toolchange s) (homed_axes s)
    (gcode_position s) (monotonic s) (template_fails s) (trace s).

Definition set_saved_position (p : option (list Q)) (r : list axis)
    (s : State) : State :=
  mkState (tools s) (timers_to_standby s) (timers_to_powerdown s)
    (heaters s) (tool_current s) (tool_map s) (saved_fan_speed s)
    p r (homed_axes s)
    (gcode_position s) (monotonic s) (template_fails s) (trace s).

Definition set_homed_axes (h : list axis) (s : State) : State :=
  mkState (tools s) (timers_to_standby s) (timers_to_powerdown s)
    (heaters s) (tool_current s) (tool_map s) (saved_fan_speed s)
    (saved_position s) (restore_axis_on_toolchange s) h
    (gcode_position s) (monotonic s) (template_fails s) (trace s).

Definition set_trace (f : list event -> list event) (s : State) : State :=
  mkState (tools s) (timers_to_standby s) (timers_to_powerdown s)
    (heaters s) (tool_current s) (tool_map s) (saved_fan_speed s)
    (saved_position s) (restore_axis_on_toolchange s) (homed_axes s)
    (gcode_position s) (monotonic s) (template_fails s) (f (trace s)).

(** ** The state-and-exception monad *)

Inductive outcome (A : Type) : Type :=
| Ok (a : A) (s : State)
| Raise (e : exn) (s : State).
Arguments Ok {A} a s.
Arguments Raise {A} e s.

Definition M (A : Type) : Type := State -> outcome A.

Definition ret {A} (a : A) : M A := fun s => Ok a s.

Definition bind {A B} (m : M A) (k : A -> M B) : M B :=
  fun s =>
    match m s with
    | Ok a s' => k a s'
    | Raise e s' => Raise e s'
    end.

Definition raise {A} (e : exn) : M A := fun s => Raise e s.

Definition gets {A} (f : State -> A) : M A := fun s => Ok (f s) s.

Definition modify (f : State -> State) : M unit := fun s => Ok tt (f s).

(** [try: m except Exception: raise e] *)
Definition try_except {A} (m : M A) (e : exn) : M A :=
  fun s =>
    match m s with
    | Ok a s' => Ok a s'
    | Raise _ s' => Raise e s'
    end.

Notation "'let*' x ':=' m 'in' k" := (bind m (fun x => k))
  (at level 10, x name, m at level 100, k at level 200).
Notation "m ;;; k" := (bind m (fun _ => k))
  (at level 100, k at level 200, right associativity).

Definition when (b : bool) (m : M unit) : M unit := if b then m else ret tt.

(** The state an outcome ends in, whether it returned or raised. *)
Definition final {A} (o : outcome A) : State :=
  match o with Ok _ s => s | Raise _ s => s end.

Definition emit (e : event) : M unit :=
  modify (set_trace (fun tr => tr ++ [e])).

(** [printer.lookup_object('tool ' + str(t))] *)
Definition lookup_tool (t : Z) : M Tool :=
  fun s =>
    match tools s !! t with
    | Some T => Ok T s
    | None => Raise UnknownObject s
    end.

(** [printer.lookup_object('tool ' + str(self.physical_parent_id))]: with
    [None] the name is ['tool None'], which no section has. *)
Definition lookup_tool_opt (t : option Z) : M Tool :=
  match t with
  | Some t => lookup_tool t
  | None => raise UnknownObject
  end.

(** [printer.lookup_object(name)] of a heater. *)
Definition lookup_heater (name : option string) : M Heater :=
  fun s =>
    match name with
    | Some n =>
        match heaters s !! n with
        | Some h => Ok h s
        | None => Raise UnknownObject s
        end
    | None => Raise UnknownObject s
    end.

(** Assignment to attributes of the tool object [t]. *)
Definition update_tool (t : Z) (f : Tool -> Tool) : M unit :=
  modify (set_tools (fun m => match m !! t with
                             | Some T => <[t := f T]> m
                             | None => m
                             end)).

(** ** ToolLock *)

(** [ToolLock.tool_is_remaped]: [self.tool_map.get(tool_to_check, -1)] *)
Definition tool_is_remaped (tool_to_check : Z) : M Z :=
  gets (fun s => default (-1) (tool_map s !! tool_to_check)).

(** [ToolLock.SaveCurrentTool]: [tool_current] holds [str(t)] and every
    reader applies [int] to it; the integer is kept instead. *)
Definition SaveCurrentTool (t : Z) : M unit :=
  modify (set_tool_current t) ;;;
  emit (SaveVariable t).

Definition is_homed (a : axis) (homed : list axis) : bool :=
  existsb (axis_eqb a) homed.

(** [all(axis in homed for axis in ['x', 'y', 'z'])] *)
Definition all_homed (homed : list axis) : bool :=
  forallb (fun a => is_homed a homed) [AxisX; AxisY; AxisZ].

(** [ToolLock.PrinterIsHomedForToolchange].  After [G28] of the missing
    axes the toolhead reports them homed. *)
Definition PrinterIsHomedForToolchange (lazy_home_when_parking : Z) : M bool :=
  let* homed := gets homed_axes in
  if all_homed homed then ret true
  else if (lazy_home_when_parking =? 0) && negb (all_homed homed)
  then ret false
  else if (lazy_home_when_parking =? 1) && negb (is_homed AxisZ homed)
  then ret false
  else
    let axes_to_home :=
      List.filter (fun a => negb (is_homed a homed)) [AxisX; AxisY; AxisZ] in
    emit (Home axes_to_home) ;;;
    modify (set_homed_axes (homed ++ axes_to_home)) ;;;
    ret true.

(** [int(x)] of a float: truncation towards zero. *)
Definition int_of_float (x : Q) : Z := Z.quot (Qnum x) (Zpos (Qden x)).

(** [ToolLock._Temperature_wait_with_tolerance] *)
Definition _Temperature_wait_with_tolerance
    (heater_name : option string) (tolerance : Z) : M unit :=
  let* h := lookup_heater heater_name in
  let target_temp := int_of_float (target h) in
  if target_temp >? 40
  then emit (TemperatureWait (default EmptyString heater_name)
               (target_temp - tolerance) (target_temp + tolerance))
  else ret tt.

(** Modelled from the spec: [ToolLock.SaveCurrentPosition], which
    [select_tool_actual] calls and [toollock.py] does not define.  Spec 4.1
    step 5: "If restore_mode provided, snapshot the current machine
    position via the external motion collaborator"; the comment at the
    call: "Sets restore_axis_on_toolchange and saves current position". *)
Definition SaveCurrentPosition (restore_position_type : list axis) : M unit :=
  let* pos := gets gcode_position in
  modify (set_saved_position (Some pos) restore_position_type).

(** ** Tool: the four mechanical operations *)

(** [<template>.run_gcode_from_command(context)] under
    [try: ... except Exception as e: raise Exception(...)]. *)
Definition run_gcode_from_command (g : template) (t : Z) : M unit :=
  emit (RunTemplate g t) ;;;
  let* fails := gets (fun s => template_fails s g t) in
  if fails then raise (GcodeScriptError g t) else ret tt.

(** The two virtual templates are attributes only of a tool built with
    [is_virtual] set; on another tool the attribute access raises inside
    the [try] and leaves it as the same wrapped exception. *)
Definition run_virtual_gcode_from_command (g : template) (t : Z) : M unit :=
  let* T := lookup_tool t in
  if is_virtual T then run_gcode_from_command g t
  else raise (GcodeScriptError g t).

Definition Qnonzero (x : Q) : bool := negb (Qeq_bool x 0).

(** [Tool.Pickup] *)
Definition Pickup (t : Z) : M unit :=
  let* T := lookup_tool t in
  (* PrinterIsHomedForToolchange() is called without its argument *)
  let* homed := PrinterIsHomedForToolchange 0 in
  if negb homed then raise NotHomed
  else
    match extruder T with
    | Some e => emit (ActivateExtruder e)
    | None => ret tt
    end ;;;
    emit Dwell ;;;
    run_gcode_from_command pickup_gcode t ;;;
    match fan T with
    | Some f =>
        let* speed := gets saved_fan_speed in
        emit (SetFanSpeed f speed)
    | None => ret tt
    end ;;;
    when (Qnonzero (shaper_freq_x T) || Qnonzero (shaper_freq_y T))
      (emit (SetInputShaper t)) ;;;
    SaveCurrentTool t.

(** [Tool.Dropoff] *)
Definition Dropoff (t : Z) (force_virtual_unload : bool) : M unit :=
  let* T := lookup_tool t in
  let* homed := PrinterIsHomedForToolchange 0 in
  if negb homed then ret tt
  else
    match fan T with
    | Some f => emit (SetFanSpeed f 0)
    | None => ret tt
    end ;;;
    emit Dwell ;;;
    run_gcode_from_command dropoff_gcode t ;;;
    SaveCurrentTool TOOL_UNLOCKED.

(** [Tool.set_virtual_loaded] *)
Definition set_virtual_loaded (t : Z) (value : Z) : M unit :=
  update_tool t (fun T =>
    mkTool (settings T) value (heater_state T) (heater_active_temp T)
      (heater_standby_temp T) (idle_to_standby_time T)
      (idle_to_powerdown_time T)).

(** The key of
    [printer.lookup_object('tool ' + str(self.physical_parent_id))]. *)
Definition physical_parent_key (T : Tool) : M Z :=
  match physical_parent_id T with
  | Some p => let* _ := lookup_tool p in ret p
  | None => raise UnknownObject
  end.

(** [Tool.LoadVirtual] *)
Definition LoadVirtual (t : Z) : M unit :=
  let* T := lookup_tool t in
  run_virtual_gcode_from_command virtual_toolload_gcode t ;;;
  let* pp := physical_parent_key T in
  set_virtual_loaded pp t ;;;
  SaveCurrentTool t.

(** [Tool.UnloadVirtual] *)
Definition UnloadVirtual (t : Z) : M unit :=
  let* T := lookup_tool t in
  run_virtual_gcode_from_command virtual_toolunload_gcode t ;;;
  let* pp := physical_parent_key T in
  set_virtual_loaded pp (-1) ;;;
  SaveCurrentTool t.

(** ** ToolStandbyTempTimer *)

Definition timer_store (k : temp_type) (s : State)
    : gmap Z ToolStandbyTempTimer :=
  match k with
  | TIMER_TO_STANDBY => timers_to_standby s
  | TIMER_TO_SHUTDOWN => timers_to_powerdown s
  end.

Definition lookup_timer (r : Z) (k : temp_type) : M ToolStandbyTempTimer :=
  fun s =>
    match timer_store k s !! r with
    | Some tm => Ok tm s
    | None => Raise AttributeError s
    end.

Definition put_timer (r : Z) (k : temp_type) (tm : ToolStandbyTempTimer)
    : M unit :=
  match k with
  | TIMER_TO_STANDBY => modify (set_timers_to_standby (insert r tm))
  | TIMER_TO_SHUTDOWN => modify (set_timers_to_powerdown (insert r tm))
  end.

(** [self.timer_idle_to_standby] / [self.timer_idle_to_powerdown] of tool
    [t]: the [tool_id] of the timer object the attribute points to. *)
Definition tool_timer (t : Z) (k : temp_type) : M Z :=
  let* T := lookup_tool t in
  match timer_ref T with
  | Some r => let* _ := lookup_timer r k in ret r
  | None => raise AttributeError
  end.

(** Python's [max(a, b)]: [b] only when it is strictly greater. *)
Definition py_max (a b : Q) : Q :=
  if Qle_bool b a then a else b.

Definition min_duration_threshold : Q := 1 # 2.

(** [ToolStandbyTempTimer.set_timer] *)
Definition set_timer (r : Z) (k : temp_type) (duration : Q)
    (actual_tool_calling : Z) : M unit :=
  let* tm := lookup_timer r k in
  let duration := py_max duration min_duration_threshold in
  if inside_timer tm then
    put_timer r k
      (mkTimer (Some actual_tool_calling) duration (inside_timer tm)
         (Qnonzero duration) (counting_down tm) (nextwake tm) (scheduled tm))
  else
    let* now := gets monotonic in
    let waketime :=
      if Qnonzero duration then Some (now + duration)%Q else None in
    emit (UpdateTimer r k waketime) ;;;
    put_timer r k
      (mkTimer (Some actual_tool_calling) duration (inside_timer tm)
         (repeat tm) true
         (if Qnonzero duration then waketime else nextwake tm)
         waketime).

Definition set_timer_of (t : Z) (k : temp_type) (duration : Q)
    (actual_tool_calling : Z) : M unit :=
  let* r := tool_timer t k in
  set_timer r k duration actual_tool_calling.

(** [set_timer] with one of the tool's two idle times; the attribute is
    still [None] on a tool built without extruder, and [max(None, 0.5)]
    raises. *)
Definition set_timer_idle (t : Z) (k : temp_type) (duration : option Q)
    (actual_tool_calling : Z) : M unit :=
  let* r := tool_timer t k in
  match duration with
  | Some d => set_timer r k d actual_tool_calling
  | None => raise TypeError
  end.

(** [heater.set_temp(temp)]: the heater's target becomes [temp]. *)
Definition set_temp (e : string) (temp : Z) : M unit :=
  emit (SetTemp e temp) ;;;
  modify (set_heaters (fun m =>
    match m !! e with
    | Some h => <[e := mkHeater (inject_Z temp) (temperature h)]> m
    | None => m
    end)).

Definition with_heater_state (h : HeaterState) (T : Tool) : Tool :=
  mkTool (settings T) (virtual_loaded T) h (heater_active_temp T)
    (heater_standby_temp T) (idle_to_standby_time T)
    (idle_to_powerdown_time T).

Definition with_heater_active_temp (v : Z) (T : Tool) : Tool :=
  mkTool (settings T) (virtual_loaded T) (heater_state T) v
    (heater_standby_temp T) (idle_to_standby_time T)
    (idle_to_powerdown_time T).

Definition with_heater_standby_temp (v : Z) (T : Tool) : Tool :=
  mkTool (settings T) (virtual_loaded T) (heater_state T)
    (heater_active_temp T) v (idle_to_standby_time T)
    (idle_to_powerdown_time T).

Definition with_idle_to_standby_time (v : Q) (T : Tool) : Tool :=
  mkTool (settings T) (virtual_loaded T) (heater_state T)
    (heater_active_temp T) (heater_standby_temp T) (Some v)
    (idle_to_powerdown_time T).

Definition with_idle_to_powerdown_time (v : Q) (T : Tool) : Tool :=
  mkTool (settings T) (virtual_loaded T) (heater_state T)
    (heater_active_temp T) (heater_standby_temp T)
    (idle_to_standby_time T) (Some v).

(** [Tool._set_state] *)
Definition _set_state (t : Z) (h : HeaterState) : M unit :=
  update_tool t (with_heater_state h).

(** [ToolStandbyTempTimer._standby_tool_temp_timer_event]; returns the
    next wake time. *)
Definition _standby_tool_temp_timer_event (r : Z) (k : temp_type)
    (eventtime : Q) : M (option Q) :=
  let* tm := lookup_timer r k in
  put_timer r k
    (mkTimer (last_virtual_tool_using_physical_timer tm) (duration tm)
       true (repeat tm) false (nextwake tm) (scheduled tm)) ;;;
  try_except
    (match last_virtual_tool_using_physical_timer tm with
     | None => raise (TimerEventError r)
     | Some last =>
         let* tool := lookup_tool last in
         let* _ := lookup_heater (extruder tool) in
         let e := default EmptyString (extruder tool) in
         match k with
         | TIMER_TO_STANDBY => set_temp e (heater_standby_temp tool)
         | TIMER_TO_SHUTDOWN =>
             set_timer_of last TIMER_TO_STANDBY 0 last ;;;
             _set_state last HEATER_STATE_OFF ;;;
             set_temp e 0
         end
     end)
    (TimerEventError r) ;;;
  let* tm := lookup_timer r k in
  let wake :=
    if repeat tm then Some (eventtime + duration tm)%Q else None in
  put_timer r k
    (mkTimer (last_virtual_tool_using_physical_timer tm) (duration tm)
       false false (if repeat tm then true else counting_down tm)
       wake (scheduled tm)) ;;;
  ret wake.

(** The reactor's contract for a registered timer: once the clock has
    reached the wake time given to [update_timer], the callback runs with
    the current time, and the time it returns is the next wake time. *)
Definition reactor_dispatch (r : Z) (k : temp_type) : M bool :=
  let* tm := lookup_timer r k in
  let* now := gets monotonic in
  match scheduled tm with
  | Some w =>
      if Qle_bool w now then
        let* wake := _standby_tool_temp_timer_event r k now in
        let* tm := lookup_timer r k in
        put_timer r k
          (mkTimer (last_virtual_tool_using_physical_timer tm) (duration tm)
             (inside_timer tm) (repeat tm) (counting_down tm) (nextwake tm)
             wake) ;;;
        ret true
      else ret false
  | None => ret false
  end.

(** The reactor clock moves on by [d] seconds. *)
Definition pause (d : Q) (s : State) : State :=
  mkState (tools s) (timers_to_standby s) (timers_to_powerdown s)
    (heaters s) (tool_current s) (tool_map s) (saved_fan_speed s)
    (saved_position s) (restore_axis_on_toolchange s) (homed_axes s)
    (gcode_position s) (monotonic s + d)%Q (template_fails s) (trace s).

(** ** Tool.set_heater *)

(** The keyword arguments of [set_heater], in the order
    [cmd_SET_TOOL_TEMPERATURE] inserts them. *)
Record set_heater_kwargs : Type := mk_kwargs {
  kw_heater_standby_temp : option Z;
  kw_heater_active_temp : option Z;
  kw_idle_to_standby_time : option Q;
  kw_idle_to_powerdown_time : option Q;
  kw_heater_state : option HeaterState
}.

(** [set_heater(heater_state = h)] *)
Definition only_heater_state (h : HeaterState) : set_heater_kwargs :=
  mk_kwargs None None None None (Some h).

Definition set_heater (t : Z) (kwargs : set_heater_kwargs) : M unit :=
  let* T := lookup_tool t in
  match extruder T with
  | None => ret tt
  | Some e =>
      let* _ := lookup_heater (Some e) in
      (* for i in kwargs *)
      match kw_heater_standby_temp kwargs with
      | Some v =>
          update_tool t (with_heater_standby_temp v) ;;;
          let* T := lookup_tool t in
          when (HeaterState_eqb (heater_state T) HEATER_STATE_STANDBY)
            (set_temp e v)
      | None => ret tt
      end ;;;
      match kw_heater_active_temp kwargs with
      | Some v =>
          update_tool t (with_heater_active_temp v) ;;;
          let* T := lookup_tool t in
          when (HeaterState_eqb (heater_state T) HEATER_STATE_ACTIVE)
            (set_temp e v)
      | None => ret tt
      end ;;;
      match kw_idle_to_standby_time kwargs with
      | Some v => update_tool t (with_idle_to_standby_time v)
      | None => ret tt
      end ;;;
      match kw_idle_to_powerdown_time kwargs with
      | Some v => update_tool t (with_idle_to_powerdown_time v)
      | None => ret tt
      end ;;;
      let changing_timer :=
        bool_decide (is_Some (kw_idle_to_standby_time kwargs))
        || bool_decide (is_Some (kw_idle_to_powerdown_time kwargs)) in
      (* already in standby: re-arm the timers that are counting down *)
      let* T := lookup_tool t in
      when (HeaterState_eqb (heater_state T) HEATER_STATE_STANDBY
            && changing_timer)
        (let* rp := tool_timer t TIMER_TO_SHUTDOWN in
         let* tp := lookup_timer rp TIMER_TO_SHUTDOWN in
         when (counting_down tp)
           (set_timer_idle t TIMER_TO_SHUTDOWN (idle_to_powerdown_time T) t) ;;;
         let* rs := tool_timer t TIMER_TO_STANDBY in
         let* ts := lookup_timer rs TIMER_TO_STANDBY in
         when (counting_down ts)
           (set_timer_idle t TIMER_TO_STANDBY (idle_to_standby_time T) t)) ;;;
      match kw_heater_state kwargs with
      | None => ret tt
      | Some chng_state =>
          let* T := lookup_tool t in
          if HeaterState_eqb (heater_state T) chng_state then
            match chng_state with
            | HEATER_STATE_ACTIVE => set_temp e (heater_active_temp T)
            | HEATER_STATE_STANDBY => set_temp e (heater_standby_temp T)
            | HEATER_STATE_OFF => ret tt
            end
          else
            match chng_state with
            | HEATER_STATE_OFF =>
                set_timer_of t TIMER_TO_STANDBY 0 t ;;;
                set_timer_of t TIMER_TO_SHUTDOWN (1 # 10) t
            | HEATER_STATE_ACTIVE =>
                set_timer_of t TIMER_TO_STANDBY 0 t ;;;
                set_timer_of t TIMER_TO_SHUTDOWN 0 t ;;;
                set_temp e (heater_active_temp T)
            | HEATER_STATE_STANDBY =>
                let* h := lookup_heater (Some e) in
                if HeaterState_eqb (heater_state T) HEATER_STATE_ACTIVE
                   && (heater_standby_temp T <? int_of_float (temperature h))
                then
                  set_timer_idle t TIMER_TO_STANDBY
                    (idle_to_standby_time T) t ;;;
                  set_timer_idle t TIMER_TO_SHUTDOWN
                    (idle_to_powerdown_time T) t
                else
                  set_timer_of t TIMER_TO_STANDBY (1 # 10) t ;;;
                  set_timer_idle t TIMER_TO_SHUTDOWN
                    (idle_to_powerdown_time T) t
            end ;;;
            update_tool t (with_heater_state chng_state)
      end
  end.

(** ** Tool selection *)

(** [int(self.physical_parent_id == self.TOOL_UNLOCKED or
    self.physical_parent_id)]: [==] binds tighter than [or], so the
    argument of [int] is [True] for the parent -1, the parent itself
    otherwise, and [None] when there is none. *)
Definition int_unlocked_or_parent (pp : option Z) : M Z :=
  match pp with
  | Some p => if p =? TOOL_UNLOCKED then ret 1 else ret p
  | None => raise TypeError
  end.

(** [int(current_tool.get_status()["physical_parent_id"])] *)
Definition int_parent (pp : option Z) : M Z :=
  match pp with
  | Some p => ret p
  | None => raise TypeError
  end.

(** [self.physical_parent_id > self.TOOL_UNLOCKED and
    self.physical_parent_id == other] *)
Definition parent_known_and_equal (pp other : option Z) : M bool :=
  match pp with
  | Some p =>
      ret ((p >? TOOL_UNLOCKED) && bool_decide (other = Some p))
  | None => raise TypeError
  end.

(** [Tool.select_tool_actual] *)
Definition select_tool_actual (t : Z) (restore_mode : option (list axis))
    : M unit :=
  let* T := lookup_tool t in
  let* current_tool_id := gets tool_current in
  if current_tool_id =? t then ret tt
  else if current_tool_id <? TOOL_UNLOCKED then raise InvalidState
  else
    match extruder T with
    | Some _ => set_heater t (only_heater_state HEATER_STATE_ACTIVE)
    | None => ret tt
    end ;;;
    match restore_mode with
    | Some r => SaveCurrentPosition r
    | None => ret tt
    end ;;;
    (* Drop any tools already mounted if not virtual on same. *)
    let* current_tool_id :=
      if current_tool_id >? TOOL_UNLOCKED then
        let* current_tool := lookup_tool current_tool_id in
        let* mine := int_unlocked_or_parent (physical_parent_id T) in
        let* theirs := int_parent (physical_parent_id current_tool) in
        if negb (mine =? theirs) then
          Dropoff current_tool_id false ;;;
          ret TOOL_UNLOCKED
        else
          UnloadVirtual current_tool_id ;;;
          ret current_tool_id
      else ret current_tool_id in
    (* Now we asume tool has been dropped if needed be. *)
    (if negb (is_virtual T) then Pickup t
     else if current_tool_id >? TOOL_UNLOCKED then
       let* current_tool := lookup_tool current_tool_id in
       let* same :=
         parent_known_and_equal (physical_parent_id T)
           (physical_parent_id current_tool) in
       if same then LoadVirtual t else raise NotSamePhysicalTool
     else
       let* pp := lookup_tool_opt (physical_parent_id T) in
       let pp_virtual_loaded := virtual_loaded pp in
       Pickup t ;;;
       when ((pp_virtual_loaded >? TOOL_UNLOCKED)
             && negb (pp_virtual_loaded =? t))
         (let* uv := lookup_tool pp_virtual_loaded in
          match extruder uv with
          | Some _ =>
              set_heater pp_virtual_loaded
                (only_heater_state HEATER_STATE_ACTIVE) ;;;
              _Temperature_wait_with_tolerance (extruder T) 2
          | None => ret tt
          end ;;;
          UnloadVirtual pp_virtual_loaded ;;;
          set_heater t (only_heater_state HEATER_STATE_ACTIVE)) ;;;
       LoadVirtual t) ;;;
    SaveCurrentTool t.

(** [Tool.cmd_SelectTool]; [restore_mode] is the parsed [R] /
    [RESTORE_POSITION_TYPE] parameter. *)
Definition cmd_SelectTool (t : Z) (restore_mode : option (list axis))
    : M unit :=
  let* tool_is_remaped := tool_is_remaped t in
  if tool_is_remaped >? -1 then
    select_tool_actual tool_is_remaped restore_mode
  else
    select_tool_actual t restore_mode.

(** The templates run by a trace, in order. *)
Definition templates_run (tr : list event) : list (template * Z) :=
  flat_map (fun e => match e with
                     | RunTemplate g t => [(g, t)]
                     | _ => []
                     end) tr.

(** How many times [heater.set_temp(temp)] was called on heater [e]. *)
Definition count_set_temp (e : string) (temp : Z) (tr : list event) : nat :=
  length (List.filter
            (fun ev => match ev with
                       | SetTemp e' v => String.eqb e e' && (v =? temp)
                       | _ => false
                       end) tr).

(** ** Configuration load *)



Definition Qlt_bool (a b : Q) : bool := negb (Qle_bool b a).




(** [ToolStandbyTempTimer.__init__] *)
Definition ToolStandbyTempTimer_init : ToolStandbyTempTimer :=
  mkTimer None 0 false false false None None.

(** The tool a select request for [t] ends up selecting: the remap
    target when [t] has one, [t] itself otherwise. *)
Definition resolved_tool (s : State) (t : Z) : Z :=
  let r := default (-1) (tool_map s !! t) in
  if r >? -1 then r else t.

(** ** Notions used by the statements *)

(** [keeps R m]: whatever [m] does, and whether it returns or raises, the
    state it ends in is related by [R] to the state it started from. *)
Definition keeps (R : relation State) {A} (m : M A) : Prop :=
  forall s, R s (final (m s)).

(** [follows allowed s s']: from [s] to [s'] no tool object, heater or
    timer appeared or disappeared, no tool setting changed, the template
    oracle and the remap table are the same, and the trace grew by events
    that are all [allowed]. *)
Record follows (allowed : event -> Prop) (s s' : State) : Prop := mk_follows {
  follows_tools :
    forall t, settings <$> tools s' !! t = settings <$> tools s !! t;
  follows_heaters :
    forall e, is_Some (heaters s' !! e) <-> is_Some (heaters s !! e);
  follows_to_standby :
    forall r, is_Some (timers_to_standby s !! r) ->
              is_Some (timers_to_standby s' !! r);
  follows_to_powerdown :
    forall r, is_Some (timers_to_powerdown s !! r) ->
              is_Some (timers_to_powerdown s' !! r);
  follows_template_fails : template_fails s' = template_fails s;
  follows_tool_map : tool_map s' = tool_map s;
  follows_trace :
    exists evs, trace s' = trace s ++ evs /\ Forall allowed evs
}.

(** Calls to the services other than running a template. *)
Definition service_call (e : event) : Prop :=
  match e with
  | RunTemplate _ _ => False
  | _ => True
  end.

(** The outcome with [g] applied to the state it ends in. *)
Definition in_state {A} (g : State -> State) (o : outcome A) : outcome A :=
  match o with
  | Ok a s => Ok a (g s)
  | Raise e s => Raise e (g s)
  end.

(** [blind_to g m]: [m] neither reads nor assigns what [g] changes. *)
Definition blind_to {A} (g : State -> State) (m : M A) : Prop :=
  forall s, m (g s) = in_state g (m s).

(** The tool object [t] exists and its two timer attributes point to
    timer objects. *)
Definition timers_ready (s : State) (t : Z) : Prop :=
  exists (T : Tool) r, tools s !! t = Some T /\ timer_ref T = Some r /\
    is_Some (timers_to_standby s !! r) /\
    is_Some (timers_to_powerdown s !! r).

(** Tool [t] exists and, when it has an extruder, the heater of that
    name and the tool's timers exist: what [__init__] sets up. *)
Definition heater_ready (s : State) (t : Z) : Prop :=
  exists T : Tool, tools s !! t = Some T /\
    forall e, extruder T = Some e ->
      is_Some (heaters s !! e) /\ timers_ready s t.

(** [t] is a virtual tool whose physical parent is [p]. *)
Definition virtual_on (s : State) (t p : Z) : Prop :=
  exists T : Tool, tools s !! t = Some T /\ is_virtual T = true /\
                   physical_parent_id T = Some p.

(** The setting [unload_virtual_at_dropoff] of every tool replaced by [v]. *)
Definition with_unload_virtual_at_dropoff (v : option bool) (T : Tool)
    : Tool :=
  mkTool
    (mkSettings (config T) (is_virtual T) (physical_parent_id T) (extruder T)
       (fan T) (lazy_home_when_parking T) (zone T) (park T) (offset T)
       (shaper_freq_x T) (shaper_freq_y T) v (timer_ref T))
    (virtual_loaded T) (heater_state T) (heater_active_temp T)
    (heater_standby_temp T) (idle_to_standby_time T)
    (idle_to_powerdown_time T).

Definition set_unload_virtual_at_dropoff (v : option bool) : State -> State :=
  set_tools (fmap (with_unload_virtual_at_dropoff v)).

(** [minimum <= x <= maximum] *)
Definition within (x : Q) (minimum maximum : Z) : bool :=
  Qle_bool (inject_Z minimum) x && Qle_bool x (inject_Z maximum).

(** The host's [TEMPERATURE_WAIT], which the trace only records: it reads
    the sensor, returns when the reading lies within the bounds and
    otherwise yields to the reactor and reads again.  [reading k] is the
    value at the [k]-th poll; the result is the poll at which the command
    returned, [None] when [fuel] polls were not enough. *)
Fixpoint TEMPERATURE_WAIT (fuel : nat) (reading : nat -> Q) (k : nat)
    (minimum maximum : Z) : option nat :=
  match fuel with
  | O => None
  | S fuel =>
      if within (reading k) minimum maximum then Some k
      else TEMPERATURE_WAIT fuel reading (S k) minimum maximum
  end.

(** ** Example printers *)

Module Example.
Definition origin : option (list string) := Some ["0"; "0"; "0"]%string.

(** A physical tool that names itself as physical parent. *)
Definition physical_tool (name : Z) (extruder : option string)
    (lazy_home : option bool) : ToolConfig :=
  mkConfig (Some name) 0 (Some name) (Some false) extruder None lazy_home
    origin origin origin None None None None None.

(** A virtual tool on the physical tool [parent]. *)
Definition virtual_tool (name parent : Z) : ToolConfig :=
  mkConfig (Some name) 0 (Some parent) (Some true) None None None
    None None None None None None None None.


(** A physical tool configured with [physical_parent: -1]. *)
Definition parentless_tool (name : Z) : ToolConfig :=
  mkConfig (Some name) 0 (Some (-1)) (Some false) None None None
    origin origin origin None None None None None.

Definition coordinates : list string := ["0"; "0"; "0"]%string.

(** A tool object with the section [c] as [config]: parked at the
    origin, nothing virtually loaded, heater off and no temperature set.
    With an extruder it has idle times of 30 and 600 seconds and points
    to the timers of the tool [timers]. *)
Definition tool_object (c : ToolConfig) (parent : Z)
    (extruder fan : option string) (timers : Z) : Tool :=
  let is_virtual := default false (cfg_is_virtual c) in
  mkTool
    (mkSettings c is_virtual (Some parent) extruder fan
       (from_option Z.b2z 0 (cfg_lazy_home_when_parking c))
       coordinates coordinates coordinates 0 0
       (if is_virtual then Some true else None)
       (extruder ≫= fun _ => Some timers))
    (-1) HEATER_STATE_OFF 0 0
    (extruder ≫= fun _ => Some 30%Q) (extruder ≫= fun _ => Some 600%Q).

Definition one_extruder : gmap string Heater :=
  {[ "extruder"%string := mkHeater 0 20 ]}.

Definition never_fails (g : template) (t : Z) : bool := false.

(** A printer with these tool, timer and heater objects: no tool on the
    head, no remap, all axes homed, nothing saved, no call made yet. *)
Definition unlocked (tools : gmap Z Tool)
    (timers : gmap Z ToolStandbyTempTimer) (heaters : gmap string Heater)
    : State :=
  mkState tools timers timers heaters TOOL_UNLOCKED ∅ 0 None []
    [AxisX; AxisY; AxisZ] [0%Q; 0%Q; 0%Q] 0 never_fails [].

(** Spec 8, example scenario: T0 and T1 virtual on the physical T2, which
    has the extruder and the timers, plus a physical T3 that homes
    lazily. *)
Definition printer : State :=
  unlocked
    {[ 0 := tool_object (virtual_tool 0 2) 2 (Some "extruder"%string) None 2;
       1 := tool_object (virtual_tool 1 2) 2 (Some "extruder"%string) None 2;
       2 := tool_object (physical_tool 2 (Some "extruder"%string) None) 2
              (Some "extruder"%string) None 2;
       3 := tool_object (physical_tool 3 None (Some true)) 3 None None 3 ]}
    {[ 2 := ToolStandbyTempTimer_init ]} one_extruder.

(** The same printer with only Z homed. *)
Definition printer_z_homed : State := set_homed_axes [AxisZ] printer.

(** The same printer with T1 remapped to T2 and T2 to T3. *)
Definition printer_remapped : State :=
  set_tool_map {[ 1 := 2; 2 := 3 ]} printer.

(** The same printer with a tool of unknown identity on the head. *)
Definition printer_unknown : State := set_tool_current TOOL_UNKNOWN printer.

(** The same printer after [SET_TOOL_TEMPERATURE TOOL=2 STDB_TMP=150
    ACTV_TMP=210]. *)
Definition printer_with_temperatures : State :=
  final (set_heater 2 (mk_kwargs (Some 150) (Some 210) None None None)
           printer).

(** A heater set to 30 degrees that is at 20 degrees, and one set to
    210 degrees that is at 180; no tool object, and the tool lock as its
    first assignments leave it, [tool_current = "-2"]. *)
Definition two_heaters : State :=
  mkState ∅ ∅ ∅
    {[ "heater_bed"%string := mkHeater 30 20;
       "extruder"%string := mkHeater 210 180 ]}
    (-2) ∅ 0 None [] [AxisX; AxisY; AxisZ] [0%Q; 0%Q; 0%Q] 0
    never_fails [].

(** T0 virtual on the physical T1, and a physical T2 whose physical
    parent is -1; no tool has an extruder. *)
Definition printer_with_parentless_tool : State :=
  unlocked
    {[ 0 := tool_object (virtual_tool 0 1) 1 None None 1;
       1 := tool_object (physical_tool 1 None None) 1 None None 1;
       2 := tool_object (parentless_tool 2) (-1) None None 2 ]}
    ∅ one_extruder.
End Example.

(** ** Notions used by the further statements *)

(** The timer object [set_timer] leaves when it is called outside the
    timer's callback at the state [s]. *)
Definition armed (s : State) (tm : ToolStandbyTempTimer) (d : Q) (a : Z)
    : ToolStandbyTempTimer :=
  let d := py_max d min_duration_threshold in
  mkTimer (Some a) d false (repeat tm) true
    (Some (monotonic s + d)%Q) (Some (monotonic s + d)%Q).

(** The store of the timers of kind [k] replaced. *)
Definition set_timer_store (k : temp_type)
    (f : gmap Z ToolStandbyTempTimer -> gmap Z ToolStandbyTempTimer)
    : State -> State :=
  match k with
  | TIMER_TO_STANDBY => set_timers_to_standby f
  | TIMER_TO_SHUTDOWN => set_timers_to_powerdown f
  end.

(** [same_timer k r s s']: the timer object of kind [k] with [tool_id]
    [r] is the same in [s] and [s']. *)
Definition same_timer (k : temp_type) (r : Z) (s s' : State) : Prop :=
  timer_store k s' !! r = timer_store k s !! r.

(** ** Further example printers *)

Module Scenario.
(** The example printer with T2 active at 210 degrees, its hot end
    measured at 205 degrees. *)
Definition printing : State :=
  set_heaters (insert "extruder"%string (mkHeater 210 205))
    (final (set_heater 2 (only_heater_state HEATER_STATE_ACTIVE)
              Example.printer_with_temperatures)).
End Scenario.

Module Cooling.
(** [Scenario.printing] after T2 was put in standby: both timers are
    counting down. *)
Definition in_standby : State :=
  final (set_heater 2 (only_heater_state HEATER_STATE_STANDBY)
           Scenario.printing).
End Cooling.

(** ** What heater management and a selection may change *)

(** The two calls heater management makes: [heater.set_temp] and
    [reactor.update_timer]. *)
Definition heater_call (e : event) : Prop :=
  match e with
  | SetTemp _ _ | UpdateTimer _ _ _ => True
  | _ => False
  end.

(** [heating_only s s']: from [s] to [s'] nothing but heater management
    has happened.  The current tool, the remap table, the homed axes, the
    saved fan speed and position, the clock and the template oracle are
    the same, every tool object has the settings and the [virtual_loaded]
    it had, and the trace grew by [set_temp] and [update_timer] calls
    only. *)
Record heating_only (s s' : State) : Prop := mk_heating_only {
  heating_tool_current : tool_current s' = tool_current s;
  heating_tool_map : tool_map s' = tool_map s;
  heating_homed_axes : homed_axes s' = homed_axes s;
  heating_saved_fan_speed : saved_fan_speed s' = saved_fan_speed s;
  heating_saved_position : saved_position s' = saved_position s;
  heating_restore_axis :
    restore_axis_on_toolchange s' = restore_axis_on_toolchange s;
  heating_gcode_position : gcode_position s' = gcode_position s;
  heating_monotonic : monotonic s' = monotonic s;
  heating_template_fails : template_fails s' = template_fails s;
  heating_tools :
    forall t,
      (fun T : Tool => (settings T, virtual_loaded T)) <$> tools s' !! t
      = (fun T : Tool => (settings T, virtual_loaded T)) <$> tools s !! t;
  heating_trace :
    exists evs, trace s' = trace s ++ evs /\ Forall heater_call evs
}.

(** The events a selection of [t] may leave: any call but the pickup or
    the virtual load of another tool. *)
Definition mounts_only (t : Z) (e : event) : Prop :=
  match e with
  | RunTemplate pickup_gcode u | RunTemplate virtual_toolload_gcode u =>
      u = t
  | _ => True
  end.

(** [grows s s']: the trace of [s'] is the trace of [s] with calls
    added. *)
Definition grows (s s' : State) : Prop :=
  exists evs, trace s' = trace s ++ evs.

(** [ran g t s s']: from [s] to [s'] the trace grew, and the template
    [g] of tool [t] is among the templates run by the calls added. *)
Definition ran (g : template) (t : Z) (s s' : State) : Prop :=
  exists evs, trace s' = trace s ++ evs /\ In (g, t) (templates_run evs).

(** [same_objects s s']: the tool, heater and timer objects of [s'] are
    those of [s]; none appeared and none disappeared. *)
Record same_objects (s s' : State) : Prop := mk_same_objects {
  same_tool_objects :
    forall t, is_Some (tools s' !! t) <-> is_Some (tools s !! t);
  same_heater_objects :
    forall e, is_Some (heaters s' !! e) <-> is_Some (heaters s !! e);
  same_standby_timers :
    forall r, is_Some (timers_to_standby s' !! r)
              <-> is_Some (timers_to_standby s !! r);
  same_powerdown_timers :
    forall r, is_Some (timers_to_powerdown s' !! r)
              <-> is_Some (timers_to_powerdown s !! r)
}.

(** ** G-code commands of ToolLock *)

(** The [gcmd.error] a parameter accessor raises. *)
Inductive gcmd_error : Set :=
| BelowMinimum        (* "Error on '...': ... must have minimum of ..." *)
| AboveMaximum        (* "Error on '...': ... must have maximum of ..." *)
| MissingParameter    (* "Error on '...': missing ..." *)
| InvalidRestoreType. (* "Invalid RESTORE_POSITION_TYPE" *)

(** [gcmd.get_int(name, default, minval=.., maxval=..)] of the host, for
    a parameter that is absent ([None]) or holds the number [v]: the
    default is returned as it is, a value outside the bounds raises. *)
Definition get_int (value : option Z) (default : option Z)
    (minval maxval : option Z) : gcmd_error + option Z :=
  match value with
  | None => inr default
  | Some v =>
      if from_option (fun m => v <? m) false minval then inl BelowMinimum
      else if from_option (fun m => m <? v) false maxval
      then inl AboveMaximum
      else inr (Some v)
  end.

(** [gcmd.get_float(name, default, minval=.., maxval=..)] *)
Definition get_float (value : option Q) (default : option Q)
    (minval maxval : option Q) : gcmd_error + option Q :=
  match value with
  | None => inr default
  | Some v =>
      if from_option (fun m => Qlt_bool v m) false minval
      then inl BelowMinimum
      else if from_option (fun m => Qlt_bool m v) false maxval
      then inl AboveMaximum
      else inr (Some v)
  end.

(** A command handler: it raises a [gcmd.error] of its parameters before
    it has done anything, or runs. *)
Definition command : Type := M (gcmd_error + unit).

Definition set_saved_fan_speed (v : Q) (s : State) : State :=
  mkState (tools s) (timers_to_standby s) (timers_to_powerdown s)
    (heaters s) (tool_current s) (tool_map s) v
    (saved_position s) (restore_axis_on_toolchange s) (homed_axes s)
    (gcode_position s) (monotonic s) (template_fails s) (trace s).

(** [ToolLock.SaveFanSpeed] *)
Definition SaveFanSpeed (fanspeed : Q) : M unit :=
  modify (set_saved_fan_speed fanspeed).

(** [ToolLock.SetAndSaveFanSpeed] *)
Definition SetAndSaveFanSpeed (tool_id : Z) (fanspeed : Q) : M unit :=
  let* tool_is_remaped := tool_is_remaped tool_id in
  let tool_id := if tool_is_remaped >? -1 then tool_is_remaped else tool_id in
  let* tool := lookup_tool tool_id in
  match fan tool with
  | None => ret tt
  | Some f =>
      SaveFanSpeed fanspeed ;;;
      emit (SetFanSpeed f fanspeed)
  end.

(** [ToolLock.cmd_SET_AND_SAVE_FAN_SPEED]; [S] and [P] are the
    parameters of the command line. *)
Definition cmd_SET_AND_SAVE_FAN_SPEED (S : option Q) (P : option Z)
    : command :=
  match get_float S (Some 1%Q) (Some 0%Q) (Some 255%Q) with
  | inl e => ret (inl e)
  | inr fanspeed =>
      let fanspeed := default 1%Q fanspeed in
      let* tool_current := gets tool_current in
      match get_int P (Some tool_current) (Some 0) None with
      | inl e => ret (inl e)
      | inr tool_id =>
          let tool_id := default tool_current tool_id in
          if tool_id <? 0 then ret (inr tt)
          else
            let fanspeed :=
              if Qlt_bool 1 fanspeed then (fanspeed / 255)%Q else fanspeed in
            SetAndSaveFanSpeed tool_id fanspeed ;;;
            ret (inr tt)
      end
  end.

(** [ToolLock._get_tool_id_from_gcmd]; [TOOL] is the parameter of the
    command line. *)
Definition _get_tool_id_from_gcmd (TOOL : option Z)
    : M (gcmd_error + option Z) :=
  match get_int TOOL None (Some 0) None with
  | inl e => ret (inl e)
  | inr tool_id =>
      let* tool_current := gets tool_current in
      let tool_id := default tool_current tool_id in
      if tool_id <=? TOOL_UNLOCKED then ret (inr None)
      else
        let* tool_is_remaped := tool_is_remaped tool_id in
        ret (inr (Some (if tool_is_remaped >? TOOL_UNLOCKED
                        then tool_is_remaped else tool_id)))
  end.

(** The heater state of the code [c]. *)
Definition HeaterState_of_code (c : Z) : HeaterState :=
  if c =? 0 then HEATER_STATE_OFF
  else if c =? 1 then HEATER_STATE_STANDBY
  else HEATER_STATE_ACTIVE.

(** [not set_heater_cmd]: the dictionary of keyword arguments is empty. *)
Definition empty_kwargs (kwargs : set_heater_kwargs) : bool :=
  negb (bool_decide (is_Some (kw_heater_standby_temp kwargs))
        || bool_decide (is_Some (kw_heater_active_temp kwargs))
        || bool_decide (is_Some (kw_idle_to_standby_time kwargs))
        || bool_decide (is_Some (kw_idle_to_powerdown_time kwargs))
        || bool_decide (is_Some (kw_heater_state kwargs))).

(** The parameters of [SET_TOOL_TEMPERATURE]. *)
Record SET_TOOL_TEMPERATURE_params : Type := mk_temperature_params {
  TOOL : option Z;
  STDB_TMP : option Q;
  ACTV_TMP : option Q;
  CHNG_STATE : option Z;
  STDB_TIMEOUT : option Q;
  SHTDWN_TIMEOUT : option Q
}.

(** [ToolLock.cmd_SET_TOOL_TEMPERATURE].  With no temperature parameter
    the command only answers with the current settings. *)
Definition cmd_SET_TOOL_TEMPERATURE (gcmd : SET_TOOL_TEMPERATURE_params)
    : command :=
  let* tool_id := _get_tool_id_from_gcmd (TOOL gcmd) in
  match tool_id with
  | inl e => ret (inl e)
  | inr None => ret (inr tt)
  | inr (Some tool_id) =>
  match get_float (STDB_TMP gcmd) None (Some 0%Q) None with
  | inl e => ret (inl e)
  | inr stdb_tmp =>
  match get_float (ACTV_TMP gcmd) None (Some 0%Q) None with
  | inl e => ret (inl e)
  | inr actv_tmp =>
  match get_int (CHNG_STATE gcmd) None (Some 0) (Some 2) with
  | inl e => ret (inl e)
  | inr chng_state =>
  match get_float (STDB_TIMEOUT gcmd) None (Some 0%Q) None with
  | inl e => ret (inl e)
  | inr stdb_timeout =>
  match get_float (SHTDWN_TIMEOUT gcmd) None (Some 0%Q) None with
  | inl e => ret (inl e)
  | inr shtdwn_timeout =>
      let* _ := lookup_tool tool_id in
      let set_heater_cmd :=
        mk_kwargs (int_of_float <$> stdb_tmp) (int_of_float <$> actv_tmp)
          stdb_timeout shtdwn_timeout (HeaterState_of_code <$> chng_state) in
      if empty_kwargs set_heater_cmd then ret (inr tt)
      else set_heater tool_id set_heater_cmd ;;; ret (inr tt)
  end end end end end
  end.

(** [str(n)] of a natural number. *)
Definition str_of_digit (n : nat) : string :=
  String (Ascii.ascii_of_nat (48 + n)) EmptyString.

Fixpoint str_of_nat_fuel (fuel n : nat) : string :=
  match fuel with
  | O => EmptyString
  | S fuel =>
      if (n <? 10)%nat then str_of_digit n
      else (str_of_nat_fuel fuel (n / 10) +:+ str_of_digit (n mod 10))%string
  end.

Definition str_of_nat (n : nat) : string := str_of_nat_fuel (S n) n.

(** [ToolLock.cmd_TEMPERATURE_WAIT_WITH_TOLERANCE]; [TOOL], [HEATER] and
    [TOLERANCE] are the parameters of the command line. *)
Definition cmd_TEMPERATURE_WAIT_WITH_TOLERANCE
    (TOOL HEATER TOLERANCE : option Z) : command :=
  match get_int TOOL None (Some 0) None with
  | inl e => ret (inl e)
  | inr tool_id =>
  match get_int HEATER None (Some 0) None with
  | inl e => ret (inl e)
  | inr heater_id =>
  match get_int TOLERANCE (Some 1) (Some 0) None with
  | inl e => ret (inl e)
  | inr tolerance =>
      let tolerance := default 1 tolerance in
      match tool_id, heater_id with
      | Some _, Some _ => ret (inr tt)
      | None, None =>
          let* tool_current := gets tool_current in
          let* heater_name :=
            if tool_current >=? 0 then
              let* tool := lookup_tool tool_current in
              ret (extruder tool)
            else ret None in
          (* Wait for bed *)
          _Temperature_wait_with_tolerance (Some "heater_bed"%string)
            tolerance ;;;
          match heater_name with
          | Some n => _Temperature_wait_with_tolerance (Some n) tolerance
          | None => ret tt
          end ;;;
          ret (inr tt)
      | Some tool_id, None =>
          let* tool_is_remaped := tool_is_remaped tool_id in
          let tool_id :=
            if tool_is_remaped >? -1 then tool_is_remaped else tool_id in
          let* tool := lookup_tool tool_id in
          match extruder tool with
          | Some n => _Temperature_wait_with_tolerance (Some n) tolerance
          | None => ret tt
          end ;;;
          ret (inr tt)
      | None, Some heater_id =>
          let heater_name :=
            if heater_id =? 0 then "heater_bed"%string
            else if heater_id =? 1 then "extruder"%string
            else ("extruder" +:+ str_of_nat (Z.to_nat (heater_id - 1)))%string
          in
          _Temperature_wait_with_tolerance (Some heater_name) tolerance ;;;
          ret (inr tt)
      end
  end end end.

(** ** Restore types *)

(** [c in XYZ_TO_INDEX] *)
Definition in_XYZ_TO_INDEX (c : Ascii.ascii) : bool :=
  existsb (String.eqb (String c EmptyString))
    ["x"; "X"; "y"; "Y"; "z"; "Z"]%string.

(** [parse_restore_type]; [type] is the parameter [arg_name] of the
    command line. *)
Definition parse_restore_type (type : option string)
    (default : option string) : gcmd_error + option string :=
  match type with
  | None => inr default
  | Some type =>
      if String.eqb type "0" then inr (Some ""%string)
      else if String.eqb type "1" then inr (Some "XY"%string)
      else if String.eqb type "2" then inr (Some "XYZ"%string)
      else if forallb in_XYZ_TO_INDEX (String.list_ascii_of_string type)
      then inr (Some type)
      else inl InvalidRestoreType
  end.

(** The two calls of [cmd_SelectTool]: [R], then [RESTORE_POSITION_TYPE]
    with the first result as default. *)
Definition restore_mode_of_gcmd (R RESTORE_POSITION_TYPE : option string)
    : gcmd_error + option string :=
  match parse_restore_type R None with
  | inl e => inl e
  | inr restore_mode =>
      parse_restore_type RESTORE_POSITION_TYPE restore_mode
  end.

(** ** A printer with a part cooling fan *)

Module FanScenario.
(** The physical tool T2 with the extruder and the fan "fan0". *)
Definition tool_with_fan : ToolConfig :=
  mkConfig (Some 2) 0 (Some 2) (Some false) (Some "extruder"%string)
    (Some "fan0"%string) None Example.origin Example.origin Example.origin
    None None None None None.

Definition printer : State :=
  Example.unlocked
    {[ 2 := Example.tool_object tool_with_fan 2 (Some "extruder"%string)
              (Some "fan0"%string) 2 ]}
    {[ 2 := ToolStandbyTempTimer_init ]} Example.one_extruder.
End FanScenario.

(** A [TEMPERATURE_WAIT] on the sensor of a heater of [s] whose target,
    as an integer, is above 40 degrees, with the bounds [tolerance] below
    and above that target. *)
Definition wait_within (s : State) (tolerance : Z) (e : event) : Prop :=
  match e with
  | TemperatureWait sensor minimum maximum =>
      exists h : Heater,
        heaters s !! sensor = Some h /\
        40 < int_of_float (target h) /\
        minimum = int_of_float (target h) - tolerance /\
        maximum = int_of_float (target h) + tolerance
  | _ => False
  end.

(** [only_waits tolerance s s']: [s'] is [s] with such waits added to the
    trace, and nothing else changed. *)
Definition only_waits (tolerance : Z) (s s' : State) : Prop :=
  exists evs,
    s' = set_trace (fun _ => trace s ++ evs) s /\
    Forall (wait_within s tolerance) evs.

(** ** Waiting on an endstop *)

(** How [ToolLock.query_endstop] ends: no endstop of that name; the
    printer shut down before the first poll, so that the name
    [is_triggered] is not bound at the final assignment; or the reading
    stored in [last_endstop_query], with the number of polls made. *)
Inductive query_endstop_result : Set :=
| UnknownEndstop
| UnboundIsTriggered
| EndstopQueried (is_triggered : bool) (polls : nat).

(** The [while] loop of [query_endstop].  [endstop k] is what the
    endstop reads at the poll number [k], [is_shutdown k] what
    [printer.is_shutdown()] answers before it, both counted from 0; [i]
    polls are made so far and [is_triggered] holds the last reading.
    Between two polls the method pauses, for 1 second when [attempts] is
    -1 and 0.1 second otherwise; the readings being indexed by poll, the
    pause does not show.  [None] when [fuel] rounds were not enough. *)
Fixpoint query_endstop_loop (fuel : nat) (endstop is_shutdown : nat -> bool)
    (should_be_triggered : bool) (attempts : Z) (i : nat)
    (is_triggered : option bool) : option query_endstop_result :=
  match fuel with
  | O => None
  | S fuel =>
      if is_shutdown i then
        Some (match is_triggered with
              | Some b => EndstopQueried b i
              | None => UnboundIsTriggered
              end)
      else
        let i := S i in
        let is_triggered := endstop (Nat.pred i) in
        if Bool.eqb is_triggered should_be_triggered
        then Some (EndstopQueried is_triggered i)
        else if (attempts >? 0) && (attempts <=? Z.of_nat i)
        then Some (EndstopQueried is_triggered i)
        else query_endstop_loop fuel endstop is_shutdown should_be_triggered
               attempts i (Some is_triggered)
  end.

(** [ToolLock.query_endstop]; [endstops] is [query_endstops.endstops]. *)
Definition query_endstop (fuel : nat)
    (endstops : list ((nat -> bool) * string)) (is_shutdown : nat -> bool)
    (endstop_name : string) (should_be_triggered : bool) (attempts : Z)
    : option query_endstop_result :=
  match List.find (fun es => String.eqb (snd es) endstop_name) endstops with
  | None => Some UnknownEndstop
  | Some (endstop, _) =>
      query_endstop_loop fuel endstop is_shutdown should_be_triggered
        attempts 0 None
  end.

(** ** Tool remapping *)

(** The printer together with the variable [ktcc_state_tool_remap] of the
    [save_variables] file: [None] as long as it was never saved. *)
Record Saved : Type := mkSaved {
  printer : State;
  ktcc_state_tool_remap : option (gmap Z Z)
}.

(** [SAVE_VARIABLE VARIABLE=ktcc_state_tool_remap VALUE='{self.tool_map}'] *)
Definition save_tool_map (v : Saved) : Saved :=
  mkSaved (printer v) (Some (tool_map (printer v))).

(** [ToolLock._set_tool_to_tool]; [True] stands for the [None] the
    method returns after it has changed the table. *)
Definition _set_tool_to_tool (from_tool to_tool : Z) (v : Saved)
    : bool * Saved :=
  match tools (printer v) !! to_tool with
  | None => (false, v)
  | Some _ =>
      (true,
       save_tool_map
         (mkSaved (set_tool_map (<[from_tool := to_tool]>
                                   (tool_map (printer v))) (printer v))
            (ktcc_state_tool_remap v)))
  end.

(** [ToolLock._remap_tool] *)
Definition _remap_tool (tool gate : Z) (v : Saved) : Saved :=
  snd (_set_tool_to_tool tool gate v).

(** [ToolLock._reset_tool_mapping] *)
Definition _reset_tool_mapping (v : Saved) : Saved :=
  save_tool_map (mkSaved (set_tool_map ∅ (printer v))
                   (ktcc_state_tool_remap v)).

(** [gcmd.get_int(name, minval=..)] of a parameter without default. *)
Definition get_int_required (value : option Z) (minval : option Z)
    : gcmd_error + Z :=
  match value with
  | None => inl MissingParameter
  | Some v =>
      if from_option (fun m => v <? m) false minval then inl BelowMinimum
      else inr v
  end.

(** [ToolLock.cmd_KTCC_REMAP_TOOL]; [RESET], [TOOL] and [SET] are the
    parameters of the command line. *)
Definition cmd_KTCC_REMAP_TOOL (RESET TOOL SET : option Z) (v : Saved)
    : gcmd_error + Saved :=
  match get_int RESET (Some 0) (Some 0) (Some 1) with
  | inl e => inl e
  | inr reset =>
      if default 0 reset =? 1 then inr (_reset_tool_mapping v)
      else
        match get_int TOOL (Some (-1)) (Some 0) None with
        | inl e => inl e
        | inr from_tool =>
            let from_tool := default (-1) from_tool in
            match get_int_required SET (Some 0) with
            | inl e => inl e
            | inr to_tool =>
                if negb (from_tool =? -1)
                then inr (_remap_tool from_tool to_tool v)
                else inr v
            end
        end
  end.

(** ** Turning all heaters off, and back on *)

(** What [set_all_tool_heaters_off] and [resume_all_tool_heaters] raise:
    the exception of the loop, wrapped in a new one. *)
Inductive fleet_error : Set :=
| SetAllToolHeatersOffError     (* 'set_all_tool_heaters_off: Error: ...' *)
| ResumeAllToolHeatersError.    (* 'resume_all_tool_heaters: Error: ...' *)

(** The printer together with the attribute
    [changes_made_by_set_all_tool_heaters_off] of the tool lock, a
    dictionary in insertion order. *)
Record Fleet : Type := mkFleet {
  fleet_printer : State;
  changes_made_by_set_all_tool_heaters_off : list (Z * HeaterState)
}.

(** [d[k] = v] on a dictionary in insertion order. *)
Fixpoint dict_set (k : Z) (v : HeaterState) (d : list (Z * HeaterState))
    : list (Z * HeaterState) :=
  match d with
  | [] => [(k, v)]
  | (k', v') :: d =>
      if k =? k' then (k, v) :: d else (k', v') :: dict_set k v d
  end.

(** The loop of [set_all_tool_heaters_off].  [all_tools] lists the tool
    objects in the order of [printer.lookup_objects('tool')]; a name
    without object, which such a listing does not have, is left out.
    The result is the exception that ended the loop, if any, with the
    table and the printer as they are then. *)
Fixpoint set_all_tool_heaters_off_loop (all_tools : list Z)
    (changes : list (Z * HeaterState)) (s : State)
    : option exn * list (Z * HeaterState) * State :=
  match all_tools with
  | [] => (None, changes, s)
  | tool_name :: all_tools =>
      match tools s !! tool_name with
      | None => set_all_tool_heaters_off_loop all_tools changes s
      | Some tool =>
          if bool_decide (extruder (tool : Tool) = None)
          then set_all_tool_heaters_off_loop all_tools changes s
          else if HeaterState_eqb (heater_state tool) HEATER_STATE_OFF
          then set_all_tool_heaters_off_loop all_tools changes s
          else
            let changes := dict_set tool_name (heater_state tool) changes in
            match set_heater tool_name
                    (only_heater_state HEATER_STATE_OFF) s with
            | Ok _ s => set_all_tool_heaters_off_loop all_tools changes s
            | Raise e s => (Some e, changes, s)
            end
      end
  end.

(** [ToolLock.set_all_tool_heaters_off] *)
Definition set_all_tool_heaters_off (all_tools : list Z) (f : Fleet)
    : option fleet_error * Fleet :=
  match set_all_tool_heaters_off_loop all_tools [] (fleet_printer f) with
  | (None, changes, s) => (None, mkFleet s changes)
  | (Some _, changes, s) =>
      (Some SetAllToolHeatersOffError, mkFleet s changes)
  end.

(** One loop of [resume_all_tool_heaters]: the entries whose saved state
    is [state] get it back. *)
Fixpoint resume_loop (state : HeaterState) (items : list (Z * HeaterState))
    : M unit :=
  match items with
  | [] => ret tt
  | (tool_name, saved) :: items =>
      when (HeaterState_eqb saved state)
        (set_heater tool_name (only_heater_state saved)) ;;;
      resume_loop state items
  end.

(** [ToolLock.resume_all_tool_heaters]: the tools in standby first, then
    the active ones. *)
Definition resume_all_tool_heaters (f : Fleet) : option fleet_error * Fleet :=
  let items := changes_made_by_set_all_tool_heaters_off f in
  match (resume_loop HEATER_STATE_STANDBY items ;;;
         resume_loop HEATER_STATE_ACTIVE items) (fleet_printer f) with
  | Ok _ s => (None, mkFleet s items)
  | Raise _ s => (Some ResumeAllToolHeatersError, mkFleet s items)
  end.

(** Tool [t] is loaded as [__init__] leaves a tool: with its heater and
    timers and, when it has an extruder, both idle times. *)
Definition heater_set_up (s : State) (t : Z) : Prop :=
  exists T : Tool, tools s !! t = Some T /\ heater_ready s t /\
    (is_Some (extruder T) ->
     is_Some (idle_to_standby_time T) /\
     is_Some (idle_to_powerdown_time T)).

(** The entry [set_all_tool_heaters_off] saves for tool [t]: its heater
    state, when it has an extruder and is not off. *)
Definition saved_entry (s : State) (t : Z) : option (Z * HeaterState) :=
  match tools s !! t with
  | Some T =>
      if bool_decide (is_Some (extruder (T : Tool)))
         && negb (HeaterState_eqb (heater_state T) HEATER_STATE_OFF)
      then Some (t, heater_state T)
      else None
  | None => None
  end.

(** Tool [t] exists and has an extruder. *)
Definition has_extruder (s : State) (t : Z) : Prop :=
  exists T : Tool, tools s !! t = Some T /\ is_Some (extruder T).

(** The tool objects are the same. *)
Definition same_tools (s s' : State) : Prop := tools s' = tools s.

(** No event of the list is a [SAVE_VARIABLE] of the current tool. *)
Definition no_save_variable (evs : list event) : Prop :=
  Forall (fun ev => forall v, ev <> SaveVariable v) evs.

(** * Properties *)

(** ** Running the monad *)

Section Running.
Context {A B : Type}.

Lemma bind_Ok (m : M A) (k : A -> M B) s a s1 :
  m s = Ok a s1 -> bind m k s = k a s1.
Proof. intros H. unfold bind. now rewrite H. Qed.

Lemma bind_Ok_inv (m : M A) (k : A -> M B) s b s2 :
  bind m k s = Ok b s2 -> exists a s1, m s = Ok a s1 /\ k a s1 = Ok b s2.
Proof.
  unfold bind. destruct (m s) as [a s1|e s1]; [|discriminate].
  intros H. now exists a, s1.
Qed.

Lemma bind_assoc {C} (m : M A) (k : A -> M B) (k' : B -> M C) s :
  bind (bind m k) k' s = bind m (fun a => bind (k a) k') s.
Proof. unfold bind. now destruct (m s). Qed.
End Running.

Lemma lookup_tool_Some s t T :
  tools s !! t = Some T -> lookup_tool t s = Ok T s.
Proof. intros H. unfold lookup_tool. now rewrite H. Qed.

Lemma lookup_timer_Some s r k tm :
  timer_store k s !! r = Some tm -> lookup_timer r k s = Ok tm s.
Proof. intros H. unfold lookup_timer. now rewrite H. Qed.

Lemma SaveCurrentTool_Ok t s :
  SaveCurrentTool t s =
  Ok tt (set_trace (fun tr => tr ++ [SaveVariable t]) (set_tool_current t s)).
Proof. reflexivity. Qed.

Lemma cmd_SelectTool_resolved t rm s :
  cmd_SelectTool t rm s = select_tool_actual (resolved_tool s t) rm s.
Proof.
  unfold cmd_SelectTool, resolved_tool, tool_is_remaped, bind, gets.
  now destruct (default (-1) (tool_map s !! t) >? -1).
Qed.

(** A selection that returns has made its tool the current one. *)
Lemma select_tool_actual_current t rm s s' :
  select_tool_actual t rm s = Ok tt s' -> tool_current s' = t.
Proof.
  unfold select_tool_actual. intros H.
  apply bind_Ok_inv in H as (T & s1 & HT & H).
  unfold lookup_tool in HT. destruct (tools s !! t); [|discriminate].
  injection HT as <- <-.
  apply bind_Ok_inv in H as (c & s2 & Hc & H). injection Hc as <- <-.
  destruct (tool_current s =? t) eqn:E.
  - injection H as <-. now apply Z.eqb_eq.
  - destruct (tool_current s <? TOOL_UNLOCKED); [discriminate|].
    apply bind_Ok_inv in H as (? & ? & _ & H).
    apply bind_Ok_inv in H as (? & ? & _ & H).
    apply bind_Ok_inv in H as (? & ? & _ & H).
    apply bind_Ok_inv in H as (? & ? & _ & H).
    rewrite SaveCurrentTool_Ok in H. now injection H as <-.
Qed.

(** ** Selecting the current tool, and selecting over an unknown tool *)

(** C4.  A select request whose resolved tool is already the current
    tool returns normally and leaves the whole state as it was: the trace
    (so no template ran and no heater or timer call was made), the current
    tool, every tool object (its [virtual_loaded] and [heater_state]) and
    every timer. *)
Theorem select_current_tool_is_noop s t rm T :
  tools s !! resolved_tool s t = Some T ->
  tool_current s = resolved_tool s t ->
  cmd_SelectTool t rm s = Ok tt s.
Proof.
  intros HT Hcur. rewrite cmd_SelectTool_resolved.
  unfold select_tool_actual.
  rewrite (bind_Ok _ _ _ _ _ (lookup_tool_Some _ _ _ HT)).
  unfold bind at 1, gets at 1. rewrite Hcur, Z.eqb_refl. reflexivity.
Qed.

(** T0 mounted on the example printer and selected again. *)
Lemma select_current_tool_is_noop_witness :
  let s := final (cmd_SelectTool 0 None Example.printer) in
  tool_current s = 0 /\ cmd_SelectTool 0 (Some [AxisX; AxisY]) s = Ok tt s.
Proof.
  split; [reflexivity|].
  eapply select_current_tool_is_noop; reflexivity.
Defined.

(** C5.  With a current tool id below [TOOL_UNLOCKED] (such as
    [TOOL_UNKNOWN]) a select request raises [InvalidState] in the state it
    started from: no template was run and nothing was assigned. *)
Theorem select_over_unknown_tool_fails s t rm T :
  0 <= t ->
  tools s !! resolved_tool s t = Some T ->
  tool_current s < TOOL_UNLOCKED ->
  cmd_SelectTool t rm s = Raise InvalidState s.
Proof.
  intros Ht HT Hcur. rewrite cmd_SelectTool_resolved.
  assert (Hne : (tool_current s =? resolved_tool s t) = false).
  { apply Z.eqb_neq. unfold resolved_tool, TOOL_UNLOCKED in *.
    destruct (default (-1) (tool_map s !! t) >? -1) eqn:E; lia. }
  unfold select_tool_actual.
  rewrite (bind_Ok _ _ _ _ _ (lookup_tool_Some _ _ _ HT)).
  unfold bind at 1, gets at 1. rewrite Hne.
  apply Z.ltb_lt in Hcur. rewrite Hcur. reflexivity.
Qed.

Lemma select_over_unknown_tool_fails_witness :
  tool_current Example.printer_unknown = TOOL_UNKNOWN /\
  cmd_SelectTool 1 None Example.printer_unknown
    = Raise InvalidState Example.printer_unknown.
Proof.
  split; [reflexivity|].
  eapply select_over_unknown_tool_fails; [lia|reflexivity|reflexivity].
Defined.

(** ** Frame properties *)

Section Frames.
Context (R : relation State) `{!PreOrder R}.

Lemma keeps_ret {A} (a : A) : keeps R (ret a).
Proof. intros s. reflexivity. Qed.

Lemma keeps_raise {A} e : keeps R (@raise A e).
Proof. intros s. reflexivity. Qed.

Lemma keeps_gets {A} (f : State -> A) : keeps R (gets f).
Proof. intros s. reflexivity. Qed.

Lemma keeps_modify f : (forall s, R s (f s)) -> keeps R (modify f).
Proof. intros H s. apply H. Qed.

Lemma keeps_bind {A B} (m : M A) (k : A -> M B) :
  keeps R m -> (forall a, keeps R (k a)) -> keeps R (bind m k).
Proof.
  intros Hm Hk s. unfold bind. specialize (Hm s).
  destruct (m s) as [a s1|e s1]; simpl in *; [|exact Hm].
  etransitivity; [exact Hm|apply Hk].
Qed.

Lemma keeps_try_except {A} (m : M A) e : keeps R m -> keeps R (try_except m e).
Proof.
  intros Hm s. unfold try_except. specialize (Hm s).
  now destruct (m s).
Qed.

Lemma keeps_when b m : keeps R m -> keeps R (when b m).
Proof. intros Hm. destruct b; [exact Hm|apply keeps_ret]. Qed.

Lemma keeps_lookup_tool t : keeps R (lookup_tool t).
Proof. intros s. unfold lookup_tool. destruct (tools s !! t); reflexivity. Qed.

Lemma keeps_lookup_heater n : keeps R (lookup_heater n).
Proof.
  intros s. unfold lookup_heater. destruct n as [n|]; [|reflexivity].
  destruct (heaters s !! n); reflexivity.
Qed.

Lemma keeps_lookup_timer r k : keeps R (lookup_timer r k).
Proof.
  intros s. unfold lookup_timer. destruct (timer_store k s !! r); reflexivity.
Qed.
End Frames.

(** Walks through a computation built from the monad's operations, leaving
    the assignments and the calls to other methods to [auto with keeps]. *)
Ltac keeps_step :=
  match goal with
  | |- keeps _ (bind _ _) => apply keeps_bind; [exact _| |intros ?]
  | |- keeps _ (ret _) => apply keeps_ret; exact _
  | |- keeps _ (raise _) => apply keeps_raise; exact _
  | |- keeps _ (gets _) => apply keeps_gets; exact _
  | |- keeps _ (when _ _) => apply keeps_when; [exact _|]
  | |- keeps _ (try_except _ _) => apply keeps_try_except
  | |- keeps _ (lookup_tool _) => apply keeps_lookup_tool; exact _
  | |- keeps _ (lookup_heater _) => apply keeps_lookup_heater; exact _
  | |- keeps _ (lookup_timer _ _) => apply keeps_lookup_timer; exact _
  | |- keeps _ (match ?x with _ => _ end) => destruct x
  | |- keeps _ (if ?b then _ else _) => destruct b
  end.

Ltac keeps_walk := repeat keeps_step; auto with keeps.

(** *** What an operation may change *)

#[export] Instance follows_preorder allowed : PreOrder (follows allowed).
Proof.
  split.
  - intros s. split; try easy. exists []. now rewrite app_nil_r.
  - intros s1 s2 s3 [a1 b1 c1 d1 e1 f1 (evs1 & g1 & h1)]
      [a2 b2 c2 d2 e2 f2 (evs2 & g2 & h2)].
    split; intros.
    + now rewrite a2, a1.
    + now rewrite b2, b1.
    + auto.
    + auto.
    + now rewrite e2, e1.
    + now rewrite f2, f1.
    + exists (evs1 ++ evs2). split.
      * now rewrite g2, g1, app_assoc.
      * now apply Forall_app.
Qed.

Create HintDb keeps.

Section Follows.
Variable allowed : event -> Prop.
Hypothesis allowed_service_call : forall e, service_call e -> allowed e.

(** An assignment that leaves alone what [follows] speaks about. *)
Lemma follows_silent f :
  (forall s, tools (f s) = tools s /\ heaters (f s) = heaters s /\
             timers_to_standby (f s) = timers_to_standby s /\
             timers_to_powerdown (f s) = timers_to_powerdown s /\
             template_fails (f s) = template_fails s /\
             tool_map (f s) = tool_map s /\ trace (f s) = trace s) ->
  keeps (follows allowed) (modify f).
Proof.
  intros H. apply keeps_modify. intros s.
  destruct (H s) as (a & b & c & d & e & g & h).
  split; intros; rewrite ?a, ?b, ?c, ?d, ?e, ?g, ?h; try easy.
  exists []. now rewrite app_nil_r.
Qed.

Lemma follows_emit e : allowed e -> keeps (follows allowed) (emit e).
Proof.
  intros He. apply keeps_modify. intros s. split; try easy.
  exists [e]. split; [reflexivity|]. now constructor.
Qed.

Lemma follows_update_tool t f :
  (forall T, settings (f T) = settings T) ->
  keeps (follows allowed) (update_tool t f).
Proof.
  intros Hf. apply keeps_modify. intros s.
  split; simpl; try tauto; try reflexivity.
  - intros u. destruct (tools s !! t) as [T|] eqn:E; [|reflexivity].
    destruct (decide (t = u)) as [<-|Hne].
    + rewrite lookup_insert_eq, E. simpl. now rewrite Hf.
    + now rewrite lookup_insert_ne.
  - exists []. now rewrite app_nil_r.
Qed.

Lemma follows_put_timer r k tm : keeps (follows allowed) (put_timer r k tm).
Proof.
  destruct k; apply keeps_modify; intros s;
    split; simpl; try tauto; try reflexivity;
    try (exists []; now rewrite app_nil_r);
    intros r' Hr';
    (destruct (decide (r = r')) as [<-|Hne];
     [rewrite lookup_insert_eq; eauto | now rewrite lookup_insert_ne]).
Qed.

Lemma follows_set_temp e v : keeps (follows allowed) (set_temp e v).
Proof.
  unfold set_temp. apply keeps_bind; [exact _| |intros _].
  { apply follows_emit. now apply allowed_service_call. }
  apply keeps_modify. intros s.
  split; simpl; try tauto; try reflexivity.
  - intros e'. destruct (heaters s !! e) as [h|] eqn:E; [|tauto].
    destruct (decide (e = e')) as [<-|Hne].
    + rewrite lookup_insert_eq, E. split; eauto.
    + now rewrite lookup_insert_ne.
  - exists []. now rewrite app_nil_r.
Qed.

Hint Resolve follows_emit follows_put_timer follows_set_temp : keeps.
Hint Extern 1 (keeps _ (update_tool _ _)) =>
  (apply follows_update_tool; intros []; reflexivity) : keeps.
Hint Extern 1 (keeps _ (modify _)) =>
  (apply follows_silent; intros ?; repeat split) : keeps.
Hint Extern 1 (allowed _) => (apply allowed_service_call; exact I) : keeps.

Lemma follows_SaveCurrentTool t : keeps (follows allowed) (SaveCurrentTool t).
Proof. unfold SaveCurrentTool. keeps_walk. Qed.

Lemma follows_SaveCurrentPosition r :
  keeps (follows allowed) (SaveCurrentPosition r).
Proof. unfold SaveCurrentPosition. keeps_walk. Qed.

Lemma follows_PrinterIsHomedForToolchange l :
  keeps (follows allowed) (PrinterIsHomedForToolchange l).
Proof. unfold PrinterIsHomedForToolchange. keeps_walk. Qed.

Lemma follows__Temperature_wait_with_tolerance n tol :
  keeps (follows allowed) (_Temperature_wait_with_tolerance n tol).
Proof. unfold _Temperature_wait_with_tolerance. keeps_walk. Qed.

Lemma follows_tool_timer t k : keeps (follows allowed) (tool_timer t k).
Proof. unfold tool_timer. keeps_walk. Qed.

Lemma follows_set_timer r k d a : keeps (follows allowed) (set_timer r k d a).
Proof. unfold set_timer. keeps_walk. Qed.

Hint Resolve follows_SaveCurrentTool follows_SaveCurrentPosition
  follows_PrinterIsHomedForToolchange
  follows__Temperature_wait_with_tolerance follows_tool_timer
  follows_set_timer : keeps.

Lemma follows_set_timer_of t k d a :
  keeps (follows allowed) (set_timer_of t k d a).
Proof. unfold set_timer_of. keeps_walk. Qed.

Lemma follows_set_timer_idle t k d a :
  keeps (follows allowed) (set_timer_idle t k d a).
Proof. unfold set_timer_idle. keeps_walk. Qed.

Hint Resolve follows_set_timer_of follows_set_timer_idle : keeps.

Lemma follows_set_heater t kwargs :
  keeps (follows allowed) (set_heater t kwargs).
Proof. unfold set_heater. keeps_walk. Qed.

Lemma follows_run_gcode_from_command g t :
  allowed (RunTemplate g t) ->
  keeps (follows allowed) (run_gcode_from_command g t).
Proof. intros H. unfold run_gcode_from_command. keeps_walk. Qed.

Hint Resolve follows_set_heater follows_run_gcode_from_command : keeps.

Lemma follows_run_virtual_gcode_from_command g t :
  allowed (RunTemplate g t) ->
  keeps (follows allowed) (run_virtual_gcode_from_command g t).
Proof. intros H. unfold run_virtual_gcode_from_command. keeps_walk. Qed.

Lemma follows_set_virtual_loaded t v :
  keeps (follows allowed) (set_virtual_loaded t v).
Proof. unfold set_virtual_loaded. keeps_walk. Qed.

Lemma follows_physical_parent_key T :
  keeps (follows allowed) (physical_parent_key T).
Proof. unfold physical_parent_key. keeps_walk. Qed.

Hint Resolve follows_run_virtual_gcode_from_command
  follows_set_virtual_loaded follows_physical_parent_key : keeps.

Lemma follows_Pickup t :
  allowed (RunTemplate pickup_gcode t) -> keeps (follows allowed) (Pickup t).
Proof. intros H. unfold Pickup. keeps_walk. Qed.

Lemma follows_Dropoff t force :
  allowed (RunTemplate dropoff_gcode t) ->
  keeps (follows allowed) (Dropoff t force).
Proof. intros H. unfold Dropoff. keeps_walk. Qed.

Lemma follows_LoadVirtual t :
  allowed (RunTemplate virtual_toolload_gcode t) ->
  keeps (follows allowed) (LoadVirtual t).
Proof. intros H. unfold LoadVirtual. keeps_walk. Qed.

Lemma follows_UnloadVirtual t :
  allowed (RunTemplate virtual_toolunload_gcode t) ->
  keeps (follows allowed) (UnloadVirtual t).
Proof. intros H. unfold UnloadVirtual. keeps_walk. Qed.

Hint Resolve follows_Pickup follows_Dropoff follows_LoadVirtual
  follows_UnloadVirtual : keeps.

(** A selection of tool [t] may park or unload any tool, but picks up
    and loads [t] only. *)
Lemma follows_select_tool_actual t rm :
  allowed (RunTemplate pickup_gcode t) ->
  allowed (RunTemplate virtual_toolload_gcode t) ->
  (forall u, allowed (RunTemplate dropoff_gcode u)) ->
  (forall u, allowed (RunTemplate virtual_toolunload_gcode u)) ->
  keeps (follows allowed) (select_tool_actual t rm).
Proof.
  intros Hp Hl Hd Hu. unfold select_tool_actual.
  unfold int_unlocked_or_parent, int_parent, parent_known_and_equal,
    lookup_tool_opt.
  keeps_walk.
Qed.
End Follows.

(** ** Operations that return

    The lookups an operation makes succeed once the objects [__init__]
    sets up are there. *)

Lemma follows_lookup allowed s s' t T :
  follows allowed s s' -> tools s !! t = Some T ->
  exists T', tools s' !! t = Some T' /\ settings T' = settings T.
Proof.
  intros F HT. pose proof (follows_tools _ _ _ F t) as E.
  rewrite HT in E. destruct (tools s' !! t) as [T'|]; [|discriminate].
  exists T'. split; [reflexivity|]. simpl in E. congruence.
Qed.

Lemma timers_ready_follows allowed s s' t :
  follows allowed s s' -> timers_ready s t -> timers_ready s' t.
Proof.
  intros F (T & r & HT & Hr & Hs & Hp).
  destruct (follows_lookup _ _ _ _ _ F HT) as (T' & HT' & E).
  exists T', r. repeat split; [exact HT'|now rewrite E| |].
  - now apply (follows_to_standby _ _ _ F).
  - now apply (follows_to_powerdown _ _ _ F).
Qed.

Lemma heater_ready_follows allowed s s' t :
  follows allowed s s' -> heater_ready s t -> heater_ready s' t.
Proof.
  intros F (T & HT & H).
  destruct (follows_lookup _ _ _ _ _ F HT) as (T' & HT' & E).
  exists T'. split; [exact HT'|]. intros e He. rewrite E in He.
  destruct (H e He) as [Hh Ht]. split.
  - now apply (follows_heaters _ _ _ F).
  - eapply timers_ready_follows; eauto.
Qed.

Lemma tool_timer_Ok s t k (T : Tool) r tm :
  tools s !! t = Some T -> timer_ref T = Some r ->
  timer_store k s !! r = Some tm -> tool_timer t k s = Ok r s.
Proof.
  intros HT Hr Htm. unfold tool_timer.
  rewrite (bind_Ok _ _ _ _ _ (lookup_tool_Some _ _ _ HT)), Hr.
  now rewrite (bind_Ok _ _ _ _ _ (lookup_timer_Some _ _ _ _ Htm)).
Qed.

Lemma set_timer_returns s r k d a tm :
  timer_store k s !! r = Some tm -> exists s', set_timer r k d a s = Ok tt s'.
Proof.
  intros Htm. unfold set_timer.
  rewrite (bind_Ok _ _ _ _ _ (lookup_timer_Some _ _ _ _ Htm)).
  destruct (inside_timer tm); destruct k; eexists; reflexivity.
Qed.

Lemma timers_ready_store s t k :
  timers_ready s t ->
  exists (T : Tool) r tm, tools s !! t = Some T /\ timer_ref T = Some r /\
                          timer_store k s !! r = Some tm.
Proof.
  intros (T & r & HT & Hr & [ts Hs] & [tp Hp]).
  destruct k; simpl; eauto 10.
Qed.

Lemma set_timer_of_returns s t k d a :
  timers_ready s t -> exists s', set_timer_of t k d a s = Ok tt s'.
Proof.
  intros H.
  destruct (timers_ready_store s t k H) as (T & r & tm & HT & Hr & Htm).
  unfold set_timer_of.
  rewrite (bind_Ok _ _ _ _ _ (tool_timer_Ok _ _ _ _ _ _ HT Hr Htm)).
  eapply set_timer_returns; eauto.
Qed.

(** What a computation that returned has kept. *)
Lemma keeps_Ok {A} (R : relation State) (m : M A) s a s' :
  keeps R m -> m s = Ok a s' -> R s s'.
Proof. intros K E. specialize (K s). now rewrite E in K. Qed.

Lemma service_follows_set_timer_of t k d a :
  keeps (follows service_call) (set_timer_of t k d a).
Proof. apply follows_set_timer_of. auto. Qed.

Lemma set_heater_active_returns s t :
  heater_ready s t ->
  exists s', set_heater t (only_heater_state HEATER_STATE_ACTIVE) s = Ok tt s'.
Proof.
  intros (T & HT & Hready). unfold set_heater.
  rewrite (bind_Ok _ _ _ _ _ (lookup_tool_Some _ _ _ HT)).
  destruct (extruder T) as [e|] eqn:He; [|now eexists].
  destruct (Hready e eq_refl) as ([h Hh] & Ht).
  cbn [only_heater_state kw_heater_standby_temp kw_heater_active_temp
       kw_idle_to_standby_time kw_idle_to_powerdown_time kw_heater_state].
  assert (Hlh : lookup_heater (Some e) s = Ok h s).
  { unfold lookup_heater. now rewrite Hh. }
  rewrite (bind_Ok _ _ _ _ _ Hlh).
  do 4 (rewrite (bind_Ok _ _ s tt s) by reflexivity).
  rewrite (bind_Ok _ _ _ _ _ (lookup_tool_Some _ _ _ HT)).
  replace (bool_decide (is_Some (@None Q)) || bool_decide (is_Some (@None Q)))
    with false by reflexivity.
  rewrite andb_false_r. unfold when at 1.
  rewrite (bind_Ok _ _ s tt s) by reflexivity.
  rewrite (bind_Ok _ _ _ _ _ (lookup_tool_Some _ _ _ HT)).
  destruct (HeaterState_eqb (heater_state T) HEATER_STATE_ACTIVE).
  { eexists. reflexivity. }
  destruct (set_timer_of_returns s t TIMER_TO_STANDBY 0 t Ht) as [s1 E1].
  pose proof (keeps_Ok _ _ _ _ _ (service_follows_set_timer_of _ _ _ _) E1)
    as F1.
  destruct (set_timer_of_returns s1 t TIMER_TO_SHUTDOWN 0 t
              (timers_ready_follows _ _ _ _ F1 Ht)) as [s2 E2].
  rewrite !bind_assoc.
  rewrite (bind_Ok _ _ _ _ _ E1), bind_assoc, (bind_Ok _ _ _ _ _ E2).
  eexists. reflexivity.
Qed.

(** ** Swapping virtual tools on one physical tool *)

Lemma run_gcode_from_command_Ok s g t :
  template_fails s g t = false ->
  run_gcode_from_command g t s =
  Ok tt (set_trace (fun tr => tr ++ [RunTemplate g t]) s).
Proof.
  intros H. unfold run_gcode_from_command, emit, modify, bind, gets. simpl.
  now rewrite H.
Qed.

Lemma run_virtual_gcode_from_command_Ok s g t (T : Tool) :
  tools s !! t = Some T -> is_virtual T = true ->
  template_fails s g t = false ->
  run_virtual_gcode_from_command g t s =
  Ok tt (set_trace (fun tr => tr ++ [RunTemplate g t]) s).
Proof.
  intros HT Hv H. unfold run_virtual_gcode_from_command.
  rewrite (bind_Ok _ _ _ _ _ (lookup_tool_Some _ _ _ HT)), Hv.
  now apply run_gcode_from_command_Ok.
Qed.

(** [LoadVirtual] and [UnloadVirtual] of a virtual tool whose template
    does not fail: the template runs, the parent's [virtual_loaded] is
    assigned, the tool becomes the current one. *)
Lemma set_virtual_parent_returns s t g v (T TP : Tool) p :
  tools s !! t = Some T -> is_virtual T = true ->
  physical_parent_id T = Some p -> tools s !! p = Some TP ->
  template_fails s g t = false ->
  exists s',
    (let* T := lookup_tool t in
     run_virtual_gcode_from_command g t ;;;
     let* pp := physical_parent_key T in
     set_virtual_loaded pp v ;;;
     SaveCurrentTool t) s = Ok tt s' /\
    trace s' = trace s ++ [RunTemplate g t; SaveVariable t] /\
    tool_current s' = t /\
    virtual_loaded <$> tools s' !! p = Some v.
Proof.
  intros HT Hv Hp HP Hf.
  rewrite (bind_Ok _ _ _ _ _ (lookup_tool_Some _ _ _ HT)).
  rewrite (bind_Ok _ _ _ _ _
             (run_virtual_gcode_from_command_Ok _ _ _ _ HT Hv Hf)).
  unfold physical_parent_key. rewrite Hp.
  rewrite bind_assoc.
  rewrite (bind_Ok _ _ _ TP _) by (apply lookup_tool_Some; exact HP).
  eexists. split; [reflexivity|]. simpl. rewrite HP. simpl.
  rewrite lookup_insert_eq. repeat split.
  now rewrite <- app_assoc.
Qed.

Lemma virtual_on_follows allowed s s' t p :
  follows allowed s s' -> virtual_on s t p -> virtual_on s' t p.
Proof.
  intros F (T & HT & Hv & Hp).
  destruct (follows_lookup _ _ _ _ _ F HT) as (T' & HT' & E).
  exists T'. now rewrite E.
Qed.

Lemma templates_run_app tr1 tr2 :
  templates_run (tr1 ++ tr2) = templates_run tr1 ++ templates_run tr2.
Proof.
  unfold templates_run.
  now rewrite !flat_map_concat_map, map_app, concat_app.
Qed.

Lemma templates_run_service evs :
  Forall service_call evs -> templates_run evs = [].
Proof.
  induction 1 as [|e evs He _ IH]; [reflexivity|].
  simpl. rewrite IH. now destruct e.
Qed.

Lemma follows_anything_select_tool_actual t rm :
  keeps (follows (fun _ => True)) (select_tool_actual t rm).
Proof. apply follows_select_tool_actual; auto. Qed.

Lemma service_follows_set_heater t kw :
  keeps (follows service_call) (set_heater t kw).
Proof. apply follows_set_heater. auto. Qed.

Lemma service_follows_SaveCurrentPosition r :
  keeps (follows service_call) (SaveCurrentPosition r).
Proof. apply follows_SaveCurrentPosition. Qed.

(** C1.  Two select requests in a row whose resolved tools [A] and [B]
    are distinct virtual tools on the same physical parent [P]: when the
    first has returned and the two templates involved do not fail, the
    second returns, the only templates it runs are [A]'s
    virtual_toolunload_gcode and then [B]'s virtual_toolload_gcode (so
    neither a pickup nor a dropoff template), and it leaves [P] with
    [virtual_loaded = B] and [B] as current tool. *)
Theorem swap_of_virtual_tools_keeps_parent_mounted s0 a b rmA rmB s1 A B P :
  resolved_tool s0 a = A -> resolved_tool s0 b = B ->
  A <> B -> 0 <= A -> 0 <= P ->
  virtual_on s0 A P -> virtual_on s0 B P -> is_Some (tools s0 !! P) ->
  heater_ready s0 B ->
  template_fails s0 virtual_toolunload_gcode A = false ->
  template_fails s0 virtual_toolload_gcode B = false ->
  cmd_SelectTool a rmA s0 = Ok tt s1 ->
  exists s2 evs,
    cmd_SelectTool b rmB s1 = Ok tt s2 /\
    trace s2 = trace s1 ++ evs /\
    templates_run evs =
      [(virtual_toolunload_gcode, A); (virtual_toolload_gcode, B)] /\
    virtual_loaded <$> tools s2 !! P = Some B /\
    tool_current s2 = B.
Proof.
  intros Ha Hb Hne HA0 HP0 HvA HvB HP HrB HfA HfB Hsel.
  rewrite cmd_SelectTool_resolved, Ha in Hsel.
  pose proof (keeps_Ok _ _ _ _ _
                (follows_anything_select_tool_actual _ _) Hsel) as F01.
  pose proof (select_tool_actual_current _ _ _ _ Hsel) as Hcur.
  rewrite cmd_SelectTool_resolved.
  replace (resolved_tool s1 b) with B
    by (unfold resolved_tool in *; now rewrite (follows_tool_map _ _ _ F01)).
  destruct (virtual_on_follows _ _ _ _ _ F01 HvB) as (TB & HTB & HvTB & HpTB).
  unfold select_tool_actual.
  rewrite (bind_Ok _ _ _ _ _ (lookup_tool_Some _ _ _ HTB)).
  rewrite (bind_Ok _ _ s1 (tool_current s1) s1) by reflexivity.
  rewrite Hcur.
  replace (A =? B) with false by (symmetry; now apply Z.eqb_neq).
  replace (A <? TOOL_UNLOCKED) with false
    by (symmetry; apply Z.ltb_ge; unfold TOOL_UNLOCKED; lia).
  replace (A >? TOOL_UNLOCKED) with true
    by (symmetry; apply Z.gtb_lt; unfold TOOL_UNLOCKED; lia).
  (* the pre-heat and the position snapshot call services only *)
  assert (exists sh,
    match extruder TB with
    | Some _ => set_heater B (only_heater_state HEATER_STATE_ACTIVE)
    | None => ret tt
    end s1 = Ok tt sh /\ follows service_call s1 sh) as (sh & Eh & Fh).
  { destruct (extruder TB).
    - destruct (set_heater_active_returns s1 B
                  (heater_ready_follows _ _ _ _ F01 HrB)) as [sh Eh].
      exists sh. split; [exact Eh|].
      exact (keeps_Ok _ _ _ _ _ (service_follows_set_heater _ _) Eh).
    - exists s1. split; reflexivity. }
  rewrite (bind_Ok _ _ _ _ _ Eh).
  assert (exists sp,
    match rmB with
    | Some r => SaveCurrentPosition r
    | None => ret tt
    end sh = Ok tt sp /\ follows service_call sh sp) as (sp & Ep & Fp).
  { destruct rmB; eexists; (split; [reflexivity|]).
    - exact (keeps_Ok _ _ _ _ _
               (service_follows_SaveCurrentPosition _) eq_refl).
    - reflexivity. }
  rewrite (bind_Ok _ _ _ _ _ Ep).
  assert (F1p : follows service_call s1 sp) by (etransitivity; eassumption).
  assert (F0p : follows (fun _ => True) s0 sp).
  { etransitivity; [exact F01|].
    destruct F1p as [? ? ? ? ? ? (evs & ? & ?)]. split; try assumption.
    exists evs. split; [assumption|]. now apply Forall_forall. }
  (* the current tool A is unloaded, its parent being that of B *)
  destruct (virtual_on_follows _ _ _ _ _ F0p HvA) as (TA & HTA & HvTA & HpTA).
  destruct HP as [TP0 HTP0].
  destruct (follows_lookup _ _ _ _ _ F0p HTP0) as (TP & HTP & _).
  assert (HfA' : template_fails sp virtual_toolunload_gcode A = false)
    by now rewrite (follows_template_fails _ _ _ F0p).
  destruct (set_virtual_parent_returns sp A virtual_toolunload_gcode (-1)
              TA TP P HTA HvTA HpTA HTP HfA')
    as (su & Eu & Htru & _ & _).
  change (UnloadVirtual A sp = Ok tt su) in Eu.
  assert (Fu : follows (fun _ => True) sp su).
  { refine (keeps_Ok _ _ _ _ _ _ Eu). apply follows_UnloadVirtual; auto. }
  rewrite bind_assoc, (bind_Ok _ _ _ _ _ (lookup_tool_Some _ _ _ HTA)).
  rewrite HpTB, HpTA. unfold int_unlocked_or_parent, int_parent.
  replace (P =? TOOL_UNLOCKED) with false
    by (symmetry; apply Z.eqb_neq; unfold TOOL_UNLOCKED; lia).
  rewrite bind_assoc, (bind_Ok _ _ sp P sp) by reflexivity.
  rewrite bind_assoc, (bind_Ok _ _ sp P sp) by reflexivity.
  rewrite Z.eqb_refl. cbn [negb].
  rewrite !bind_assoc, (bind_Ok _ _ _ _ _ Eu).
  rewrite (bind_Ok _ _ su A su) by reflexivity.
  (* and B is loaded on the parent, which stayed mounted *)
  rewrite HvTB. cbn [negb].
  replace (A >? TOOL_UNLOCKED) with true
    by (symmetry; apply Z.gtb_lt; unfold TOOL_UNLOCKED; lia).
  destruct (follows_lookup _ _ _ _ _ Fu HTA) as (TA' & HTA' & EA).
  destruct (follows_lookup _ _ _ _ _ Fu HTP) as (TP' & HTP' & _).
  assert (F1u : follows (fun _ => True) s1 su).
  { etransitivity; [|exact Fu].
    destruct F1p as [? ? ? ? ? ? (evs & ? & ?)]. split; try assumption.
    exists evs. split; [assumption|]. now apply Forall_forall. }
  destruct (follows_lookup _ _ _ _ _ F1u HTB) as (TB' & HTB' & EB).
  assert (HfB' : template_fails su virtual_toolload_gcode B = false).
  { rewrite (follows_template_fails _ _ _ F1u).
    now rewrite (follows_template_fails _ _ _ F01). }
  assert (HvTB' : is_virtual TB' = true) by now rewrite EB.
  assert (HpTB' : physical_parent_id TB' = Some P) by now rewrite EB.
  destruct (set_virtual_parent_returns su B virtual_toolload_gcode B
              TB' TP' P HTB' HvTB' HpTB' HTP' HfB')
    as (sl & El & Htrl & Hcurl & Hvl).
  change (LoadVirtual B su = Ok tt sl) in El.
  rewrite !bind_assoc, (bind_Ok _ _ _ _ _ (lookup_tool_Some _ _ _ HTA')).
  replace (physical_parent_id TA') with (Some P) by now rewrite EA.
  unfold parent_known_and_equal.
  rewrite bind_assoc, (bind_Ok _ _ su true su).
  2:{ unfold ret. f_equal. rewrite bool_decide_eq_true_2 by reflexivity.
      rewrite andb_true_r. apply Z.gtb_lt. unfold TOOL_UNLOCKED. lia. }
  rewrite (bind_Ok _ _ _ _ _ El), SaveCurrentTool_Ok.
  destruct F1p as [_ _ _ _ _ _ (evs & Htrp & Hevs)].
  eexists. exists (evs ++ [RunTemplate virtual_toolunload_gcode A;
                           SaveVariable A;
                           RunTemplate virtual_toolload_gcode B;
                           SaveVariable B; SaveVariable B]).
  split; [reflexivity|]. simpl. repeat split.
  - rewrite Htrl, Htru, Htrp, <- !app_assoc. reflexivity.
  - rewrite templates_run_app, (templates_run_service _ Hevs). reflexivity.
  - exact Hvl.
Qed.

(** On the example printer: T0 is selected, then T1, both virtual on T2. *)
Lemma swap_of_virtual_tools_keeps_parent_mounted_witness :
  exists s2 evs,
    cmd_SelectTool 1 None (final (cmd_SelectTool 0 None Example.printer))
      = Ok tt s2 /\
    trace s2 = trace (final (cmd_SelectTool 0 None Example.printer)) ++ evs /\
    templates_run evs =
      [(virtual_toolunload_gcode, 0); (virtual_toolload_gcode, 1)] /\
    virtual_loaded <$> tools s2 !! 2 = Some 1 /\
    tool_current s2 = 1.
Proof.
  apply (swap_of_virtual_tools_keeps_parent_mounted
           Example.printer 0 1 None None
           (final (cmd_SelectTool 0 None Example.printer)) 0 1 2).
  - reflexivity.
  - reflexivity.
  - lia.
  - lia.
  - lia.
  - eexists. repeat split; reflexivity.
  - eexists. repeat split; reflexivity.
  - eexists. reflexivity.
  - eexists. split; [reflexivity|]. intros e [= <-]. split.
    + eexists. reflexivity.
    + eexists _, 2. repeat split; try reflexivity; eexists; reflexivity.
  - reflexivity.
  - reflexivity.
  - (vm_compute; reflexivity).
Defined.

(** ** The remap table is consulted once *)

Section Blind.
Variable g : State -> State.

Lemma blind_ret {A} (a : A) : blind_to g (ret a).
Proof. intros s. reflexivity. Qed.

Lemma blind_raise {A} e : blind_to g (@raise A e).
Proof. intros s. reflexivity. Qed.

Lemma blind_bind {A B} (m : M A) (k : A -> M B) :
  blind_to g m -> (forall a, blind_to g (k a)) -> blind_to g (bind m k).
Proof.
  intros Hm Hk s. unfold bind. rewrite Hm.
  destruct (m s) as [a s1|e s1]; simpl; [apply Hk|reflexivity].
Qed.

Lemma blind_try_except {A} (m : M A) e :
  blind_to g m -> blind_to g (try_except m e).
Proof.
  intros Hm s. unfold try_except. rewrite Hm. now destruct (m s).
Qed.

Lemma blind_when b m : blind_to g m -> blind_to g (when b m).
Proof. intros Hm. destruct b; [exact Hm|apply blind_ret]. Qed.
End Blind.

Ltac blind_step :=
  match goal with
  | |- blind_to _ (bind _ _) => apply blind_bind; [|intros ?]
  | |- blind_to _ (ret _) => apply blind_ret
  | |- blind_to _ (raise _) => apply blind_raise
  | |- blind_to _ (when _ _) => apply blind_when
  | |- blind_to _ (try_except _ _) => apply blind_try_except
  | |- blind_to _ (match ?x with _ => _ end) => destruct x
  | |- blind_to _ (if ?b then _ else _) => destruct b
  end.

Create HintDb blind.

Ltac blind_walk := repeat blind_step; auto with blind.

Section RemapBlind.
Variable m : gmap Z Z.

Lemma blind_gets_tool_current : blind_to (set_tool_map m) (gets tool_current).
Proof. intros s. reflexivity. Qed.

Lemma blind_gets_homed_axes : blind_to (set_tool_map m) (gets homed_axes).
Proof. intros s. reflexivity. Qed.

Lemma blind_gets_saved_fan_speed :
  blind_to (set_tool_map m) (gets saved_fan_speed).
Proof. intros s. reflexivity. Qed.

Lemma blind_gets_gcode_position :
  blind_to (set_tool_map m) (gets gcode_position).
Proof. intros s. reflexivity. Qed.

Lemma blind_gets_monotonic : blind_to (set_tool_map m) (gets monotonic).
Proof. intros s. reflexivity. Qed.

Lemma blind_gets_template_fails t u :
  blind_to (set_tool_map m) (gets (fun s => template_fails s t u)).
Proof. intros s. reflexivity. Qed.

Lemma blind_lookup_tool t : blind_to (set_tool_map m) (lookup_tool t).
Proof. intros s. unfold lookup_tool. simpl. now destruct (tools s !! t). Qed.

Lemma blind_lookup_heater n : blind_to (set_tool_map m) (lookup_heater n).
Proof.
  intros s. unfold lookup_heater. simpl. destruct n as [n|]; [|reflexivity].
  now destruct (heaters s !! n).
Qed.

Lemma blind_lookup_timer r k : blind_to (set_tool_map m) (lookup_timer r k).
Proof.
  intros s. unfold lookup_timer. destruct k; simpl.
  - now destruct (timers_to_powerdown s !! r).
  - now destruct (timers_to_standby s !! r).
Qed.

Lemma blind_emit e : blind_to (set_tool_map m) (emit e).
Proof. intros s. reflexivity. Qed.

Lemma blind_update_tool t f : blind_to (set_tool_map m) (update_tool t f).
Proof. intros s. reflexivity. Qed.

Lemma blind_put_timer r k tm : blind_to (set_tool_map m) (put_timer r k tm).
Proof. intros s. now destruct k. Qed.

Lemma blind_set_tool_current t :
  blind_to (set_tool_map m) (modify (set_tool_current t)).
Proof. intros s. reflexivity. Qed.

Lemma blind_set_homed_axes h :
  blind_to (set_tool_map m) (modify (set_homed_axes h)).
Proof. intros s. reflexivity. Qed.

Lemma blind_set_saved_position p r :
  blind_to (set_tool_map m) (modify (set_saved_position p r)).
Proof. intros s. reflexivity. Qed.

Lemma blind_set_heaters f :
  blind_to (set_tool_map m) (modify (set_heaters f)).
Proof. intros s. reflexivity. Qed.

Hint Resolve blind_gets_tool_current blind_gets_homed_axes
  blind_gets_saved_fan_speed blind_gets_gcode_position blind_gets_monotonic
  blind_gets_template_fails blind_lookup_tool blind_lookup_heater
  blind_lookup_timer blind_emit blind_update_tool blind_put_timer
  blind_set_tool_current blind_set_homed_axes blind_set_saved_position
  blind_set_heaters : blind.

Lemma blind_set_heater t kw : blind_to (set_tool_map m) (set_heater t kw).
Proof.
  unfold set_heater, set_timer_idle, set_timer_of, tool_timer, set_timer,
    set_temp.
  blind_walk.
Qed.

Lemma blind_Pickup t : blind_to (set_tool_map m) (Pickup t).
Proof.
  unfold Pickup, PrinterIsHomedForToolchange, run_gcode_from_command,
    SaveCurrentTool.
  blind_walk.
Qed.

Lemma blind_Dropoff t f : blind_to (set_tool_map m) (Dropoff t f).
Proof.
  unfold Dropoff, PrinterIsHomedForToolchange, run_gcode_from_command,
    SaveCurrentTool.
  blind_walk.
Qed.

Lemma blind_LoadVirtual t : blind_to (set_tool_map m) (LoadVirtual t).
Proof.
  unfold LoadVirtual, run_virtual_gcode_from_command,
    run_gcode_from_command, physical_parent_key, set_virtual_loaded,
    SaveCurrentTool.
  blind_walk.
Qed.

Lemma blind_UnloadVirtual t : blind_to (set_tool_map m) (UnloadVirtual t).
Proof.
  unfold UnloadVirtual, run_virtual_gcode_from_command,
    run_gcode_from_command, physical_parent_key, set_virtual_loaded,
    SaveCurrentTool.
  blind_walk.
Qed.

Hint Resolve blind_set_heater blind_Pickup blind_Dropoff blind_LoadVirtual
  blind_UnloadVirtual : blind.

(** [select_tool_actual] never looks at the remap table. *)
Lemma blind_select_tool_actual t rm :
  blind_to (set_tool_map m) (select_tool_actual t rm).
Proof.
  unfold select_tool_actual, SaveCurrentPosition, SaveCurrentTool,
    int_unlocked_or_parent, int_parent, parent_known_and_equal,
    lookup_tool_opt, _Temperature_wait_with_tolerance.
  blind_walk.
Qed.
End RemapBlind.

(** ** Dropoff *)

(** C10.  [Dropoff] does the same for every value of
    [force_virtual_unload]; it leaves every tool object as it was, so the
    [virtual_loaded] of every tool; the only template it can run is the
    dropoff template of the tool itself, so never a virtual unload; and
    replacing the [unload_virtual_at_dropoff] setting of the tools by
    another value changes nothing in what it does. *)
Theorem Dropoff_never_unloads_virtual s t force :
  Dropoff t force s = Dropoff t false s /\
  tools (final (Dropoff t force s)) = tools s /\
  (exists evs, trace (final (Dropoff t force s)) = trace s ++ evs /\
     forall g u, In (g, u) (templates_run evs) -> g = dropoff_gcode /\ u = t) /\
  (forall v, Dropoff t force (set_unload_virtual_at_dropoff v s) =
             in_state (set_unload_virtual_at_dropoff v) (Dropoff t force s)).
Proof.
  split; [reflexivity|].
  unfold Dropoff, PrinterIsHomedForToolchange, run_gcode_from_command,
    SaveCurrentTool, lookup_tool, bind, gets, emit, modify, ret, raise.
  split; [|split].
  - destruct (tools s !! t) as [T|]; [|reflexivity]. simpl.
    destruct (all_homed (homed_axes s)); simpl; [|reflexivity].
    destruct (fan T); simpl; destruct (template_fails s dropoff_gcode t);
      reflexivity.
  - destruct (tools s !! t) as [T|]; simpl.
    2:{ exists []. now rewrite app_nil_r. }
    destruct (all_homed (homed_axes s)); simpl.
    2:{ exists []. now rewrite app_nil_r. }
    destruct (fan T); simpl; destruct (template_fails s dropoff_gcode t);
      simpl; rewrite <- ?app_assoc; eexists; (split; [reflexivity|]);
      simpl; intros g u [H|[]]; now inversion H.
  - intros v. simpl. rewrite lookup_fmap.
    destruct (tools s !! t) as [T|]; [|reflexivity]. simpl.
    destruct (all_homed (homed_axes s)); simpl; [|reflexivity].
    destruct (fan T); simpl; destruct (template_fails s dropoff_gcode t);
      reflexivity.
Qed.

(** ** Pickup and homing *)

(** [Pickup] raises [NotHomed] as soon as one axis is not homed, whatever
    the tool's [lazy_home_when_parking]. *)
Lemma Pickup_not_homed s t (T : Tool) :
  tools s !! t = Some T -> all_homed (homed_axes s) = false ->
  Pickup t s = Raise NotHomed s.
Proof.
  intros HT Hh. unfold Pickup.
  rewrite (bind_Ok _ _ _ _ _ (lookup_tool_Some _ _ _ HT)).
  unfold PrinterIsHomedForToolchange.
  rewrite bind_assoc, (bind_Ok _ _ s (homed_axes s) s) by reflexivity.
  rewrite Hh. reflexivity.
Qed.

(** C8 (the code at the failing input).  T3 of the example printer has
    [lazy_home_when_parking = 1] and only Z is homed.  Given that policy
    [PrinterIsHomedForToolchange] homes X and Y and answers [True]; yet
    [Pickup], which calls it without the policy, raises [NotHomed]. *)
Theorem Pickup_ignores_lazy_home_policy :
  (fun T : Tool => lazy_home_when_parking T)
    <$> tools Example.printer_z_homed !! 3 = Some 1 /\
  homed_axes Example.printer_z_homed = [AxisZ] /\
  PrinterIsHomedForToolchange 1 Example.printer_z_homed =
    Ok true (set_homed_axes [AxisZ; AxisX; AxisY]
               (set_trace (fun tr => tr ++ [Home [AxisX; AxisY]])
                  Example.printer_z_homed)) /\
  Pickup 3 Example.printer_z_homed = Raise NotHomed Example.printer_z_homed.
Proof. vm_compute. repeat split. Qed.

(** ** Waiting for a temperature *)

Lemma TEMPERATURE_WAIT_returns fuel reading k lo hi n :
  TEMPERATURE_WAIT fuel reading k lo hi = Some n ->
  (k <= n)%nat /\ within (reading n) lo hi = true /\
  forall j, (k <= j < n)%nat -> within (reading j) lo hi = false.
Proof.
  revert k. induction fuel as [|fuel IH]; intros k; simpl; [discriminate|].
  destruct (within (reading k) lo hi) eqn:E.
  - intros [= <-]. repeat split; [lia|exact E|lia].
  - intros H. destruct (IH _ H) as (Hk & Hn & Hj).
    repeat split; [lia|exact Hn|].
    intros j Hjn. destruct (decide (j = k)) as [->|Hne]; [exact E|].
    apply Hj. lia.
Qed.

Lemma TEMPERATURE_WAIT_enough_fuel reading lo hi n :
  within (reading n) lo hi = true ->
  forall fuel k, (k <= n < k + fuel)%nat ->
  exists n', (n' <= n)%nat /\ TEMPERATURE_WAIT fuel reading k lo hi = Some n'.
Proof.
  intros Hn. induction fuel as [|fuel IH]; intros k Hk; [lia|]. simpl.
  destruct (within (reading k) lo hi) eqn:E.
  - exists k. split; [lia|reflexivity].
  - destruct (decide (k = n)) as [->|Hne]; [congruence|].
    apply IH. lia.
Qed.

(** C9 (counterexample).  A heater set to 30 degrees is at 20 degrees,
    outside 30 +- 1; the wait with tolerance 1 returns at once, in the
    state it started from: no [TEMPERATURE_WAIT] was issued. *)
Lemma wait_with_tolerance_returns_at_once_below_40 :
  heaters Example.two_heaters !! "heater_bed"%string
    = Some (mkHeater 30 20) /\
  within 20 (30 - 1) (30 + 1) = false /\
  _Temperature_wait_with_tolerance (Some "heater_bed"%string) 1
    Example.two_heaters = Ok tt Example.two_heaters.
Proof. vm_compute. repeat split. Qed.

(** C9 (amended).  For a named heater, with [target_temp] the integer
    part of its target: when [target_temp] is at most 40 the operation
    returns at once without waiting; when it is above 40 the operation
    issues one [TEMPERATURE_WAIT] for that heater with the bounds
    [target_temp - tolerance] and [target_temp + tolerance], which returns
    at the first poll whose reading lies within the bounds, never before,
    and does return once such a reading comes. *)
Theorem wait_with_tolerance_above_40 s n h tolerance :
  heaters s !! n = Some h ->
  let target_temp := int_of_float (target h) in
  let minimum := target_temp - tolerance in
  let maximum := target_temp + tolerance in
  (target_temp <= 40 ->
   _Temperature_wait_with_tolerance (Some n) tolerance s = Ok tt s) /\
  (40 < target_temp ->
   _Temperature_wait_with_tolerance (Some n) tolerance s =
     Ok tt (set_trace (fun tr => tr ++ [TemperatureWait n minimum maximum]) s)
   /\ (forall fuel reading k,
         TEMPERATURE_WAIT fuel reading 0 minimum maximum = Some k ->
         within (reading k) minimum maximum = true /\
         forall j, (j < k)%nat -> within (reading j) minimum maximum = false)
   /\ (forall reading k,
         within (reading k) minimum maximum = true ->
         exists k', (k' <= k)%nat /\
           TEMPERATURE_WAIT (S k) reading 0 minimum maximum = Some k')).
Proof.
  intros Hh target_temp minimum maximum.
  unfold _Temperature_wait_with_tolerance, lookup_heater, bind. rewrite Hh.
  fold target_temp. split.
  - intros Hle. now replace (target_temp >? 40) with false
      by (symmetry; rewrite Z.gtb_ltb; apply Z.ltb_ge; lia).
  - intros Hgt. replace (target_temp >? 40) with true
      by (symmetry; apply Z.gtb_lt; lia).
    split; [reflexivity|]. split.
    + intros fuel reading k H.
      destruct (TEMPERATURE_WAIT_returns _ _ _ _ _ _ H) as (_ & Hk & Hj).
      split; [exact Hk|]. intros j Hjk. apply Hj. lia.
    + intros reading k Hk.
      apply (TEMPERATURE_WAIT_enough_fuel reading minimum maximum k Hk). lia.
Qed.

(** The extruder set to 210 degrees, tolerance 2, readings that climb by
    10 degrees a poll from 180: the wait returns at the fourth poll. *)
Lemma wait_with_tolerance_above_40_witness :
  _Temperature_wait_with_tolerance (Some "extruder"%string) 2
    Example.two_heaters =
    Ok tt (set_trace
             (fun tr => tr ++ [TemperatureWait "extruder"%string 208 212])
             Example.two_heaters) /\
  TEMPERATURE_WAIT 10 (fun k => 180 + 10 * inject_Z (Z.of_nat k))%Q 0 208 212
    = Some 3%nat.
Proof.
  destruct (wait_with_tolerance_above_40 Example.two_heaters
              "extruder"%string (mkHeater 210 180) 2 eq_refl) as [_ H].
  destruct (H eq_refl) as [E _].
  split; [exact E|reflexivity].
Defined.

(** ** Configuration load: virtual tools and their parent *)




(** ** Parking the mounted tool before a pickup *)

(** What a [Dropoff] that returned has done. *)
Lemma Dropoff_Ok_inv t force s s' :
  Dropoff t force s = Ok tt s' ->
  (all_homed (homed_axes s) = false /\ s' = s) \/
  (all_homed (homed_axes s) = true /\ homed_axes s' = homed_axes s /\
   exists pre, Forall service_call pre /\
     trace s' = trace s ++ pre ++
                [RunTemplate dropoff_gcode t; SaveVariable TOOL_UNLOCKED]).
Proof.
  unfold Dropoff, PrinterIsHomedForToolchange, run_gcode_from_command,
    SaveCurrentTool, lookup_tool, bind, gets, emit, modify, ret, raise.
  destruct (tools s !! t) as [T|]; [|discriminate]. simpl.
  destruct (all_homed (homed_axes s)); simpl.
  2:{ intros [= <-]. now left. }
  intros H. right. split; [reflexivity|].
  destruct (fan T) as [f|]; simpl in H;
    destruct (template_fails s dropoff_gcode t); try discriminate;
    injection H as <-; simpl; (split; [reflexivity|]).
  - exists [SetFanSpeed f 0; Dwell]. split.
    + repeat constructor.
    + now rewrite <- !app_assoc.
  - exists [Dwell]. split.
    + repeat constructor.
    + now rewrite <- !app_assoc.
Qed.

(** What a [Pickup] that returned has done. *)
Lemma Pickup_Ok_inv t s s' :
  Pickup t s = Ok tt s' ->
  all_homed (homed_axes s) = true /\
  exists pre post, Forall service_call pre /\ Forall service_call post /\
    trace s' = trace s ++ pre ++ [RunTemplate pickup_gcode t] ++ post.
Proof.
  unfold Pickup, PrinterIsHomedForToolchange, run_gcode_from_command,
    SaveCurrentTool, lookup_tool, bind, gets, emit, modify, ret, raise, when.
  destruct (tools s !! t) as [T|]; [|discriminate]. simpl.
  destruct (all_homed (homed_axes s)); simpl; [|discriminate].
  intros H. split; [reflexivity|].
  destruct (extruder T) as [e|]; simpl in H;
    destruct (template_fails s pickup_gcode t); try discriminate;
    destruct (fan T) as [f|]; simpl in H;
    destruct (Qnonzero (shaper_freq_x T) || Qnonzero (shaper_freq_y T));
    simpl in H; injection H as <-; simpl; rewrite <- ?app_assoc; simpl;
    match goal with
    | |- exists pre post, _ /\ _ /\ trace s ++ ?l = _ =>
        match l with
        | context C [RunTemplate pickup_gcode t :: ?post] =>
            let pre := context C [@nil event] in
            exists pre, post
        end
    end;
    repeat split; repeat constructor.
Qed.

Lemma follows_anything allowed s s' :
  follows allowed s s' -> follows (fun _ => True) s s'.
Proof.
  intros [? ? ? ? ? ? (evs & ? & ?)]. split; try assumption.
  exists evs. split; [assumption|]. now apply Forall_forall.
Qed.

(** A selection of [B] that returns, started with [A] mounted, the two
    physical parents being different: unless the parent of [B] is -1 and
    that of [A] is 1, the first template run is the dropoff template of
    [A] and the next one the pickup template of [B]. *)
Lemma dropoff_precedes_pickup s A B rm s' (TA TB : Tool) pa pb :
  tool_current s = A -> 0 <= A -> A <> B ->
  tools s !! A = Some TA -> tools s !! B = Some TB ->
  physical_parent_id TA = Some pa -> physical_parent_id TB = Some pb ->
  pa <> pb -> ~ (pb = TOOL_UNLOCKED /\ pa = 1) ->
  select_tool_actual B rm s = Ok tt s' ->
  exists evs rest,
    trace s' = trace s ++ evs /\
    templates_run evs = (dropoff_gcode, A) :: (pickup_gcode, B) :: rest.
Proof.
  intros Hcur HA0 Hne HTA HTB HpA HpB Hpab Hslip H.
  unfold select_tool_actual in H.
  rewrite (bind_Ok _ _ _ _ _ (lookup_tool_Some _ _ _ HTB)) in H.
  rewrite (bind_Ok _ _ s (tool_current s) s) in H by reflexivity.
  rewrite Hcur in H.
  replace (A =? B) with false in H by (symmetry; now apply Z.eqb_neq).
  replace (A <? TOOL_UNLOCKED) with false in H
    by (symmetry; apply Z.ltb_ge; unfold TOOL_UNLOCKED; lia).
  replace (A >? TOOL_UNLOCKED) with true in H
    by (symmetry; apply Z.gtb_lt; unfold TOOL_UNLOCKED; lia).
  apply bind_Ok_inv in H as ([] & sh & Eh & H).
  assert (Fh : follows service_call s sh).
  { destruct (extruder TB).
    - exact (keeps_Ok _ _ _ _ _ (service_follows_set_heater _ _) Eh).
    - injection Eh as <-. reflexivity. }
  apply bind_Ok_inv in H as ([] & sp & Ep & H).
  assert (Fp : follows service_call sh sp).
  { destruct rm.
    - exact (keeps_Ok _ _ _ _ _ (service_follows_SaveCurrentPosition _) Ep).
    - injection Ep as <-. reflexivity. }
  assert (F : follows service_call s sp) by (etransitivity; eassumption).
  destruct (follows_lookup _ _ _ _ _ F HTA) as (TA' & HTA' & EA).
  apply bind_Ok_inv in H as (c & sd0 & Ed & H).
  rewrite (bind_Ok _ _ _ _ _ (lookup_tool_Some _ _ _ HTA')) in Ed.
  rewrite HpB in Ed. replace (physical_parent_id TA') with (Some pa) in Ed
    by now rewrite EA.
  unfold int_unlocked_or_parent, int_parent in Ed.
  assert (exists mine, (if pb =? TOOL_UNLOCKED then ret 1 else ret pb) sp
                       = Ok mine sp /\ mine <> pa) as (mine & Em & Hm).
  { destruct (pb =? TOOL_UNLOCKED) eqn:E.
    - exists 1. split; [reflexivity|]. apply Z.eqb_eq in E. intuition.
    - exists pb. split; [reflexivity|]. congruence. }
  rewrite (bind_Ok _ _ _ _ _ Em) in Ed.
  rewrite (bind_Ok _ _ sp pa sp) in Ed by reflexivity.
  replace (mine =? pa) with false in Ed
    by (symmetry; now apply Z.eqb_neq).
  cbn [negb] in Ed.
  apply bind_Ok_inv in Ed as ([] & sd & Edrop & Ed).
  injection Ed as <- <-.
  apply bind_Ok_inv in H as ([] & sl & Eload & H).
  rewrite SaveCurrentTool_Ok in H. injection H as <-.
  (* the mount starts with Pickup B, which needs the machine homed *)
  assert (exists sk, Pickup B sd = Ok tt sk /\
            follows (fun _ => True) sk sl) as (sk & Ek & Fk).
  { destruct (is_virtual TB); cbn [negb] in Eload.
    - replace (TOOL_UNLOCKED >? TOOL_UNLOCKED) with false in Eload
        by reflexivity.
      apply bind_Ok_inv in Eload as (pp & s1 & E1 & Eload).
      assert (s1 = sd) as ->.
      { unfold lookup_tool_opt, lookup_tool, raise in E1.
        destruct (physical_parent_id TB) as [q|]; [|discriminate].
        destruct (tools sd !! q); [|discriminate]. now injection E1. }
      apply bind_Ok_inv in Eload as ([] & sk & Ek & Eload).
      exists sk. split; [exact Ek|].
      refine (keeps_Ok _ _ _ _ _ _ Eload).
      apply keeps_bind; [exact _| |intros _].
      + apply keeps_when; [exact _|].
        apply keeps_bind; [exact _|apply keeps_lookup_tool; exact _|intros uv].
        apply keeps_bind; [exact _| |intros _].
        * destruct (extruder uv); [|apply keeps_ret; exact _].
          apply keeps_bind; [exact _| |intros _].
          -- apply follows_set_heater; auto.
          -- apply follows__Temperature_wait_with_tolerance; auto.
        * apply keeps_bind; [exact _| |intros _].
          -- apply follows_UnloadVirtual; auto.
          -- apply follows_set_heater; auto.
      + apply follows_LoadVirtual; auto.
    - exists sl. split; [exact Eload|reflexivity]. }
  destruct (Pickup_Ok_inv _ _ _ Ek)
    as (Hhomed & pre & post' & Hpre & Hpost & Htk).
  destruct (Dropoff_Ok_inv _ _ _ _ Edrop)
    as [[Hno ->]|(_ & Hh & pre0 & Hpre0 & Htd)].
  { congruence. }
  destruct F as [_ _ _ _ _ _ (evs0 & Ht0 & Hevs0)].
  destruct Fk as [_ _ _ _ _ _ (evs1 & Ht1 & _)].
  eexists. exists (templates_run (post' ++ evs1 ++ [SaveVariable B])).
  split.
  - simpl. rewrite Ht1, Htk, Htd, Ht0, <- !app_assoc. reflexivity.
  - rewrite !templates_run_app.
    rewrite (templates_run_service _ Hevs0), (templates_run_service _ Hpre0),
      (templates_run_service _ Hpre).
    reflexivity.
Qed.

(** C2 (the code at the failing input).  T0 is virtual on the physical
    T1, T2 is configured with [physical_parent: -1], all axes are homed.
    T0 is selected, then T2, whose parent is not that of T0.  The second
    selection runs T0's virtual_toolunload_gcode and then T2's
    pickup_gcode: no dropoff template runs and T1 is never parked. *)
Theorem parentless_target_unloads_instead_of_dropoff :
  let s0 := Example.printer_with_parentless_tool in
  let s1 := final (cmd_SelectTool 0 None s0) in
  let s2 := final (cmd_SelectTool 2 None s1) in
  (fun T : Tool => physical_parent_id T) <$> tools s0 !! 0 = Some (Some 1) /\
  (fun T : Tool => physical_parent_id T) <$> tools s0 !! 2
    = Some (Some TOOL_UNLOCKED) /\
  all_homed (homed_axes s0) = true /\
  cmd_SelectTool 0 None s0 = Ok tt s1 /\
  cmd_SelectTool 2 None s1 = Ok tt s2 /\
  templates_run (trace s1) =
    [(pickup_gcode, 0); (virtual_toolload_gcode, 0)] /\
  templates_run (trace s2) =
    templates_run (trace s1) ++
    [(virtual_toolunload_gcode, 0); (pickup_gcode, 2)] /\
  tool_current s2 = 2.
Proof. vm_compute. repeat split. Qed.

(** ** Activating a heater *)

Lemma set_timer_0_Ok s r k a tm :
  timer_store k s !! r = Some tm -> inside_timer tm = false ->
  set_timer r k 0 a s =
  Ok tt (match k with
         | TIMER_TO_STANDBY => set_timers_to_standby
         | TIMER_TO_SHUTDOWN => set_timers_to_powerdown
         end
           (insert r (mkTimer (Some a) (1 # 2) false (repeat tm) true
                        (Some (monotonic s + (1 # 2))%Q)
                        (Some (monotonic s + (1 # 2))%Q)))
           (set_trace (fun tr => tr ++
              [UpdateTimer r k (Some (monotonic s + (1 # 2))%Q)]) s)).
Proof.
  intros Htm Hin. unfold set_timer.
  rewrite (bind_Ok _ _ _ _ _ (lookup_timer_Some _ _ _ _ Htm)), Hin.
  destruct k; reflexivity.
Qed.

(** [set_heater(heater_state = ACTIVE)] on a tool that is not active,
    outside a timer callback: both timers end up scheduled half a second
    later, and the active temperature is pushed once. *)
Lemma set_heater_active_arms_both_timers s t (T : Tool) e h r ts tp :
  tools s !! t = Some T -> extruder T = Some e -> heaters s !! e = Some h ->
  timer_ref T = Some r ->
  timers_to_standby s !! r = Some ts -> inside_timer ts = false ->
  timers_to_powerdown s !! r = Some tp -> inside_timer tp = false ->
  heater_state T <> HEATER_STATE_ACTIVE ->
  exists s',
    set_heater t (only_heater_state HEATER_STATE_ACTIVE) s = Ok tt s' /\
    trace s' = trace s ++
      [UpdateTimer r TIMER_TO_STANDBY (Some (monotonic s + (1 # 2))%Q);
       UpdateTimer r TIMER_TO_SHUTDOWN (Some (monotonic s + (1 # 2))%Q);
       SetTemp e (heater_active_temp T)] /\
    timers_to_standby s' !! r =
      Some (mkTimer (Some t) (1 # 2) false (repeat ts) true
              (Some (monotonic s + (1 # 2))%Q)
              (Some (monotonic s + (1 # 2))%Q)) /\
    timers_to_powerdown s' !! r =
      Some (mkTimer (Some t) (1 # 2) false (repeat tp) true
              (Some (monotonic s + (1 # 2))%Q)
              (Some (monotonic s + (1 # 2))%Q)) /\
    (fun T : Tool => heater_state T) <$> tools s' !! t
      = Some HEATER_STATE_ACTIVE.
Proof.
  intros HT He Hh Hr Hts Hits Htp Hitp Hstate. unfold set_heater.
  rewrite (bind_Ok _ _ _ _ _ (lookup_tool_Some _ _ _ HT)), He.
  cbn [only_heater_state kw_heater_standby_temp kw_heater_active_temp
       kw_idle_to_standby_time kw_idle_to_powerdown_time kw_heater_state].
  assert (Hlh : lookup_heater (Some e) s = Ok h s).
  { unfold lookup_heater. now rewrite Hh. }
  rewrite (bind_Ok _ _ _ _ _ Hlh).
  do 4 (rewrite (bind_Ok _ _ s tt s) by reflexivity).
  rewrite (bind_Ok _ _ _ _ _ (lookup_tool_Some _ _ _ HT)).
  replace (bool_decide (is_Some (@None Q)) || bool_decide (is_Some (@None Q)))
    with false by reflexivity.
  rewrite andb_false_r. unfold when at 1.
  rewrite (bind_Ok _ _ s tt s) by reflexivity.
  rewrite (bind_Ok _ _ _ _ _ (lookup_tool_Some _ _ _ HT)).
  replace (HeaterState_eqb (heater_state T) HEATER_STATE_ACTIVE) with false
    by (now destruct (heater_state T)).
  rewrite !bind_assoc. unfold set_timer_of at 1.
  rewrite bind_assoc.
  rewrite (bind_Ok _ _ _ _ _
             (tool_timer_Ok s t TIMER_TO_STANDBY T r ts HT Hr Hts)).
  rewrite (bind_Ok _ _ _ _ _
             (set_timer_0_Ok s r TIMER_TO_STANDBY t ts Hts Hits)).
  rewrite bind_assoc. unfold set_timer_of at 1. rewrite bind_assoc.
  erewrite (bind_Ok (tool_timer t TIMER_TO_SHUTDOWN))
    by (eapply tool_timer_Ok; [exact HT|exact Hr|exact Htp]).
  erewrite (bind_Ok (set_timer r TIMER_TO_SHUTDOWN 0 t))
    by (apply set_timer_0_Ok; [exact Htp|exact Hitp]).
  eexists. split; [reflexivity|].
  cbn. rewrite HT. rewrite !lookup_insert_eq.
  repeat split. now rewrite <- !app_assoc.
Qed.

(** C3 (the code at the failing input).  T2 of the example printer, with
    active temperature 210 and standby temperature 150, is OFF.  The
    transition to ACTIVE pushes 210 to the heater once, but hands both
    timers to the reactor with a wake time half a second ahead instead of
    NEVER.  Half a second later both fire: the first pushes the standby
    temperature, the second sets the tool OFF and the heater target to 0. *)
Theorem activation_leaves_both_timers_armed :
  let s0 := Example.printer_with_temperatures in
  let s1 := final (set_heater 2 (only_heater_state HEATER_STATE_ACTIVE) s0) in
  let s2 := final (reactor_dispatch 2 TIMER_TO_STANDBY (pause (1 # 2) s1)) in
  let s3 := final (reactor_dispatch 2 TIMER_TO_SHUTDOWN s2) in
  (fun T : Tool => heater_state T) <$> tools s0 !! 2 = Some HEATER_STATE_OFF /\
  set_heater 2 (only_heater_state HEATER_STATE_ACTIVE) s0 = Ok tt s1 /\
  trace s1 = trace s0 ++
    [UpdateTimer 2 TIMER_TO_STANDBY (Some (1 # 2));
     UpdateTimer 2 TIMER_TO_SHUTDOWN (Some (1 # 2));
     SetTemp "extruder" 210] /\
  count_set_temp "extruder" 210 (trace s1) = 1%nat /\
  scheduled <$> timers_to_standby s1 !! 2 = Some (Some (1 # 2)) /\
  scheduled <$> timers_to_powerdown s1 !! 2 = Some (Some (1 # 2)) /\
  reactor_dispatch 2 TIMER_TO_STANDBY (pause (1 # 2) s1) = Ok true s2 /\
  trace s2 = trace s1 ++ [SetTemp "extruder" 150] /\
  reactor_dispatch 2 TIMER_TO_SHUTDOWN s2 = Ok true s3 /\
  (fun T : Tool => heater_state T) <$> tools s3 !! 2 = Some HEATER_STATE_OFF /\
  target <$> heaters s3 !! "extruder"%string = Some 0%Q.
Proof. vm_compute. repeat split. Qed.

(** * Further properties *)

(** ** The timers *)

Lemma py_max_threshold d :
  (min_duration_threshold <= py_max d min_duration_threshold)%Q.
Proof.
  unfold py_max. destruct (Qle_bool min_duration_threshold d) eqn:E.
  - now apply Qle_bool_iff.
  - apply Qle_refl.
Qed.


Lemma Qnonzero_py_max d : Qnonzero (py_max d min_duration_threshold) = true.
Proof.
  unfold Qnonzero. apply negb_true_iff.
  destruct (Qeq_bool (py_max d min_duration_threshold) 0) eqn:E; [|reflexivity].
  apply Qeq_bool_iff in E. pose proof (py_max_threshold d) as H.
  rewrite E in H. now vm_compute in H.
Qed.

Lemma put_timer_Ok r k tm s :
  put_timer r k tm s = Ok tt (set_timer_store k (insert r tm) s).
Proof. now destruct k. Qed.

Lemma set_timer_Ok s r k d a tm :
  timer_store k s !! r = Some tm -> inside_timer tm = false ->
  set_timer r k d a s =
  Ok tt (set_timer_store k (insert r (armed s tm d a))
           (set_trace (fun tr => tr ++
              [UpdateTimer r k
                 (Some (monotonic s + py_max d min_duration_threshold)%Q)])
              s)).
Proof.
  intros Htm Hin. unfold set_timer.
  rewrite (bind_Ok _ _ _ _ _ (lookup_timer_Some _ _ _ _ Htm)), Hin.
  rewrite Qnonzero_py_max. destruct k; reflexivity.
Qed.

Lemma timer_store_set_timer_store k f s :
  timer_store k (set_timer_store k f s) = f (timer_store k s).
Proof. now destruct k. Qed.



Lemma lookup_heater_Some s e h :
  heaters s !! e = Some h -> lookup_heater (Some e) s = Ok h s.
Proof. intros H. unfold lookup_heater. now rewrite H. Qed.

#[export] Instance same_timer_preorder k r : PreOrder (same_timer k r).
Proof.
  split.
  - intros s. reflexivity.
  - intros s1 s2 s3 H1 H2. unfold same_timer in *. congruence.
Qed.

Lemma same_timer_emit k r e : keeps (same_timer k r) (emit e).
Proof. apply keeps_modify. intros s. now destruct k. Qed.

Lemma same_timer_set_temp k r e v : keeps (same_timer k r) (set_temp e v).
Proof.
  unfold set_temp. apply keeps_bind; [exact _|apply same_timer_emit|].
  intros _. apply keeps_modify. intros s. now destruct k.
Qed.

Lemma same_timer_update_tool k r t f : keeps (same_timer k r) (update_tool t f).
Proof. apply keeps_modify. intros s. now destruct k. Qed.

(** The power-down callback leaves the power-down timers alone. *)
Lemma same_timer_set_timer_of_standby r t d a :
  keeps (same_timer TIMER_TO_SHUTDOWN r) (set_timer_of t TIMER_TO_STANDBY d a).
Proof.
  unfold set_timer_of, tool_timer, set_timer.
  repeat keeps_step; try apply same_timer_emit;
    apply keeps_modify; intros s; reflexivity.
Qed.

(** X2.  A timer callback that fails raises the wrapped exception and
    leaves its timer marked as being inside the callback; a later
    [set_timer] on that timer then does not reach the reactor: nothing is
    added to the trace and the wake time the reactor holds stays as it
    was before the callback. *)
Theorem failed_callback_blocks_timer s r k eventtime tm e s1 :
  timer_store k s !! r = Some tm ->
  _standby_tool_temp_timer_event r k eventtime s = Raise e s1 ->
  e = TimerEventError r /\
  inside_timer <$> timer_store k s1 !! r = Some true /\
  forall d a, exists s2,
    set_timer r k d a s1 = Ok tt s2 /\
    trace s2 = trace s1 /\
    scheduled <$> timer_store k s2 !! r = Some (scheduled tm).
Proof.
  intros Htm. unfold _standby_tool_temp_timer_event.
  rewrite (bind_Ok _ _ _ _ _ (lookup_timer_Some _ _ _ _ Htm)).
  rewrite (bind_Ok _ _ _ _ _ (put_timer_Ok _ _ _ _)).
  set (s0 := set_timer_store k _ s).
  set (body := match last_virtual_tool_using_physical_timer tm with
               | Some _ => _ | None => _ end).
  assert (Hbody : keeps (same_timer k r) body).
  { subst body. destruct (last_virtual_tool_using_physical_timer tm);
      [|apply keeps_raise; exact _].
    apply keeps_bind; [exact _|apply keeps_lookup_tool; exact _|intros tool].
    apply keeps_bind; [exact _|apply keeps_lookup_heater; exact _|intros _].
    destruct k.
    - apply keeps_bind; [exact _|apply same_timer_set_timer_of_standby|].
      intros _. apply keeps_bind; [exact _|apply same_timer_update_tool|].
      intros _. apply same_timer_set_temp.
    - apply same_timer_set_temp. }
  assert (H0 : timer_store k s0 !! r =
               Some (mkTimer (last_virtual_tool_using_physical_timer tm)
                       (duration tm) true (repeat tm) false (nextwake tm)
                       (scheduled tm))).
  { subst s0. now rewrite timer_store_set_timer_store, lookup_insert_eq. }
  specialize (Hbody s0). unfold same_timer in Hbody. rewrite H0 in Hbody.
  unfold bind at 1, try_except.
  destruct (body s0) as [[] sb|e' sb]; simpl in Hbody.
  - rewrite (bind_Ok _ _ _ _ _ (lookup_timer_Some _ _ _ _ Hbody)).
    rewrite (bind_Ok _ _ _ _ _ (put_timer_Ok _ _ _ _)). discriminate.
  - intros [= <- <-]. split; [reflexivity|].
    split; [now rewrite Hbody|]. intros d a.
    unfold set_timer.
    rewrite (bind_Ok _ _ _ _ _ (lookup_timer_Some _ _ _ _ Hbody)).
    cbn [inside_timer]. rewrite put_timer_Ok.
    eexists. split; [reflexivity|]. split.
    + now destruct k.
    + now rewrite timer_store_set_timer_store, lookup_insert_eq.
Qed.

(** The timers of the example printer were never armed: the callback has
    no owning tool to look up. *)
Lemma failed_callback_blocks_timer_witness :
  let s1 := final (_standby_tool_temp_timer_event 2 TIMER_TO_STANDBY 0
                     Example.printer) in
  inside_timer <$> timers_to_standby s1 !! 2 = Some true /\
  exists s2, set_timer 2 TIMER_TO_STANDBY 30 2 s1 = Ok tt s2 /\
             trace s2 = trace s1.
Proof.
  destruct (failed_callback_blocks_timer Example.printer 2 TIMER_TO_STANDBY
              0 ToolStandbyTempTimer_init (TimerEventError 2)
              (final (_standby_tool_temp_timer_event 2 TIMER_TO_STANDBY 0
                        Example.printer)) eq_refl eq_refl)
    as (_ & Hin & H).
  split; [exact Hin|].
  destruct (H 30%Q 2) as (s2 & E & Ht & _). now exists s2.
Defined.

Lemma set_temp_Ok s e v h :
  heaters s !! e = Some h ->
  set_temp e v s =
  Ok tt (set_heaters (insert e (mkHeater (inject_Z v) (temperature h)))
           (set_trace (fun tr => tr ++ [SetTemp e v]) s)).
Proof.
  intros H. unfold set_temp, emit, modify, bind, set_heaters, set_trace.
  cbn [heaters]. now rewrite H.
Qed.

Lemma update_tool_Ok s t f T :
  tools s !! t = Some T ->
  update_tool t f s = Ok tt (set_tools (insert t (f T)) s).
Proof. intros H. unfold update_tool, modify, set_tools. now rewrite H. Qed.

(** X3.  The to-standby callback of a timer armed for tool [t] pushes the
    standby temperature of [t], the tool that armed it, to that tool's
    heater and returns NEVER; the timer is idle again and no tool object
    changes: the heater state of the tool stays what it was. *)
Theorem standby_callback_pushes_standby_temperature
    s r eventtime tm t (T : Tool) e h :
  timers_to_standby s !! r = Some tm ->
  last_virtual_tool_using_physical_timer tm = Some t ->
  repeat tm = false ->
  tools s !! t = Some T -> extruder T = Some e -> heaters s !! e = Some h ->
  exists s',
    _standby_tool_temp_timer_event r TIMER_TO_STANDBY eventtime s
      = Ok None s' /\
    trace s' = trace s ++ [SetTemp e (heater_standby_temp T)] /\
    target <$> heaters s' !! e = Some (inject_Z (heater_standby_temp T)) /\
    timers_to_standby s' !! r =
      Some (mkTimer (Some t) (duration tm) false false false None
              (scheduled tm)) /\
    tools s' = tools s.
Proof.
  intros Htm Hlast Hrep HT He Hh. unfold _standby_tool_temp_timer_event.
  rewrite (bind_Ok _ _ _ _ _
             (lookup_timer_Some s r TIMER_TO_STANDBY tm Htm)).
  rewrite (bind_Ok _ _ _ _ _ (put_timer_Ok _ _ _ _)), Hlast.
  unfold bind at 1, try_except.
  erewrite bind_Ok by (apply lookup_tool_Some; exact HT).
  rewrite He.
  erewrite bind_Ok by (apply lookup_heater_Some; exact Hh).
  erewrite set_temp_Ok by exact Hh.
  erewrite bind_Ok
    by (apply (lookup_timer_Some _ r TIMER_TO_STANDBY); simpl;
        apply lookup_insert_eq).
  cbn [repeat duration counting_down last_virtual_tool_using_physical_timer
       scheduled].
  rewrite Hrep, (bind_Ok _ _ _ _ _ (put_timer_Ok _ _ _ _)).
  eexists. split; [reflexivity|]. simpl.
  rewrite !lookup_insert_eq. repeat split.
Qed.

Lemma standby_callback_pushes_standby_temperature_witness :
  let s := final (set_heater 2 (only_heater_state HEATER_STATE_STANDBY)
                    Example.printer_with_temperatures) in
  exists s',
    _standby_tool_temp_timer_event 2 TIMER_TO_STANDBY (1 # 2) s
      = Ok None s' /\
    trace s' = trace s ++ [SetTemp "extruder" 150].
Proof.
  intros s.
  edestruct (standby_callback_pushes_standby_temperature s 2 (1 # 2))
    as (s' & E & Ht & _).
  - reflexivity.
  - reflexivity.
  - reflexivity.
  - reflexivity.
  - reflexivity.
  - reflexivity.
  - exists s'. split; [exact E|exact Ht].
Defined.

Lemma set_timer_of_Ok s t k d a (T : Tool) r tm :
  tools s !! t = Some T -> timer_ref T = Some r ->
  timer_store k s !! r = Some tm -> inside_timer tm = false ->
  set_timer_of t k d a s =
  Ok tt (set_timer_store k (insert r (armed s tm d a))
           (set_trace (fun tr => tr ++
              [UpdateTimer r k
                 (Some (monotonic s + py_max d min_duration_threshold)%Q)])
              s)).
Proof.
  intros HT Hr Htm Hin. unfold set_timer_of.
  rewrite (bind_Ok _ _ _ _ _ (tool_timer_Ok _ _ _ _ _ _ HT Hr Htm)).
  now apply set_timer_Ok.
Qed.

Lemma set_timer_idle_Ok s t k d a (T : Tool) r tm :
  tools s !! t = Some T -> timer_ref T = Some r ->
  timer_store k s !! r = Some tm -> inside_timer tm = false ->
  set_timer_idle t k (Some d) a s =
  Ok tt (set_timer_store k (insert r (armed s tm d a))
           (set_trace (fun tr => tr ++
              [UpdateTimer r k
                 (Some (monotonic s + py_max d min_duration_threshold)%Q)])
              s)).
Proof.
  intros HT Hr Htm Hin. unfold set_timer_idle.
  rewrite (bind_Ok _ _ _ _ _ (tool_timer_Ok _ _ _ _ _ _ HT Hr Htm)).
  now apply set_timer_Ok.
Qed.

Lemma powerdown_callback_Ok s r eventtime tm t (T : Tool) e h r' ts :
  timers_to_powerdown s !! r = Some tm ->
  last_virtual_tool_using_physical_timer tm = Some t ->
  repeat tm = false ->
  tools s !! t = Some T -> extruder T = Some e -> heaters s !! e = Some h ->
  timer_ref T = Some r' -> timers_to_standby s !! r' = Some ts ->
  inside_timer ts = false ->
  exists s' evs,
    _standby_tool_temp_timer_event r TIMER_TO_SHUTDOWN eventtime s
      = Ok None s' /\
    trace s' = trace s ++ evs ++ [SetTemp e 0] /\
    (fun T : Tool => heater_state T) <$> tools s' !! t
      = Some HEATER_STATE_OFF /\
    target <$> heaters s' !! e = Some 0%Q /\
    timers_to_powerdown s' !! r =
      Some (mkTimer (Some t) (duration tm) false false false None
              (scheduled tm)).
Proof.
  intros Htm Hlast Hrep HT He Hh Hr' Hts Hin.
  unfold _standby_tool_temp_timer_event.
  rewrite (bind_Ok _ _ _ _ _
             (lookup_timer_Some s r TIMER_TO_SHUTDOWN tm Htm)).
  rewrite (bind_Ok _ _ _ _ _ (put_timer_Ok _ _ _ _)), Hlast.
  unfold bind at 1, try_except.
  erewrite bind_Ok by (apply lookup_tool_Some; exact HT).
  rewrite He.
  erewrite bind_Ok by (apply lookup_heater_Some; exact Hh).
  erewrite bind_Ok
    by (eapply set_timer_of_Ok; [exact HT|exact Hr'|exact Hts|exact Hin]).
  erewrite bind_Ok by (apply update_tool_Ok; exact HT).
  erewrite set_temp_Ok by exact Hh.
  erewrite bind_Ok
    by (apply (lookup_timer_Some _ r TIMER_TO_SHUTDOWN); simpl;
        apply lookup_insert_eq).
  cbn [repeat duration counting_down last_virtual_tool_using_physical_timer
       scheduled].
  rewrite Hrep, (bind_Ok _ _ _ _ _ (put_timer_Ok _ _ _ _)).
  eexists. eexists. split; [reflexivity|]. simpl.
  rewrite !lookup_insert_eq. repeat split.
  rewrite <- app_assoc. reflexivity.
Qed.

(** X4.  The to-powerdown callback of a timer armed for tool [t] sets the
    heater state of [t] to OFF and the target of its heater to 0, the
    last call it makes, and returns NEVER; the power-down timer is idle
    again. *)
Theorem powerdown_callback_turns_heater_off
    s r eventtime tm t (T : Tool) e h r' ts :
  timers_to_powerdown s !! r = Some tm ->
  last_virtual_tool_using_physical_timer tm = Some t ->
  repeat tm = false ->
  tools s !! t = Some T -> extruder T = Some e -> heaters s !! e = Some h ->
  timer_ref T = Some r' -> timers_to_standby s !! r' = Some ts ->
  inside_timer ts = false ->
  exists s' evs,
    _standby_tool_temp_timer_event r TIMER_TO_SHUTDOWN eventtime s
      = Ok None s' /\
    trace s' = trace s ++ evs ++ [SetTemp e 0] /\
    (fun T : Tool => heater_state T) <$> tools s' !! t
      = Some HEATER_STATE_OFF /\
    target <$> heaters s' !! e = Some 0%Q /\
    timers_to_powerdown s' !! r =
      Some (mkTimer (Some t) (duration tm) false false false None
              (scheduled tm)).
Proof. apply powerdown_callback_Ok. Qed.

Lemma powerdown_callback_turns_heater_off_witness :
  let s := final (set_heater 2 (only_heater_state HEATER_STATE_STANDBY)
                    Example.printer_with_temperatures) in
  exists s',
    _standby_tool_temp_timer_event 2 TIMER_TO_SHUTDOWN 600 s = Ok None s' /\
    (fun T : Tool => heater_state T) <$> tools s' !! 2
      = Some HEATER_STATE_OFF /\
    target <$> heaters s' !! "extruder"%string = Some 0%Q.
Proof.
  intros s.
  edestruct (powerdown_callback_turns_heater_off s 2 600)
    as (s' & evs & E & _ & Hs & Ht & _).
  - reflexivity.
  - reflexivity.
  - reflexivity.
  - reflexivity.
  - reflexivity.
  - reflexivity.
  - reflexivity.
  - reflexivity.
  - reflexivity.
  - exists s'. repeat split; assumption.
Defined.

(** ** Heater transitions *)

(** [set_heater(heater_state = chng)] on a tool with an extruder: what is
    left after the parameter loop, which has nothing to do. *)
Lemma set_heater_only_heater_state s t (T : Tool) e h chng :
  tools s !! t = Some T -> extruder T = Some e -> heaters s !! e = Some h ->
  set_heater t (only_heater_state chng) s =
  (if HeaterState_eqb (heater_state T) chng then
     match chng with
     | HEATER_STATE_ACTIVE => set_temp e (heater_active_temp T)
     | HEATER_STATE_STANDBY => set_temp e (heater_standby_temp T)
     | HEATER_STATE_OFF => ret tt
     end
   else
     match chng with
     | HEATER_STATE_OFF =>
         set_timer_of t TIMER_TO_STANDBY 0 t ;;;
         set_timer_of t TIMER_TO_SHUTDOWN (1 # 10) t
     | HEATER_STATE_ACTIVE =>
         set_timer_of t TIMER_TO_STANDBY 0 t ;;;
         set_timer_of t TIMER_TO_SHUTDOWN 0 t ;;;
         set_temp e (heater_active_temp T)
     | HEATER_STATE_STANDBY =>
         let* h := lookup_heater (Some e) in
         if HeaterState_eqb (heater_state T) HEATER_STATE_ACTIVE
            && (heater_standby_temp T <? int_of_float (temperature h))
         then
           set_timer_idle t TIMER_TO_STANDBY (idle_to_standby_time T) t ;;;
           set_timer_idle t TIMER_TO_SHUTDOWN (idle_to_powerdown_time T) t
         else
           set_timer_of t TIMER_TO_STANDBY (1 # 10) t ;;;
           set_timer_idle t TIMER_TO_SHUTDOWN (idle_to_powerdown_time T) t
     end ;;;
     update_tool t (with_heater_state chng)) s.
Proof.
  intros HT He Hh. unfold set_heater.
  rewrite (bind_Ok _ _ _ _ _ (lookup_tool_Some _ _ _ HT)), He.
  cbn [only_heater_state kw_heater_standby_temp kw_heater_active_temp
       kw_idle_to_standby_time kw_idle_to_powerdown_time kw_heater_state].
  rewrite (bind_Ok _ _ _ _ _ (lookup_heater_Some _ _ _ Hh)).
  do 4 (rewrite (bind_Ok _ _ s tt s) by reflexivity).
  rewrite (bind_Ok _ _ _ _ _ (lookup_tool_Some _ _ _ HT)).
  replace (bool_decide (is_Some (@None Q)) || bool_decide (is_Some (@None Q)))
    with false by reflexivity.
  rewrite andb_false_r. unfold when at 1.
  rewrite (bind_Ok _ _ s tt s) by reflexivity.
  now rewrite (bind_Ok _ _ _ _ _ (lookup_tool_Some _ _ _ HT)).
Qed.

(** X5.  A request for the heater state the tool already has touches no
    timer and no tool object: for ACTIVE and STANDBY it pushes the
    corresponding temperature to the heater once, for OFF it does
    nothing. *)
Theorem set_heater_same_state_pushes_temperature s t (T : Tool) e h :
  tools s !! t = Some T -> extruder T = Some e -> heaters s !! e = Some h ->
  exists s',
    set_heater t (only_heater_state (heater_state T)) s = Ok tt s' /\
    tools s' = tools s /\
    timers_to_standby s' = timers_to_standby s /\
    timers_to_powerdown s' = timers_to_powerdown s /\
    match heater_state T with
    | HEATER_STATE_ACTIVE =>
        trace s' = trace s ++ [SetTemp e (heater_active_temp T)] /\
        target <$> heaters s' !! e = Some (inject_Z (heater_active_temp T))
    | HEATER_STATE_STANDBY =>
        trace s' = trace s ++ [SetTemp e (heater_standby_temp T)] /\
        target <$> heaters s' !! e = Some (inject_Z (heater_standby_temp T))
    | HEATER_STATE_OFF => s' = s
    end.
Proof.
  intros HT He Hh.
  rewrite (set_heater_only_heater_state _ _ _ _ _ _ HT He Hh).
  replace (HeaterState_eqb (heater_state T) (heater_state T)) with true
    by (now destruct (heater_state T)).
  destruct (heater_state T); try rewrite (set_temp_Ok _ _ _ _ Hh);
    eexists; (split; [reflexivity|]); simpl; rewrite ?lookup_insert_eq;
    repeat split.
Qed.

Lemma set_heater_same_state_pushes_temperature_witness :
  let s := final (set_heater 2 (only_heater_state HEATER_STATE_ACTIVE)
                    Example.printer_with_temperatures) in
  exists s',
    set_heater 2 (only_heater_state HEATER_STATE_ACTIVE) s = Ok tt s' /\
    tools s' = tools s /\
    trace s' = trace s ++ [SetTemp "extruder" 210].
Proof.
  intros s.
  edestruct (set_heater_same_state_pushes_temperature s 2)
    as (s' & E & Ht & _ & _ & H).
  - reflexivity.
  - reflexivity.
  - reflexivity.
  - exists s'. split; [exact E|]. split; [exact Ht|]. apply H.
Defined.

(** X6.  The transition to STANDBY pushes no temperature: it arms the two
    timers for the tool.  When the tool was ACTIVE and its standby
    temperature is below the integer part of the measured temperature,
    the to-standby timer gets the tool's [idle_to_standby_time];
    otherwise it gets the minimal delay.  The to-powerdown timer gets
    [idle_to_powerdown_time] in both cases.  Every delay is raised to the
    threshold of half a second. *)
Theorem standby_transition_arms_both_timers
    s t (T : Tool) e h r ts tp d_standby d_powerdown :
  tools s !! t = Some T -> extruder T = Some e -> heaters s !! e = Some h ->
  timer_ref T = Some r ->
  timers_to_standby s !! r = Some ts -> inside_timer ts = false ->
  timers_to_powerdown s !! r = Some tp -> inside_timer tp = false ->
  idle_to_standby_time T = Some d_standby ->
  idle_to_powerdown_time T = Some d_powerdown ->
  heater_state T <> HEATER_STATE_STANDBY ->
  let cooling_down :=
    HeaterState_eqb (heater_state T) HEATER_STATE_ACTIVE
    && (heater_standby_temp T <? int_of_float (temperature h)) in
  let delay := if cooling_down then d_standby else (1 # 10)%Q in
  exists s',
    set_heater t (only_heater_state HEATER_STATE_STANDBY) s = Ok tt s' /\
    trace s' = trace s ++
      [UpdateTimer r TIMER_TO_STANDBY
         (Some (monotonic s + py_max delay min_duration_threshold)%Q);
       UpdateTimer r TIMER_TO_SHUTDOWN
         (Some (monotonic s + py_max d_powerdown min_duration_threshold)%Q)]
    /\ heaters s' = heaters s /\
    timers_to_standby s' !! r = Some (armed s ts delay t) /\
    timers_to_powerdown s' !! r = Some (armed s tp d_powerdown t) /\
    (fun T : Tool => heater_state T) <$> tools s' !! t
      = Some HEATER_STATE_STANDBY.
Proof.
  intros HT He Hh Hr Hts Hits Htp Hitp Hds Hdp Hstate cooling_down delay.
  rewrite (set_heater_only_heater_state _ _ _ _ _ _ HT He Hh).
  replace (HeaterState_eqb (heater_state T) HEATER_STATE_STANDBY) with false
    by (now destruct (heater_state T)).
  rewrite !bind_assoc, (bind_Ok _ _ _ _ _ (lookup_heater_Some _ _ _ Hh)).
  fold cooling_down. rewrite Hds, Hdp. subst delay.
  destruct cooling_down.
  - rewrite bind_assoc.
    erewrite bind_Ok
      by (eapply set_timer_idle_Ok; [exact HT|exact Hr|exact Hts|exact Hits]).
    erewrite bind_Ok
      by (eapply set_timer_idle_Ok; [exact HT|exact Hr|exact Htp|exact Hitp]).
    erewrite update_tool_Ok by exact HT.
    eexists. split; [reflexivity|]. simpl. rewrite !lookup_insert_eq.
    repeat split. now rewrite <- app_assoc.
  - rewrite bind_assoc.
    erewrite bind_Ok
      by (eapply set_timer_of_Ok; [exact HT|exact Hr|exact Hts|exact Hits]).
    erewrite bind_Ok
      by (eapply set_timer_idle_Ok; [exact HT|exact Hr|exact Htp|exact Hitp]).
    erewrite update_tool_Ok by exact HT.
    eexists. split; [reflexivity|]. simpl. rewrite !lookup_insert_eq.
    repeat split. now rewrite <- app_assoc.
Qed.

Lemma standby_transition_arms_both_timers_witness :
  exists s',
    set_heater 2 (only_heater_state HEATER_STATE_STANDBY) Scenario.printing
      = Ok tt s' /\
    scheduled <$> timers_to_standby s' !! 2 = Some (Some 30%Q) /\
    scheduled <$> timers_to_powerdown s' !! 2 = Some (Some 600%Q) /\
    heaters s' = heaters Scenario.printing.
Proof.
  edestruct (standby_transition_arms_both_timers Scenario.printing 2)
    as (s' & E & _ & Hh & Hs & Hp & _).
  - reflexivity.
  - reflexivity.
  - reflexivity.
  - reflexivity.
  - reflexivity.
  - reflexivity.
  - reflexivity.
  - reflexivity.
  - reflexivity.
  - reflexivity.
  - discriminate.
  - exists s'. split; [exact E|]. rewrite Hs, Hp. repeat split. exact Hh.
Defined.

(** X7.  The transition to OFF pushes no temperature either: the heater
    keeps its target, the tool's heater state becomes OFF and the
    to-powerdown timer is armed for the tool with the threshold delay.
    Once the reactor clock has moved on by at least that delay, the
    dispatch of the timer sets the heater target to 0. *)
Theorem off_transition_powers_down_later s t (T : Tool) e h r ts tp d :
  tools s !! t = Some T -> extruder T = Some e -> heaters s !! e = Some h ->
  timer_ref T = Some r ->
  timers_to_standby s !! r = Some ts -> inside_timer ts = false ->
  timers_to_powerdown s !! r = Some tp -> inside_timer tp = false ->
  repeat tp = false ->
  heater_state T <> HEATER_STATE_OFF ->
  (min_duration_threshold <= d)%Q ->
  exists s' s'',
    set_heater t (only_heater_state HEATER_STATE_OFF) s = Ok tt s' /\
    heaters s' = heaters s /\
    (fun T : Tool => heater_state T) <$> tools s' !! t
      = Some HEATER_STATE_OFF /\
    scheduled <$> timers_to_powerdown s' !! r
      = Some (Some (monotonic s + min_duration_threshold)%Q) /\
    reactor_dispatch r TIMER_TO_SHUTDOWN (pause d s') = Ok true s'' /\
    target <$> heaters s'' !! e = Some 0%Q /\
    (fun T : Tool => heater_state T) <$> tools s'' !! t
      = Some HEATER_STATE_OFF.
Proof.
  intros HT He Hh Hr Hts Hits Htp Hitp Hrep Hstate Hd.
  rewrite (set_heater_only_heater_state _ _ _ _ _ _ HT He Hh).
  replace (HeaterState_eqb (heater_state T) HEATER_STATE_OFF) with false
    by (now destruct (heater_state T)).
  rewrite !bind_assoc.
  erewrite bind_Ok
    by (eapply set_timer_of_Ok; [exact HT|exact Hr|exact Hts|exact Hits]).
  erewrite bind_Ok
    by (eapply set_timer_of_Ok; [exact HT|exact Hr|exact Htp|exact Hitp]).
  erewrite update_tool_Ok by exact HT.
  match goal with
  | |- exists s' s'', Ok tt ?s1 = Ok tt s' /\ _ => set (s1' := s1)
  end.
  destruct (powerdown_callback_Ok (pause d s1') r (monotonic s1' + d)%Q
              (armed s tp (1 # 10) t) t
              (with_heater_state HEATER_STATE_OFF T) e h r
              (armed s ts 0 t))
    as (s2 & evs & E & _ & Hs2 & Hh2 & Htm2);
    try reflexivity; try assumption;
    try (subst s1'; simpl; now rewrite lookup_insert_eq).
  exists s1'. eexists. split; [reflexivity|].
  split; [reflexivity|].
  split; [subst s1'; simpl; now rewrite lookup_insert_eq|].
  split; [subst s1'; simpl; now rewrite lookup_insert_eq|].
  unfold reactor_dispatch.
  erewrite bind_Ok
    by (apply (lookup_timer_Some _ r TIMER_TO_SHUTDOWN); subst s1'; simpl;
        apply lookup_insert_eq).
  rewrite (bind_Ok _ _ (pause d s1') (monotonic s1' + d)%Q (pause d s1'))
    by reflexivity.
  cbn [scheduled armed].
  match goal with
  | |- context [Qle_bool ?a ?b] => replace (Qle_bool a b) with true
  end.
  2:{ symmetry. apply Qle_bool_iff. subst s1'. simpl.
      apply Qplus_le_r. exact Hd. }
  rewrite (bind_Ok _ _ _ _ _ E).
  erewrite bind_Ok
    by (apply (lookup_timer_Some _ r TIMER_TO_SHUTDOWN); exact Htm2).
  rewrite (bind_Ok _ _ _ _ _ (put_timer_Ok _ _ _ _)).
  split; [reflexivity|]. destruct s2; simpl in *.
  split; [exact Hh2|]. exact Hs2.
Qed.

Lemma off_transition_powers_down_later_witness :
  exists s' s'',
    set_heater 2 (only_heater_state HEATER_STATE_OFF) Scenario.printing
      = Ok tt s' /\
    heaters s' = heaters Scenario.printing /\
    reactor_dispatch 2 TIMER_TO_SHUTDOWN (pause (1 # 2) s') = Ok true s'' /\
    target <$> heaters s'' !! "extruder"%string = Some 0%Q.
Proof.
  edestruct (off_transition_powers_down_later Scenario.printing 2)
    as (s' & s'' & E & Hh & _ & _ & E' & Ht & _).
  - reflexivity.
  - reflexivity.
  - reflexivity.
  - reflexivity.
  - reflexivity.
  - reflexivity.
  - reflexivity.
  - reflexivity.
  - reflexivity.
  - discriminate.
  - apply Qle_refl.
  - exists s', s''. repeat split; [exact E|exact Hh|exact E'|exact Ht].
Defined.

(** ** Homing and the mechanical operations *)

Lemma is_homed_app a h l :
  is_homed a (h ++ l) = is_homed a h || is_homed a l.
Proof. apply existsb_app. Qed.

Lemma all_homed_after_G28 homed :
  all_homed
    (homed ++ List.filter (fun a => negb (is_homed a homed))
                [AxisX; AxisY; AxisZ]) = true.
Proof.
  unfold all_homed. cbn [forallb]. rewrite !is_homed_app. cbn [List.filter].
  destruct (is_homed AxisX homed), (is_homed AxisY homed),
    (is_homed AxisZ homed); reflexivity.
Qed.

Lemma missing_axes_spec homed a :
  In a (List.filter (fun a => negb (is_homed a homed)) [AxisX; AxisY; AxisZ])
  <-> is_homed a homed = false.
Proof.
  rewrite filter_In, negb_true_iff. split; [tauto|].
  intros H. split; [|exact H]. destruct a; simpl; auto.
Qed.

(** X8.  [PrinterIsHomedForToolchange] always returns.  It answers [False]
    exactly when an axis is not homed and the policy is 0, or is 1 with Z
    not homed, and then has changed nothing.  Otherwise it answers [True]
    and leaves every axis homed: it has issued one [G28] for exactly the
    axes that were not homed, or none at all when all were. *)
Theorem homing_check_homes_only_by_policy s p :
  exists b s',
    PrinterIsHomedForToolchange p s = Ok b s' /\
    (b = false <->
       all_homed (homed_axes s) = false /\
       (p = 0 \/ (p = 1 /\ is_homed AxisZ (homed_axes s) = false))) /\
    (if b then all_homed (homed_axes s') = true else s' = s) /\
    (if all_homed (homed_axes s) || negb b then trace s' = trace s
     else exists axes,
         trace s' = trace s ++ [Home axes] /\
         forall a, In a axes <-> is_homed a (homed_axes s) = false).
Proof.
  unfold PrinterIsHomedForToolchange.
  rewrite (bind_Ok _ _ s (homed_axes s) s) by reflexivity.
  destruct (all_homed (homed_axes s)) eqn:Hall.
  { exists true, s. repeat split; easy. }
  cbn [negb]. rewrite andb_true_r.
  destruct (p =? 0) eqn:H0.
  { apply Z.eqb_eq in H0. exists false, s. repeat split; auto. }
  apply Z.eqb_neq in H0. cbn [andb].
  destruct (p =? 1) eqn:H1; cbn [andb].
  - apply Z.eqb_eq in H1.
    destruct (is_homed AxisZ (homed_axes s)) eqn:Hz; cbn [negb].
    + eexists true, _. split; [reflexivity|]. simpl.
      split; [split; [discriminate|intros [_ [?|[_ ?]]]; easy]|].
      split; [apply all_homed_after_G28|].
      eexists. split; [reflexivity|]. apply missing_axes_spec.
    + exists false, s. repeat split; auto.
  - apply Z.eqb_neq in H1.
    eexists true, _. split; [reflexivity|]. simpl.
    split; [split; [discriminate|intros [_ [?|[? _]]]; easy]|].
    split; [apply all_homed_after_G28|].
    eexists. split; [reflexivity|]. apply missing_axes_spec.
Qed.

Ltac failed_operation :=
  cbn; intros [= <- <-]; cbn;
  repeat split;
  first
    [ exists []; split; [now rewrite app_nil_r|constructor]
    | eexists; split;
      [rewrite <- ?app_assoc; reflexivity
      |repeat constructor; discriminate] ].

(** X9.  A mechanical operation that raises has recorded nothing: the
    current tool is the one before the call, no tool object has changed
    and no [SAVE_VARIABLE] was issued. *)
Theorem failed_operation_records_nothing s t force m e s' :
  In m [Pickup t; Dropoff t force; LoadVirtual t; UnloadVirtual t] ->
  m s = Raise e s' ->
  tool_current s' = tool_current s /\ tools s' = tools s /\
  exists evs, trace s' = trace s ++ evs /\ no_save_variable evs.
Proof.
  unfold no_save_variable.
  intros [<-|[<-|[<-|[<-|[]]]]].
  - unfold Pickup, PrinterIsHomedForToolchange, run_gcode_from_command,
      SaveCurrentTool, lookup_tool, bind, gets, emit, modify, ret, raise,
      when.
    destruct (tools s !! t) as [T|]; [|failed_operation]. simpl.
    destruct (all_homed (homed_axes s)); simpl; [|failed_operation].
    destruct (extruder T) as [x|]; simpl;
      destruct (template_fails s pickup_gcode t); simpl;
      try failed_operation;
      destruct (fan T) as [f|]; simpl;
      destruct (Qnonzero (shaper_freq_x T) || Qnonzero (shaper_freq_y T));
      simpl; discriminate.
  - unfold Dropoff, PrinterIsHomedForToolchange, run_gcode_from_command,
      SaveCurrentTool, lookup_tool, bind, gets, emit, modify, ret, raise.
    destruct (tools s !! t) as [T|]; [|failed_operation]. simpl.
    destruct (all_homed (homed_axes s)); simpl; [|discriminate].
    destruct (fan T) as [f|]; simpl;
      destruct (template_fails s dropoff_gcode t); simpl;
      try failed_operation; discriminate.
  - unfold LoadVirtual, run_virtual_gcode_from_command,
      run_gcode_from_command, physical_parent_key, set_virtual_loaded,
      update_tool, SaveCurrentTool, lookup_tool, bind, gets, emit, modify,
      ret, raise.
    destruct (tools s !! t) as [T|] eqn:HT; [|failed_operation].
    simpl. rewrite HT.
    destruct (is_virtual T); simpl; [|failed_operation].
    destruct (template_fails s virtual_toolload_gcode t); simpl;
      [failed_operation|].
    destruct (physical_parent_id T) as [p|]; simpl; [|failed_operation].
    destruct (tools s !! p); simpl; [discriminate|failed_operation].
  - unfold UnloadVirtual, run_virtual_gcode_from_command,
      run_gcode_from_command, physical_parent_key, set_virtual_loaded,
      update_tool, SaveCurrentTool, lookup_tool, bind, gets, emit, modify,
      ret, raise.
    destruct (tools s !! t) as [T|] eqn:HT; [|failed_operation].
    simpl. rewrite HT.
    destruct (is_virtual T); simpl; [|failed_operation].
    destruct (template_fails s virtual_toolunload_gcode t); simpl;
      [failed_operation|].
    destruct (physical_parent_id T) as [p|]; simpl; [|failed_operation].
    destruct (tools s !! p); simpl; [discriminate|failed_operation].
Qed.

Lemma failed_operation_records_nothing_witness :
  Pickup 3 Example.printer_z_homed
    = Raise NotHomed Example.printer_z_homed /\
  tool_current Example.printer_z_homed
    = tool_current Example.printer_z_homed.
Proof.
  split; [reflexivity|].
  apply (failed_operation_records_nothing Example.printer_z_homed 3 false
           (Pickup 3) NotHomed Example.printer_z_homed).
  - left. reflexivity.
  - reflexivity.
Defined.

(** ** What heater management leaves alone *)

#[export] Instance heating_only_preorder : PreOrder heating_only.
Proof.
  split.
  - intros s. split; try easy. exists []. now rewrite app_nil_r.
  - intros s1 s2 s3 [a1 b1 c1 d1 e1 f1 g1 h1 i1 j1 (evs1 & k1 & l1)]
      [a2 b2 c2 d2 e2 f2 g2 h2 i2 j2 (evs2 & k2 & l2)].
    split; intros; try congruence; try (now rewrite j2, j1).
    exists (evs1 ++ evs2). split.
    + now rewrite k2, k1, app_assoc.
    + now apply Forall_app.
Qed.

Lemma heating_only_emit e : heater_call e -> keeps heating_only (emit e).
Proof.
  intros He. apply keeps_modify. intros s. split; try easy.
  exists [e]. split; [reflexivity|]. now constructor.
Qed.

Lemma heating_only_update_tool t f :
  (forall T, settings (f T) = settings T /\
             virtual_loaded (f T) = virtual_loaded T) ->
  keeps heating_only (update_tool t f).
Proof.
  intros Hf. apply keeps_modify. intros s.
  split; simpl; try reflexivity.
  - intros u. destruct (tools s !! t) as [T|] eqn:E; [|reflexivity].
    destruct (decide (t = u)) as [<-|Hne].
    + rewrite lookup_insert_eq, E. simpl. destruct (Hf T) as [-> ->].
      reflexivity.
    + now rewrite lookup_insert_ne.
  - exists []. now rewrite app_nil_r.
Qed.

Lemma heating_only_put_timer r k tm : keeps heating_only (put_timer r k tm).
Proof.
  destruct k; apply keeps_modify; intros s;
    split; simpl; try reflexivity; exists []; now rewrite app_nil_r.
Qed.

Lemma heating_only_set_temp e v : keeps heating_only (set_temp e v).
Proof.
  unfold set_temp. apply keeps_bind; [exact _| |intros _].
  { now apply heating_only_emit. }
  apply keeps_modify. intros s.
  split; simpl; try reflexivity. exists []. now rewrite app_nil_r.
Qed.

Create HintDb heating.

#[local] Hint Resolve heating_only_put_timer heating_only_set_temp : heating.
#[local] Hint Extern 1 (keeps _ (emit _)) =>
  (apply heating_only_emit; exact I) : heating.
#[local] Hint Extern 1 (keeps _ (update_tool _ _)) =>
  (apply heating_only_update_tool; intros []; split; reflexivity) : heating.

Ltac heating_walk := repeat keeps_step; auto with heating.

Lemma heating_only_tool_timer t k : keeps heating_only (tool_timer t k).
Proof. unfold tool_timer. heating_walk. Qed.

Lemma heating_only_set_timer r k d a : keeps heating_only (set_timer r k d a).
Proof. unfold set_timer. heating_walk. Qed.

#[local] Hint Resolve heating_only_tool_timer heating_only_set_timer
  : heating.

Lemma heating_only_set_timer_of t k d a :
  keeps heating_only (set_timer_of t k d a).
Proof. unfold set_timer_of. heating_walk. Qed.

Lemma heating_only_set_timer_idle t k d a :
  keeps heating_only (set_timer_idle t k d a).
Proof. unfold set_timer_idle. heating_walk. Qed.

#[local] Hint Resolve heating_only_set_timer_of heating_only_set_timer_idle
  : heating.

Lemma heating_only_set_heater t kw : keeps heating_only (set_heater t kw).
Proof. unfold set_heater. heating_walk. Qed.

Lemma heating_only_timer_event r k eventtime :
  keeps heating_only (_standby_tool_temp_timer_event r k eventtime).
Proof.
  unfold _standby_tool_temp_timer_event, _set_state. heating_walk.
Qed.

#[local] Hint Resolve heating_only_timer_event : heating.

Lemma heating_only_reactor_dispatch r k :
  keeps heating_only (reactor_dispatch r k).
Proof. unfold reactor_dispatch. heating_walk. Qed.

(** X10.  Heater management never touches the mechanical side.  Whatever
    its arguments, and whether it returns or raises, [set_heater] leaves
    the current tool, the remap table, the homed axes and the saved fan
    speed and position as they were, keeps the settings and the
    [virtual_loaded] of every tool object, and calls nothing but
    [heater.set_temp] and [reactor.update_timer]; so does a timer
    callback, run directly or by the reactor. *)
Theorem heater_management_is_heating_only s t kw r k eventtime :
  heating_only s (final (set_heater t kw s)) /\
  heating_only s (final (_standby_tool_temp_timer_event r k eventtime s)) /\
  heating_only s (final (reactor_dispatch r k s)).
Proof.
  split; [apply heating_only_set_heater|].
  split; [apply heating_only_timer_event|apply heating_only_reactor_dispatch].
Qed.

(** ** Selections *)

Lemma mounts_only_service_call t e : service_call e -> mounts_only t e.
Proof. destruct e as [[] ?| | | | | | | | |]; simpl; tauto. Qed.

(** *** The objects of the printer *)

#[export] Instance same_objects_preorder : PreOrder same_objects.
Proof.
  split.
  - intros s. split; intros; reflexivity.
  - intros s1 s2 s3 [a1 b1 c1 d1] [a2 b2 c2 d2].
    split; intros.
    + now rewrite a2, a1.
    + now rewrite b2, b1.
    + now rewrite c2, c1.
    + now rewrite d2, d1.
Qed.

Lemma is_Some_insert_existing `{Countable K} {A} (m : gmap K A) k k' v :
  is_Some (m !! k) -> is_Some (<[k := v]> m !! k') <-> is_Some (m !! k').
Proof.
  intros Hk. destruct (decide (k = k')) as [<-|Hne].
  - rewrite lookup_insert_eq. split; eauto.
  - now rewrite lookup_insert_ne.
Qed.

Create HintDb objects.

Section Objects.

(** An assignment to an attribute that holds no object. *)
Lemma same_objects_silent f :
  (forall s, tools (f s) = tools s /\ heaters (f s) = heaters s /\
             timers_to_standby (f s) = timers_to_standby s /\
             timers_to_powerdown (f s) = timers_to_powerdown s) ->
  keeps same_objects (modify f).
Proof.
  intros H. apply keeps_modify. intros s.
  destruct (H s) as (a & b & c & d).
  split; intros; rewrite ?a, ?b, ?c, ?d; reflexivity.
Qed.

Lemma same_objects_emit e : keeps same_objects (emit e).
Proof. apply same_objects_silent. intros s. repeat split. Qed.

Lemma same_objects_update_tool t f : keeps same_objects (update_tool t f).
Proof.
  apply keeps_modify. intros s. split; simpl; try reflexivity.
  intros u. destruct (tools s !! t) eqn:E; [|reflexivity].
  apply is_Some_insert_existing. rewrite E. eauto.
Qed.

Lemma same_objects_set_temp e v : keeps same_objects (set_temp e v).
Proof.
  unfold set_temp.
  apply keeps_bind; [exact _|apply same_objects_emit|intros _].
  apply keeps_modify. intros s. split; simpl; try reflexivity.
  intros e'. destruct (heaters s !! e) eqn:E; [|reflexivity].
  apply is_Some_insert_existing. rewrite E. eauto.
Qed.

(** [set_timer] is a method of the timer it assigns to: it replaces an
    object that exists. *)
Lemma same_objects_set_timer r k d a : keeps same_objects (set_timer r k d a).
Proof.
  intros s. unfold set_timer, bind at 1, lookup_timer.
  destruct (timer_store k s !! r) as [tm|] eqn:E; [|reflexivity].
  destruct (inside_timer tm);
    unfold bind, gets, emit, modify, put_timer;
    destruct k; simpl in *;
    (split; simpl; try reflexivity; intros r';
     apply is_Some_insert_existing; rewrite E; eauto).
Qed.

Hint Resolve same_objects_emit same_objects_update_tool
  same_objects_set_temp same_objects_set_timer : objects.
Hint Extern 1 (keeps _ (modify _)) =>
  (apply same_objects_silent; intros ?; repeat split) : objects.

Ltac objects_walk := repeat keeps_step; auto with objects.

Lemma same_objects_SaveCurrentTool t : keeps same_objects (SaveCurrentTool t).
Proof. unfold SaveCurrentTool. objects_walk. Qed.

Lemma same_objects_SaveCurrentPosition r :
  keeps same_objects (SaveCurrentPosition r).
Proof. unfold SaveCurrentPosition. objects_walk. Qed.

Lemma same_objects_PrinterIsHomedForToolchange l :
  keeps same_objects (PrinterIsHomedForToolchange l).
Proof. unfold PrinterIsHomedForToolchange. objects_walk. Qed.

Lemma same_objects__Temperature_wait_with_tolerance n tol :
  keeps same_objects (_Temperature_wait_with_tolerance n tol).
Proof. unfold _Temperature_wait_with_tolerance. objects_walk. Qed.

Lemma same_objects_tool_timer t k : keeps same_objects (tool_timer t k).
Proof. unfold tool_timer. objects_walk. Qed.

Hint Resolve same_objects_SaveCurrentTool same_objects_SaveCurrentPosition
  same_objects_PrinterIsHomedForToolchange
  same_objects__Temperature_wait_with_tolerance same_objects_tool_timer
  : objects.

Lemma same_objects_set_timer_of t k d a :
  keeps same_objects (set_timer_of t k d a).
Proof. unfold set_timer_of. objects_walk. Qed.

Lemma same_objects_set_timer_idle t k d a :
  keeps same_objects (set_timer_idle t k d a).
Proof. unfold set_timer_idle. objects_walk. Qed.

Hint Resolve same_objects_set_timer_of same_objects_set_timer_idle : objects.

Lemma same_objects_set_heater t kwargs :
  keeps same_objects (set_heater t kwargs).
Proof. unfold set_heater. objects_walk. Qed.

Lemma same_objects_run_gcode_from_command g t :
  keeps same_objects (run_gcode_from_command g t).
Proof. unfold run_gcode_from_command. objects_walk. Qed.

Hint Resolve same_objects_set_heater same_objects_run_gcode_from_command
  : objects.

Lemma same_objects_run_virtual_gcode_from_command g t :
  keeps same_objects (run_virtual_gcode_from_command g t).
Proof. unfold run_virtual_gcode_from_command. objects_walk. Qed.

Lemma same_objects_set_virtual_loaded t v :
  keeps same_objects (set_virtual_loaded t v).
Proof. unfold set_virtual_loaded. objects_walk. Qed.

Lemma same_objects_physical_parent_key T :
  keeps same_objects (physical_parent_key T).
Proof. unfold physical_parent_key. objects_walk. Qed.

Hint Resolve same_objects_run_virtual_gcode_from_command
  same_objects_set_virtual_loaded same_objects_physical_parent_key
  : objects.

Lemma same_objects_Pickup t : keeps same_objects (Pickup t).
Proof. unfold Pickup. objects_walk. Qed.

Lemma same_objects_Dropoff t force : keeps same_objects (Dropoff t force).
Proof. unfold Dropoff. objects_walk. Qed.

Lemma same_objects_LoadVirtual t : keeps same_objects (LoadVirtual t).
Proof. unfold LoadVirtual. objects_walk. Qed.

Lemma same_objects_UnloadVirtual t : keeps same_objects (UnloadVirtual t).
Proof. unfold UnloadVirtual. objects_walk. Qed.

Hint Resolve same_objects_Pickup same_objects_Dropoff
  same_objects_LoadVirtual same_objects_UnloadVirtual : objects.

Lemma same_objects_select_tool_actual t rm :
  keeps same_objects (select_tool_actual t rm).
Proof.
  unfold select_tool_actual.
  unfold int_unlocked_or_parent, int_parent, parent_known_and_equal,
    lookup_tool_opt.
  objects_walk.
Qed.
End Objects.

(** X11.  A select request never picks up or loads another tool than the
    one it resolves to.  Whether it returns or raises, it leaves the remap
    table and the settings of every tool as they were, and no tool,
    heater or timer object appears or disappears: the objects of the
    printer afterwards are the objects it had before. *)
Theorem selection_mounts_only_its_tool s t rm :
  follows (mounts_only (resolved_tool s t)) s
    (final (cmd_SelectTool t rm s)) /\
  same_objects s (final (cmd_SelectTool t rm s)).
Proof.
  rewrite cmd_SelectTool_resolved. split.
  - apply follows_select_tool_actual; simpl; auto.
    apply mounts_only_service_call.
  - apply same_objects_select_tool_actual.
Qed.

Lemma heater_call_service_call e : heater_call e -> service_call e.
Proof. now destruct e. Qed.

Lemma templates_run_heater_calls evs :
  Forall heater_call evs -> templates_run evs = [].
Proof.
  intros H. apply templates_run_service.
  eapply Forall_impl; [exact H|]. apply heater_call_service_call.
Qed.

Lemma heating_only_lookup s s' t (T : Tool) :
  heating_only s s' -> tools s !! t = Some T ->
  exists T' : Tool, tools s' !! t = Some T' /\ settings T' = settings T /\
                    virtual_loaded T' = virtual_loaded T.
Proof.
  intros F HT. pose proof (heating_tools _ _ F t) as E.
  rewrite HT in E. destruct (tools s' !! t) as [T'|]; [|discriminate].
  exists T'. split; [reflexivity|]. simpl in E. split; congruence.
Qed.

Lemma bind_Raise {A B} (m : M A) (k : A -> M B) s e s1 :
  m s = Raise e s1 -> bind m k s = Raise e s1.
Proof. unfold bind. now intros ->. Qed.

Lemma lookup_heater_None s e :
  heaters s !! e = None -> lookup_heater (Some e) s = Raise UnknownObject s.
Proof. intros H. unfold lookup_heater. now rewrite H. Qed.

(** The heater state a [set_heater(heater_state = chng)] that returned
    leaves on a tool with an extruder. *)
Lemma set_heater_state_Ok_inv s t (T : Tool) chng s' :
  tools s !! t = Some T -> is_Some (extruder T) ->
  set_heater t (only_heater_state chng) s = Ok tt s' ->
  (fun T : Tool => heater_state T) <$> tools s' !! t = Some chng.
Proof.
  intros HT [e He] E.
  destruct (heaters s !! e) as [h|] eqn:Hh.
  2:{ unfold set_heater in E.
      rewrite (bind_Ok _ _ _ _ _ (lookup_tool_Some _ _ _ HT)), He in E.
      rewrite (bind_Raise _ _ _ _ _ (lookup_heater_None _ _ Hh)) in E.
      discriminate. }
  rewrite (set_heater_only_heater_state _ _ _ _ _ _ HT He Hh) in E.
  destruct (HeaterState_eqb (heater_state T) chng) eqn:Hc.
  - assert (heater_state T = chng) as <-
        by (destruct (heater_state T), chng; easy).
    assert (K : heating_only s s').
    { destruct (heater_state T).
      + now injection E as <-.
      + exact (keeps_Ok _ _ _ _ _ (heating_only_set_temp _ _) E).
      + exact (keeps_Ok _ _ _ _ _ (heating_only_set_temp _ _) E). }
    assert (tools s' = tools s) as ->.
    { destruct (heater_state T); [now injection E as <-| |];
        rewrite (set_temp_Ok _ _ _ _ Hh) in E; now injection E as <-. }
    now rewrite HT.
  - apply bind_Ok_inv in E as ([] & s1 & E1 & E).
    assert (K : heating_only s s1).
    { refine (keeps_Ok heating_only _ _ _ _ _ E1).
      destruct chng; heating_walk. }
    destruct (heating_only_lookup _ _ _ _ K HT) as (T' & HT' & _).
    rewrite (update_tool_Ok _ _ _ _ HT') in E. injection E as <-.
    simpl. now rewrite lookup_insert_eq.
Qed.

Lemma SaveCurrentPosition_Ok r s :
  SaveCurrentPosition r s =
  Ok tt (set_saved_position (Some (gcode_position s)) r s).
Proof. reflexivity. Qed.

(** A [Pickup] on a homed machine whose pickup template does not fail. *)
Lemma Pickup_returns s t (T : Tool) :
  tools s !! t = Some T -> all_homed (homed_axes s) = true ->
  template_fails s pickup_gcode t = false ->
  exists s' pre post,
    Pickup t s = Ok tt s' /\ tool_current s' = t /\ tools s' = tools s /\
    saved_position s' = saved_position s /\
    restore_axis_on_toolchange s' = restore_axis_on_toolchange s /\
    Forall service_call pre /\ Forall service_call post /\
    trace s' = trace s ++ pre ++ [RunTemplate pickup_gcode t] ++ post /\
    forall f, fan T = Some f -> In (SetFanSpeed f (saved_fan_speed s)) post.
Proof.
  intros HT Hh Hf.
  exists (final (Pickup t s)),
    (match extruder T with Some e => [ActivateExtruder e] | None => [] end
     ++ [Dwell]),
    (match fan T with
     | Some f => [SetFanSpeed f (saved_fan_speed s)]
     | None => []
     end
     ++ (if Qnonzero (shaper_freq_x T) || Qnonzero (shaper_freq_y T)
         then [SetInputShaper t] else [])
     ++ [SaveVariable t]).
  unfold Pickup, PrinterIsHomedForToolchange, run_gcode_from_command,
    SaveCurrentTool, lookup_tool, bind, gets, emit, modify, ret, raise, when.
  rewrite HT. simpl. rewrite Hh. simpl.
  destruct (extruder T) as [e|]; simpl; rewrite Hf; simpl;
    destruct (fan T) as [f|]; simpl;
    destruct (Qnonzero (shaper_freq_x T) || Qnonzero (shaper_freq_y T));
    simpl;
    repeat (split; [reflexivity|]);
    (split; [repeat constructor|]);
    (split; [repeat constructor|]);
    (split; [now rewrite <- ?app_assoc|]);
    intros ? [= <-]; simpl; tauto.
Qed.

(** The selection, without restore mode, of a physical tool when nothing
    is mounted. *)
Lemma select_tool_actual_picks_up s t (T : Tool) :
  tool_current s = TOOL_UNLOCKED -> t <> TOOL_UNLOCKED ->
  tools s !! t = Some T -> is_virtual T = false -> heater_ready s t ->
  all_homed (homed_axes s) = true ->
  template_fails s pickup_gcode t = false ->
  exists s',
    select_tool_actual t None s = Ok tt s' /\
    tool_current s' = t /\
    templates_run (trace s') = templates_run (trace s) ++ [(pickup_gcode, t)] /\
    (is_Some (extruder T) ->
     (fun T : Tool => heater_state T) <$> tools s' !! t
       = Some HEATER_STATE_ACTIVE) /\
    saved_position s' = saved_position s /\
    restore_axis_on_toolchange s' = restore_axis_on_toolchange s.
Proof.
  intros Hcur Hne HT Hv Hready Hhomed Hfails.
  unfold select_tool_actual.
  rewrite (bind_Ok _ _ _ _ _ (lookup_tool_Some _ _ _ HT)).
  rewrite (bind_Ok _ _ s (tool_current s) s) by reflexivity.
  rewrite Hcur.
  replace (TOOL_UNLOCKED =? t) with false
    by (symmetry; apply Z.eqb_neq; congruence).
  replace (TOOL_UNLOCKED <? TOOL_UNLOCKED) with false by reflexivity.
  replace (TOOL_UNLOCKED >? TOOL_UNLOCKED) with false by reflexivity.
  rewrite Hv. cbn [negb].
  (* the heater *)
  assert (exists s1,
            match extruder T with
            | Some _ => set_heater t (only_heater_state HEATER_STATE_ACTIVE)
            | None => ret tt
            end s = Ok tt s1 /\ heating_only s s1 /\
            (is_Some (extruder T) ->
             (fun T : Tool => heater_state T) <$> tools s1 !! t
               = Some HEATER_STATE_ACTIVE)) as (s1 & E1 & K1 & Hstate).
  { destruct (extruder T) as [e|] eqn:He.
    - destruct (set_heater_active_returns s t Hready) as [s1 E1].
      exists s1. split; [exact E1|]. split.
      + exact (keeps_Ok _ _ _ _ _ (heating_only_set_heater _ _) E1).
      + intros _. eapply set_heater_state_Ok_inv; eauto.
    - exists s. split; [reflexivity|]. split; [reflexivity|].
      now intros [? ?]. }
  rewrite (bind_Ok _ _ _ _ _ E1).
  destruct (heating_only_lookup _ _ _ _ K1 HT) as (T1 & HT1 & Eset & _).
  (* no restore mode: no position is saved *)
  rewrite (bind_Ok _ _ s1 tt s1) by reflexivity.
  rewrite (bind_Ok _ _ s1 TOOL_UNLOCKED s1) by reflexivity.
  assert (Hh1 : all_homed (homed_axes s1) = true)
    by now rewrite (heating_homed_axes _ _ K1).
  assert (Hf1 : template_fails s1 pickup_gcode t = false)
    by now rewrite (heating_template_fails _ _ K1).
  destruct (Pickup_returns s1 t T1 HT1 Hh1 Hf1)
    as (sk & pre & post & Ek & _ & Htools & Hpos & Haxes & Hpre & Hpost
        & Htr & _).
  rewrite (bind_Ok _ _ _ _ _ Ek), SaveCurrentTool_Ok.
  eexists. split; [reflexivity|]. simpl.
  split; [reflexivity|].
  destruct K1 as [_ _ _ _ Hsp Hra Hgp _ _ _ (evs & Hevs & Hheat)].
  split; [|split; [|split]].
  - rewrite Htr, Hevs, !templates_run_app.
    rewrite (templates_run_heater_calls _ Hheat),
      (templates_run_service _ Hpre), (templates_run_service _ Hpost).
    simpl. now rewrite !app_nil_r.
  - intros He. rewrite Htools. auto.
  - now rewrite Hpos.
  - now rewrite Haxes.
Qed.

(** X12.  Nothing mounted, all axes homed: the selection, without
    restore mode, of a physical tool whose pickup template does not fail
    returns with that tool as the current one, having run its pickup
    template and no other; a tool with an extruder is left in heater
    state ACTIVE, and the saved position is left as it was. *)
Theorem select_from_unlocked_picks_up s t (T : Tool) :
  tool_current s = TOOL_UNLOCKED -> t <> TOOL_UNLOCKED ->
  tools s !! t = Some T -> is_virtual T = false -> heater_ready s t ->
  all_homed (homed_axes s) = true ->
  template_fails s pickup_gcode t = false ->
  exists s',
    select_tool_actual t None s = Ok tt s' /\
    tool_current s' = t /\
    templates_run (trace s') = templates_run (trace s) ++ [(pickup_gcode, t)] /\
    (is_Some (extruder T) ->
     (fun T : Tool => heater_state T) <$> tools s' !! t
       = Some HEATER_STATE_ACTIVE) /\
    saved_position s' = saved_position s /\
    restore_axis_on_toolchange s' = restore_axis_on_toolchange s.
Proof. apply select_tool_actual_picks_up. Qed.

(** T2 of the example printer, which has the extruder. *)
Lemma select_from_unlocked_picks_up_witness :
  exists s',
    select_tool_actual 2 None Example.printer = Ok tt s' /\
    tool_current s' = 2 /\
    templates_run (trace s') = [(pickup_gcode, 2)] /\
    (fun T : Tool => heater_state T) <$> tools s' !! 2
      = Some HEATER_STATE_ACTIVE.
Proof.
  edestruct (select_from_unlocked_picks_up Example.printer 2)
    as (s' & E & Hc & Ht & Hs & _).
  - reflexivity.
  - discriminate.
  - reflexivity.
  - reflexivity.
  - eexists. split; [reflexivity|]. intros e [= <-]. split.
    + eexists. reflexivity.
    + eexists _, 2. repeat split; eexists; reflexivity.
  - reflexivity.
  - reflexivity.
  - exists s'. repeat split; [exact E|exact Hc|exact Ht|].
    apply Hs. eexists. reflexivity.
Defined.

(** ** Remap resolution *)

Lemma mounts_only_templates_run b evs g u :
  Forall (mounts_only b) evs -> In (g, u) (templates_run evs) ->
  g = pickup_gcode \/ g = virtual_toolload_gcode -> u = b.
Proof.
  induction 1 as [|e evs He _ IH]; simpl; [tauto|].
  intros Hin Hg. apply in_app_or in Hin as [Hin|Hin]; [|now apply IH].
  destruct e; simpl in Hin; try tauto.
  destruct Hin as [[= <- <-]|[]].
  destruct Hg as [-> | ->]; exact He.
Qed.

Lemma follows_grows allowed s s' : follows allowed s s' -> grows s s'.
Proof. intros [_ _ _ _ _ _ (evs & H & _)]. now exists evs. Qed.

Lemma ran_after s s1 s2 g t : grows s s1 -> ran g t s1 s2 -> ran g t s s2.
Proof.
  intros [evs1 H1] (evs2 & H2 & Hin). exists (evs1 ++ evs2). split.
  - now rewrite H2, H1, app_assoc.
  - rewrite templates_run_app. apply in_or_app. now right.
Qed.

Lemma ran_before s s1 s2 g t : ran g t s s1 -> grows s1 s2 -> ran g t s s2.
Proof.
  intros (evs1 & H1 & Hin) [evs2 H2]. exists (evs1 ++ evs2). split.
  - now rewrite H2, H1, app_assoc.
  - rewrite templates_run_app. apply in_or_app. now left.
Qed.

Lemma lookup_tool_Ok_inv t s T s' :
  lookup_tool t s = Ok T s' -> s' = s /\ tools s !! t = Some T.
Proof.
  unfold lookup_tool. destruct (tools s !! t); [|discriminate].
  now intros [= <- <-].
Qed.

Lemma Pickup_Ok_ran t s s' : Pickup t s = Ok tt s' -> ran pickup_gcode t s s'.
Proof.
  unfold Pickup, PrinterIsHomedForToolchange, run_gcode_from_command,
    SaveCurrentTool, lookup_tool, bind, gets, emit, modify, ret, raise, when.
  destruct (tools s !! t) as [T|]; [|discriminate]. simpl.
  destruct (all_homed (homed_axes s)); simpl; [|discriminate].
  destruct (extruder T) as [e|]; simpl;
    (destruct (template_fails s pickup_gcode t); [discriminate|]);
    destruct (fan T) as [f|]; simpl;
    destruct (Qnonzero (shaper_freq_x T) || Qnonzero (shaper_freq_y T));
    simpl; intros [= <-]; unfold ran; simpl;
    (eexists; split; [rewrite <- ?app_assoc; reflexivity|]);
    simpl; tauto.
Qed.

Lemma LoadVirtual_Ok_ran t s s' :
  LoadVirtual t s = Ok tt s' -> ran virtual_toolload_gcode t s s'.
Proof.
  unfold LoadVirtual, run_virtual_gcode_from_command, run_gcode_from_command,
    physical_parent_key, set_virtual_loaded, update_tool,
    SaveCurrentTool, lookup_tool, bind, gets, emit, modify, ret, raise.
  destruct (tools s !! t) as [T|] eqn:HT; [|discriminate]. simpl.
  rewrite ?HT. simpl.
  destruct (is_virtual T); [|discriminate]. simpl.
  destruct (template_fails s virtual_toolload_gcode t); [discriminate|].
  destruct (physical_parent_id T) as [p|]; [|discriminate]. simpl.
  destruct (tools s !! p) as [P|]; [|discriminate].
  intros [= <-]. unfold ran. simpl.
  eexists. split; [rewrite <- ?app_assoc; reflexivity|].
  simpl. tauto.
Qed.

(** A selection that returns has mounted its tool, unless it already was
    the current one. *)
Lemma select_tool_actual_Ok_ran t rm s s' :
  select_tool_actual t rm s = Ok tt s' -> tool_current s <> t ->
  ran pickup_gcode t s s' \/ ran virtual_toolload_gcode t s s'.
Proof.
  unfold select_tool_actual. intros H Hne.
  apply bind_Ok_inv in H as (T & s0 & HT & H).
  apply lookup_tool_Ok_inv in HT as [-> HT].
  apply bind_Ok_inv in H as (c & s0 & Hc & H). injection Hc as <- <-.
  rewrite (proj2 (Z.eqb_neq _ _) Hne) in H.
  destruct (tool_current s <? TOOL_UNLOCKED); [discriminate|].
  pose (anything := fun _ : event => True).
  assert (Hany : forall e, service_call e -> anything e) by (intros; exact I).
  apply bind_Ok_inv in H as ([] & s1 & E1 & H).
  assert (G1 : grows s s1).
  { apply (follows_grows anything). destruct (extruder T).
    - exact (keeps_Ok _ _ _ _ _ (follows_set_heater anything Hany _ _) E1).
    - injection E1 as <-. reflexivity. }
  apply bind_Ok_inv in H as ([] & s2 & E2 & H).
  assert (G2 : grows s1 s2).
  { apply (follows_grows anything). destruct rm.
    - exact (keeps_Ok _ _ _ _ _
               (follows_SaveCurrentPosition anything _) E2).
    - injection E2 as <-. reflexivity. }
  apply bind_Ok_inv in H as (c' & s3 & E3 & H).
  assert (G3 : grows s2 s3).
  { apply (follows_grows anything).
    refine (keeps_Ok _ _ _ _ _ _ E3).
    unfold int_unlocked_or_parent, int_parent.
    repeat keeps_step;
      first [apply follows_Dropoff|apply follows_UnloadVirtual];
      auto; exact I. }
  assert (G : grows s s3).
  { destruct G1 as [e1 G1], G2 as [e2 G2], G3 as [e3 G3].
    exists (e1 ++ e2 ++ e3). now rewrite G3, G2, G1, !app_assoc. }
  apply bind_Ok_inv in H as ([] & s4 & E4 & H).
  rewrite SaveCurrentTool_Ok in H. injection H as <-.
  assert (G4 : grows s4
                 (set_trace (fun tr => tr ++ [SaveVariable t])
                    (set_tool_current t s4)))
    by (now eexists).
  assert (K : ran pickup_gcode t s3 s4 \/ ran virtual_toolload_gcode t s3 s4).
  { destruct (negb (is_virtual T)).
    - left. now apply Pickup_Ok_ran.
    - destruct (c' >? TOOL_UNLOCKED).
      + apply bind_Ok_inv in E4 as (ct & s5 & Hct & E4).
        apply lookup_tool_Ok_inv in Hct as [-> Hct].
        apply bind_Ok_inv in E4 as (same & s5 & Hs & E4).
        unfold parent_known_and_equal in Hs.
        destruct (physical_parent_id T); [|discriminate].
        injection Hs as <- <-.
        destruct (_ && _); [|discriminate].
        right. now apply LoadVirtual_Ok_ran.
      + apply bind_Ok_inv in E4 as (pp & s5 & Hpp & E4).
        assert (s5 = s3) as ->.
        { unfold lookup_tool_opt in Hpp.
          destruct (physical_parent_id T); [|discriminate].
          now apply lookup_tool_Ok_inv in Hpp as [-> _]. }
        apply bind_Ok_inv in E4 as ([] & s5 & Ep & E4).
        left. apply (ran_before _ s5); [now apply Pickup_Ok_ran|].
        apply (follows_grows anything).
        refine (keeps_Ok _ _ _ _ _ _ E4).
        repeat keeps_step;
          first [apply follows_set_heater
                |apply follows__Temperature_wait_with_tolerance
                |apply follows_UnloadVirtual
                |apply follows_LoadVirtual];
          auto; exact I. }
  destruct K as [K|K]; [left|right];
    (eapply ran_after; [exact G|]; eapply ran_before; [exact K|exact G4]).
Qed.

(** C6.  With a remap table that sends [a] to [b] and [b] to [c], a
    select request for [a] is exactly the selection of [b]; that selection
    runs the same whatever remap table is installed, so it is not resolved
    again; and when it returns the current tool is [b], not [c].  When it
    returns and [b] was not the current tool already, the pickup template
    or the virtual load template of [b] has run.  Whether it returns or
    raises, every pickup and every virtual load it runs is of [b], so none
    is of [c].  And it does return: with nothing mounted, all axes homed
    and [b] a physical tool whose pickup template does not fail, the
    request for [a] returns with [b] as the current tool, having run the
    pickup template of [b] and no other template.  The table
    {1 -> 2, 2 -> 3} is the instance a = 1, b = 2, c = 3. *)
Theorem remap_is_single_hop s a b c rm :
  tool_map s !! a = Some b -> tool_map s !! b = Some c ->
  0 <= b -> b <> c ->
  cmd_SelectTool a rm s = select_tool_actual b rm s /\
  (forall m, select_tool_actual b rm (set_tool_map m s) =
             in_state (set_tool_map m) (select_tool_actual b rm s)) /\
  (forall s', cmd_SelectTool a rm s = Ok tt s' ->
              tool_current s' = b /\ tool_current s' <> c) /\
  (forall s', cmd_SelectTool a rm s = Ok tt s' -> tool_current s <> b ->
              ran pickup_gcode b s s' \/ ran virtual_toolload_gcode b s s') /\
  (exists evs,
     trace (final (cmd_SelectTool a rm s)) = trace s ++ evs /\
     forall g u, In (g, u) (templates_run evs) ->
       g = pickup_gcode \/ g = virtual_toolload_gcode -> u = b /\ u <> c) /\
  (forall T : Tool,
     tool_current s = TOOL_UNLOCKED ->
     tools s !! b = Some T -> is_virtual T = false -> heater_ready s b ->
     all_homed (homed_axes s) = true ->
     template_fails s pickup_gcode b = false ->
     exists s',
       cmd_SelectTool a None s = Ok tt s' /\
       tool_current s' = b /\
       templates_run (trace s')
         = templates_run (trace s) ++ [(pickup_gcode, b)]).
Proof.
  intros Hab Hbc Hb Hne.
  assert (E : forall rm, cmd_SelectTool a rm s = select_tool_actual b rm s).
  { intros rm'. rewrite cmd_SelectTool_resolved. unfold resolved_tool.
    rewrite Hab. simpl.
    now replace (b >? -1) with true by (symmetry; apply Z.gtb_lt; lia). }
  split; [apply E|]. split; [|split; [|split; [|split]]].
  - intros m. apply blind_select_tool_actual.
  - intros s' H. rewrite E in H.
    apply select_tool_actual_current in H. split; congruence.
  - intros s' H Hcur. rewrite E in H.
    now apply (select_tool_actual_Ok_ran b rm).
  - rewrite E.
    destruct (follows_select_tool_actual (mounts_only b)
                (mounts_only_service_call b) b rm eq_refl eq_refl
                (fun _ => I) (fun _ => I) s) as [_ _ _ _ _ _ (evs & Ht & Hm)].
    exists evs. split; [exact Ht|].
    intros g u Hin Hg.
    assert (u = b) by (eapply mounts_only_templates_run; eauto).
    split; congruence.
  - intros T Hcur HT Hv Hready Hhomed Hfails. rewrite E.
    destruct (select_tool_actual_picks_up s b T Hcur
                ltac:(unfold TOOL_UNLOCKED; lia) HT Hv Hready Hhomed Hfails)
      as (s' & Es & Hc & Htr & _).
    exists s'. auto.
Qed.

(** The example printer with the table {1 -> 2, 2 -> 3}: T1 is requested,
    T2 gets picked up. *)
Lemma remap_is_single_hop_witness :
  cmd_SelectTool 1 None Example.printer_remapped
    = select_tool_actual 2 None Example.printer_remapped /\
  exists s',
    cmd_SelectTool 1 None Example.printer_remapped = Ok tt s' /\
    tool_current s' = 2 /\
    templates_run (trace s') = [(pickup_gcode, 2)].
Proof.
  destruct (remap_is_single_hop Example.printer_remapped 1 2 3 None)
    as (E & _ & _ & _ & _ & H).
  - reflexivity.
  - reflexivity.
  - lia.
  - lia.
  - split; [exact E|].
    edestruct H as (s' & Es & Hc & Ht).
    + reflexivity.
    + reflexivity.
    + reflexivity.
    + eexists. split; [reflexivity|]. intros e [= <-]. split.
      * eexists. reflexivity.
      * eexists _, 2. repeat split; eexists; reflexivity.
    + reflexivity.
    + reflexivity.
    + exists s'. repeat split; [exact Es|exact Hc|exact Ht].
Defined.


(** ** Virtual tools *)

Lemma set_virtual_parent_Ok s t g v (T TP : Tool) p :
  tools s !! t = Some T -> is_virtual T = true ->
  physical_parent_id T = Some p -> tools s !! p = Some TP ->
  template_fails s g t = false ->
  (let* T := lookup_tool t in
   run_virtual_gcode_from_command g t ;;;
   let* pp := physical_parent_key T in
   set_virtual_loaded pp v ;;;
   SaveCurrentTool t) s =
  Ok tt
    (set_trace (fun tr => tr ++ [SaveVariable t])
       (set_tool_current t
          (set_tools
             (insert p
                (mkTool (settings TP) v (heater_state TP)
                   (heater_active_temp TP) (heater_standby_temp TP)
                   (idle_to_standby_time TP) (idle_to_powerdown_time TP)))
             (set_trace (fun tr => tr ++ [RunTemplate g t]) s)))).
Proof.
  intros HT Hv Hp HP Hf.
  rewrite (bind_Ok _ _ _ _ _ (lookup_tool_Some _ _ _ HT)).
  rewrite (bind_Ok _ _ _ _ _
             (run_virtual_gcode_from_command_Ok _ _ _ _ HT Hv Hf)).
  unfold physical_parent_key. rewrite Hp.
  rewrite bind_assoc.
  rewrite (bind_Ok _ _ _ TP _) by (apply lookup_tool_Some; exact HP).
  rewrite (bind_Ok _ _ _ p _) by reflexivity.
  unfold set_virtual_loaded.
  erewrite bind_Ok by (apply update_tool_Ok; exact HP).
  apply SaveCurrentTool_Ok.
Qed.

(** X13.  Loading a virtual tool and unloading it again.  The load
    records the tool on its physical parent; the unload that follows
    leaves every tool object as it was before the load, the parent free
    again.  Each of the two runs its template once and saves the virtual
    tool as the current tool: it is still the current tool after the
    unload. *)
Theorem virtual_load_unload_round_trip s t (T TP : Tool) p :
  tools s !! t = Some T -> is_virtual T = true ->
  physical_parent_id T = Some p -> tools s !! p = Some TP ->
  virtual_loaded TP = -1 ->
  template_fails s virtual_toolload_gcode t = false ->
  template_fails s virtual_toolunload_gcode t = false ->
  exists s1 s2,
    LoadVirtual t s = Ok tt s1 /\
    (fun T : Tool => virtual_loaded T) <$> tools s1 !! p = Some t /\
    UnloadVirtual t s1 = Ok tt s2 /\
    tools s2 = tools s /\
    tool_current s1 = t /\ tool_current s2 = t /\
    trace s2 = trace s ++ [RunTemplate virtual_toolload_gcode t;
                           SaveVariable t;
                           RunTemplate virtual_toolunload_gcode t;
                           SaveVariable t].
Proof.
  intros HT Hv Hp HP Hfree Hl Hu.
  unfold LoadVirtual, UnloadVirtual.
  rewrite (set_virtual_parent_Ok _ _ _ _ _ _ _ HT Hv Hp HP Hl).
  eexists. eexists. split; [reflexivity|].
  split; [simpl; now rewrite lookup_insert_eq|].
  match goal with |- _ ?s1 = _ /\ _ => set (s1' := s1) end.
  assert (exists T1 : Tool, tools s1' !! t = Some T1 /\
                            settings T1 = settings T) as (T1 & HT1 & E1).
  { subst s1'. simpl. destruct (decide (p = t)) as [->|Hne].
    - rewrite lookup_insert_eq. eexists. split; [reflexivity|].
      simpl. congruence.
    - rewrite lookup_insert_ne by exact Hne. eauto. }
  erewrite set_virtual_parent_Ok;
    [ |exact HT1|rewrite E1; exact Hv|rewrite E1; exact Hp
      |subst s1'; simpl; apply lookup_insert_eq|exact Hu].
  split; [reflexivity|]. subst s1'. simpl.
  split; [|split; [reflexivity|split; [reflexivity|]]].
  - rewrite insert_insert_eq. apply insert_id. rewrite HP. f_equal.
    destruct TP; simpl in *. now subst.
  - now rewrite <- !app_assoc.
Qed.

Lemma virtual_load_unload_round_trip_witness :
  exists s1 s2,
    LoadVirtual 0 Example.printer = Ok tt s1 /\
    UnloadVirtual 0 s1 = Ok tt s2 /\
    tools s2 = tools Example.printer /\ tool_current s2 = 0.
Proof.
  edestruct (virtual_load_unload_round_trip Example.printer 0)
    as (s1 & s2 & E1 & _ & E2 & Ht & _ & Hc & _).
  - reflexivity.
  - reflexivity.
  - reflexivity.
  - reflexivity.
  - reflexivity.
  - reflexivity.
  - reflexivity.
  - exists s1, s2. repeat split; assumption.
Defined.

(** ** Readiness *)

(** X15.  The objects the heater of a tool needs stay in place.  When
    tool [u] is ready for heating (the tool object exists and, if it has
    an extruder, so do the heater of that name and the two timers the
    tool points to), it still is after any select request and after any
    [set_heater], whether they return or raise; so switching the heater
    of [u] to ACTIVE afterwards returns. *)
Theorem heater_readiness_is_kept s u :
  heater_ready s u ->
  (forall t rm,
     let s' := final (cmd_SelectTool t rm s) in
     heater_ready s' u /\
     exists s'',
       set_heater u (only_heater_state HEATER_STATE_ACTIVE) s' = Ok tt s'') /\
  (forall t kwargs,
     let s' := final (set_heater t kwargs s) in
     heater_ready s' u /\
     exists s'',
       set_heater u (only_heater_state HEATER_STATE_ACTIVE) s' = Ok tt s'').
Proof.
  intros Hu.
  assert (K : forall s', follows (fun _ => True) s s' ->
                heater_ready s' u /\
                exists s'',
                  set_heater u (only_heater_state HEATER_STATE_ACTIVE) s'
                  = Ok tt s'').
  { intros s' F.
    assert (Hu' : heater_ready s' u)
      by (eapply heater_ready_follows; eauto).
    split; [exact Hu'|]. now apply set_heater_active_returns. }
  split.
  - intros t rm. apply K. rewrite cmd_SelectTool_resolved.
    apply follows_anything_select_tool_actual.
  - intros t kwargs. apply K. now apply follows_set_heater.
Qed.

(** T2 of the example printer stays ready when T3 is selected. *)
Lemma heater_readiness_is_kept_witness :
  heater_ready (final (cmd_SelectTool 3 None Example.printer)) 2.
Proof.
  apply (heater_readiness_is_kept Example.printer 2).
  eexists. split; [reflexivity|]. intros e [= <-]. split.
  - eexists. reflexivity.
  - eexists _, 2. repeat split; eexists; reflexivity.
Defined.

(** ** Commands *)

Lemma Qlt_bool_false a b : Qlt_bool a b = false <-> (b <= a)%Q.
Proof.
  unfold Qlt_bool. rewrite negb_false_iff. apply Qle_bool_iff.
Qed.

Lemma Qlt_bool_true a b : Qlt_bool a b = true <-> (a < b)%Q.
Proof.
  unfold Qlt_bool. rewrite negb_true_iff. split.
  - intros H. apply Qnot_le_lt. intros Hle.
    apply Qle_bool_iff in Hle. congruence.
  - intros H. destruct (Qle_bool b a) eqn:E; [|reflexivity].
    apply Qle_bool_iff in E. exfalso. eapply Qlt_not_le; eauto.
Qed.

(** The speed [cmd_SET_AND_SAVE_FAN_SPEED] passes on. *)
Lemma scaled_fan_speed_is_a_ratio v :
  (0 <= v)%Q -> (v <= 255)%Q ->
  (0 <= (if Qlt_bool 1 v then v / 255 else v) <= 1)%Q.
Proof.
  intros H0 H255. destruct (Qlt_bool 1 v) eqn:E.
  - split.
    + apply Qle_shift_div_l; [reflexivity|]. now rewrite Qmult_0_l.
    + apply Qle_shift_div_r; [reflexivity|]. now rewrite Qmult_1_l.
  - apply Qlt_bool_false in E. now split.
Qed.

Lemma SetAndSaveFanSpeed_final tool_id v s :
  final (SetAndSaveFanSpeed tool_id v s) = s \/
  exists f,
    final (SetAndSaveFanSpeed tool_id v s) =
    set_trace (fun tr => tr ++ [SetFanSpeed f v]) (set_saved_fan_speed v s).
Proof.
  unfold SetAndSaveFanSpeed, tool_is_remaped.
  rewrite (bind_Ok _ _ s (default (-1) (tool_map s !! tool_id)) s)
    by reflexivity.
  set (t := if default (-1) (tool_map s !! tool_id) >? -1
            then default (-1) (tool_map s !! tool_id) else tool_id).
  destruct (tools s !! t) as [T|] eqn:HT.
  - rewrite (bind_Ok _ _ _ _ _ (lookup_tool_Some _ _ _ HT)).
    destruct (fan T) as [f|]; [|now left]. right. exists f. reflexivity.
  - left. unfold bind, lookup_tool. now rewrite HT.
Qed.

Lemma get_float_in_range S :
  (0 <= default 1 S <= 255)%Q ->
  get_float S (Some 1%Q) (Some 0%Q) (Some 255%Q) = inr (Some (default 1%Q S)).
Proof.
  intros [H0 H255]. unfold get_float. destruct S as [v|]; [|reflexivity].
  cbn [from_option default id] in *.
  apply Qlt_bool_false in H0, H255. now rewrite H0, H255.
Qed.

Lemma get_float_out_of_range S :
  ~ (0 <= default 1 S <= 255)%Q ->
  exists e, get_float S (Some 1%Q) (Some 0%Q) (Some 255%Q) = inl e.
Proof.
  intros H. unfold get_float. destruct S as [v|].
  - cbn [from_option default id] in *.
    destruct (Qlt_bool v 0) eqn:E0; [eauto|].
    destruct (Qlt_bool 255 v) eqn:E255; [eauto|].
    apply Qlt_bool_false in E0, E255. tauto.
  - exfalso. apply H. simpl. split; discriminate.
Qed.

Lemma cmd_SET_AND_SAVE_FAN_SPEED_final S P s :
  let v := default 1%Q S in
  let speed := if Qlt_bool 1 v then (v / 255)%Q else v in
  final (cmd_SET_AND_SAVE_FAN_SPEED S P s) = s \/
  exists f,
    (0 <= v <= 255)%Q /\
    final (cmd_SET_AND_SAVE_FAN_SPEED S P s) =
    set_trace (fun tr => tr ++ [SetFanSpeed f speed])
      (set_saved_fan_speed speed s).
Proof.
  intros v speed. unfold cmd_SET_AND_SAVE_FAN_SPEED.
  destruct (Qle_bool 0 v && Qle_bool v 255) eqn:Hr.
  - apply andb_true_iff in Hr. destruct Hr as [H0 H255].
    apply Qle_bool_iff in H0, H255.
    rewrite get_float_in_range by (split; assumption).
    cbn [default from_option id]. fold v. cbv zeta. fold speed.
    rewrite (bind_Ok _ _ s (tool_current s) s) by reflexivity.
    destruct (get_int P (Some (tool_current s)) (Some 0) None)
      as [e|tool_id]; [now left|].
    destruct (default (tool_current s) tool_id <? 0); [now left|].
    assert (E : final
                  ((SetAndSaveFanSpeed (default (tool_current s) tool_id)
                      speed
                    ;;; ret (inr (B := unit) (A := gcmd_error) tt)) s)
                = final (SetAndSaveFanSpeed
                           (default (tool_current s) tool_id) speed s)).
    { unfold bind.
      now destruct (SetAndSaveFanSpeed (default (tool_current s) tool_id)
                      speed s). }
    rewrite E.
    destruct (SetAndSaveFanSpeed_final (default (tool_current s) tool_id)
                speed s) as [->|[f ->]]; [now left|].
    right. exists f. now split.
  - destruct (get_float_out_of_range S) as [e ->]; [|now left].
    intros [H0 H255]. apply Qle_bool_iff in H0, H255. fold v in H0, H255.
    now rewrite H0, H255 in Hr.
Qed.

(** X16.  The fan speed is saved as a ratio.  With [v] the parameter S of
    [SET_AND_SAVE_FAN_SPEED], 1 when it is not given, the speed of the
    command is [v] itself when [v] is at most 1 and [v / 255] when it is
    above: a value above 1 is taken as a PWM value out of 255.  The
    command either changes nothing, or [v] lies between 0 and 255 and it
    saves that speed and sets one fan to it; so a saved speed between 0
    and 1 is between 0 and 1 afterwards.  It does save when [v] lies
    between 0 and 255 and the tool, P or the current one, is not negative
    and resolves to a tool with a fan: then it returns, having saved the
    speed and set the fan of that tool to it. *)
Theorem fan_speed_is_saved_as_a_ratio S P s :
  let s' := final (cmd_SET_AND_SAVE_FAN_SPEED S P s) in
  let v := default 1%Q S in
  let speed := if Qlt_bool 1 v then (v / 255)%Q else v in
  (s' = s \/
   exists f,
     (0 <= v <= 255)%Q /\
     s' = set_trace (fun tr => tr ++ [SetFanSpeed f speed])
            (set_saved_fan_speed speed s)) /\
  ((0 <= saved_fan_speed s <= 1)%Q -> (0 <= saved_fan_speed s' <= 1)%Q) /\
  (forall (T : Tool) f,
     (0 <= v <= 255)%Q ->
     0 <= default (tool_current s) P ->
     tools s !! resolved_tool s (default (tool_current s) P) = Some T ->
     fan T = Some f ->
     cmd_SET_AND_SAVE_FAN_SPEED S P s =
     Ok (inr tt)
       (set_trace (fun tr => tr ++ [SetFanSpeed f speed])
          (set_saved_fan_speed speed s))).
Proof.
  intros s' v speed. split; [|split].
  - apply cmd_SET_AND_SAVE_FAN_SPEED_final.
  - intros Hs.
    destruct (cmd_SET_AND_SAVE_FAN_SPEED_final S P s) as [E|(f & Hv & E)];
      subst s'; rewrite E; [exact Hs|].
    simpl. destruct Hv. now apply scaled_fan_speed_is_a_ratio.
  - intros T f Hv HP HT Hf. unfold cmd_SET_AND_SAVE_FAN_SPEED.
    rewrite get_float_in_range by exact Hv.
    cbn [default from_option id]. fold v. cbv zeta. fold speed.
    rewrite (bind_Ok _ _ s (tool_current s) s) by reflexivity.
    assert (EP : get_int P (Some (tool_current s)) (Some 0) None
                 = inr (Some (default (tool_current s) P))).
    { unfold get_int. destruct P as [p|]; [|reflexivity].
      cbn [from_option default id] in *.
      now replace (p <? 0) with false by (symmetry; apply Z.ltb_ge; lia). }
    rewrite EP. cbn [default from_option id].
    change (from_option id (tool_current s) P)
      with (default (tool_current s) P).
    replace (default (tool_current s) P <? 0) with false
      by (symmetry; apply Z.ltb_ge; lia).
    unfold SetAndSaveFanSpeed, tool_is_remaped. rewrite ?bind_assoc.
    rewrite (bind_Ok _ _ s
               (default (-1)
                  (tool_map s !! default (tool_current s) P)) s)
      by reflexivity.
    unfold resolved_tool in HT. cbv zeta in HT.
    rewrite ?bind_assoc.
    rewrite (bind_Ok _ _ _ _ _ (lookup_tool_Some _ _ _ HT)).
    rewrite Hf. reflexivity.
Qed.

(** The printer with the fan, S=51 for T2: fan0 is set to 51/255. *)
Lemma fan_speed_is_saved_as_a_ratio_witness :
  let s' := final (cmd_SET_AND_SAVE_FAN_SPEED (Some 51%Q) (Some 2)
                     FanScenario.printer) in
  (0 <= saved_fan_speed s' <= 1)%Q /\
  cmd_SET_AND_SAVE_FAN_SPEED (Some 51%Q) (Some 2) FanScenario.printer =
  Ok (inr tt)
    (set_trace (fun tr => tr ++ [SetFanSpeed "fan0" (51 / 255)%Q])
       (set_saved_fan_speed (51 / 255)%Q FanScenario.printer)).
Proof.
  destruct (fan_speed_is_saved_as_a_ratio (Some 51%Q) (Some 2)
              FanScenario.printer) as (_ & Hr & Hs).
  split.
  - apply Hr. vm_compute. split; discriminate.
  - eapply Hs.
    + vm_compute. split; discriminate.
    + vm_compute. discriminate.
    + vm_compute. reflexivity.
    + reflexivity.
Defined.

Lemma _get_tool_id_from_gcmd_spec TOOL s :
  exists r,
    _get_tool_id_from_gcmd TOOL s = Ok r s /\
    match r with
    | inl e => e = BelowMinimum /\ exists v, TOOL = Some v /\ v < 0
    | inr None => TOOL = None /\ tool_current s <= TOOL_UNLOCKED
    | inr (Some tool_id) =>
        0 <= tool_id /\
        tool_id = resolved_tool s (default (tool_current s) TOOL)
    end.
Proof.
  unfold _get_tool_id_from_gcmd, get_int, resolved_tool, tool_is_remaped,
    TOOL_UNLOCKED.
  destruct TOOL as [v|]; cbn [from_option default].
  - destruct (v <? 0) eqn:E.
    + apply Z.ltb_lt in E. eexists. split; [reflexivity|].
      split; [reflexivity|]. exists v. split; [reflexivity|lia].
    + apply Z.ltb_ge in E.
      rewrite (bind_Ok _ _ s (tool_current s) s) by reflexivity.
      change (default (tool_current s) (Some v)) with v.
      replace (v <=? -1) with false by (symmetry; apply Z.leb_gt; lia).
      eexists. split; [reflexivity|]. cbn.
      destruct (default (-1) (tool_map s !! v) >? -1) eqn:Er;
        [|split; [lia|reflexivity]].
      split; [|reflexivity].
      apply Z.gtb_lt in Er. unfold default in *. lia.
  - rewrite (bind_Ok _ _ s (tool_current s) s) by reflexivity.
    change (default (tool_current s) None) with (tool_current s).
    destruct (tool_current s <=? -1) eqn:E.
    + apply Z.leb_le in E. eexists. split; [reflexivity|]. now split.
    + apply Z.leb_gt in E. eexists. split; [reflexivity|]. cbn.
      destruct (default (-1) (tool_map s !! tool_current s) >? -1) eqn:Er;
        [|split; [lia|reflexivity]].
      split; [|reflexivity].
      apply Z.gtb_lt in Er. unfold default in *. lia.
Qed.

(** X17.  The tool a command acts on.  [_get_tool_id_from_gcmd] changes
    nothing.  It rejects a negative TOOL parameter; it gives no tool
    when the parameter is absent and no known tool is mounted; otherwise
    it gives a tool number that is not negative: the parameter, or else
    the current tool, replaced by its remap target when it has one. *)
Theorem tool_of_command_is_resolved_once TOOL s :
  exists r,
    _get_tool_id_from_gcmd TOOL s = Ok r s /\
    match r with
    | inl e => e = BelowMinimum /\ exists v, TOOL = Some v /\ v < 0
    | inr None => TOOL = None /\ tool_current s <= TOOL_UNLOCKED
    | inr (Some tool_id) =>
        0 <= tool_id /\
        tool_id = resolved_tool s (default (tool_current s) TOOL)
    end.
Proof. apply _get_tool_id_from_gcmd_spec. Qed.

Lemma _get_tool_id_from_gcmd_Ok s t :
  0 <= t -> tool_map s !! t = None ->
  _get_tool_id_from_gcmd (Some t) s = Ok (inr (Some t)) s.
Proof.
  intros Ht Hmap. unfold _get_tool_id_from_gcmd, get_int, tool_is_remaped.
  cbn [from_option].
  replace (t <? 0) with false by (symmetry; apply Z.ltb_ge; lia).
  rewrite (bind_Ok _ _ s (tool_current s) s) by reflexivity.
  change (default (tool_current s) (Some t)) with t.
  replace (t <=? TOOL_UNLOCKED) with false
    by (symmetry; apply Z.leb_gt; unfold TOOL_UNLOCKED; lia).
  unfold bind, gets, ret. now rewrite Hmap.
Qed.

(** X18.  [SET_TOOL_TEMPERATURE TOOL=t ACTV_TMP=v] on a tool that is not
    remapped and has a heater: the active temperature of the tool becomes
    [int(v)] and no timer is touched.  The new temperature is pushed to
    the heater at once when the tool is ACTIVE; otherwise the heater is
    left alone and no call is made. *)
Theorem SET_TOOL_TEMPERATURE_sets_active_temperature
    s t (T : Tool) e h v :
  0 <= t -> tool_map s !! t = None ->
  tools s !! t = Some T -> extruder T = Some e -> heaters s !! e = Some h ->
  (0 <= v)%Q ->
  exists s',
    cmd_SET_TOOL_TEMPERATURE
      (mk_temperature_params (Some t) None (Some v) None None None) s
      = Ok (inr tt) s' /\
    tools s' = <[t := with_heater_active_temp (int_of_float v) T]> (tools s) /\
    timers_to_standby s' = timers_to_standby s /\
    timers_to_powerdown s' = timers_to_powerdown s /\
    if HeaterState_eqb (heater_state T) HEATER_STATE_ACTIVE
    then trace s' = trace s ++ [SetTemp e (int_of_float v)] /\
         target <$> heaters s' !! e = Some (inject_Z (int_of_float v))
    else trace s' = trace s /\ heaters s' = heaters s.
Proof.
  intros Ht Hmap HT He Hh Hv. unfold cmd_SET_TOOL_TEMPERATURE.
  cbn [TOOL STDB_TMP ACTV_TMP CHNG_STATE STDB_TIMEOUT SHTDWN_TIMEOUT].
  rewrite (bind_Ok _ _ _ _ _ (_get_tool_id_from_gcmd_Ok _ _ Ht Hmap)).
  unfold get_float, get_int. cbn [from_option].
  replace (Qlt_bool v 0) with false
    by (symmetry; now apply Qlt_bool_false).
  rewrite (bind_Ok _ _ _ _ _ (lookup_tool_Some _ _ _ HT)).
  cbn [fmap option_fmap option_map empty_kwargs kw_heater_standby_temp
       kw_heater_active_temp kw_idle_to_standby_time
       kw_idle_to_powerdown_time kw_heater_state].
  replace (empty_kwargs (mk_kwargs None (Some (int_of_float v)) None None
                           None)) with false by reflexivity.
  set (iv := int_of_float v).
  set (T' := with_heater_active_temp iv T).
  set (s1 := set_tools (insert t T') s).
  assert (HT' : tools s1 !! t = Some T') by apply lookup_insert_eq.
  assert (E : set_heater t (mk_kwargs None (Some iv) None None None) s =
              when (HeaterState_eqb (heater_state T) HEATER_STATE_ACTIVE)
                (set_temp e iv) s1).
  { unfold set_heater.
    rewrite (bind_Ok _ _ _ _ _ (lookup_tool_Some _ _ _ HT)), He.
    rewrite (bind_Ok _ _ _ _ _ (lookup_heater_Some _ _ _ Hh)).
    cbn [kw_heater_standby_temp kw_heater_active_temp
         kw_idle_to_standby_time kw_idle_to_powerdown_time kw_heater_state].
    rewrite (bind_Ok _ _ s tt s) by reflexivity.
    rewrite !bind_assoc.
    rewrite (bind_Ok _ _ _ _ _ (update_tool_Ok _ _ _ _ HT)).
    fold T' s1. rewrite bind_assoc.
    rewrite (bind_Ok _ _ _ _ _ (lookup_tool_Some _ _ _ HT')).
    change (heater_state T') with (heater_state T).
    destruct (when (HeaterState_eqb (heater_state T) HEATER_STATE_ACTIVE)
                (set_temp e iv) s1) as [[] s2|x s2] eqn:Ew.
    2:{ exfalso. unfold when in Ew.
        destruct (HeaterState_eqb (heater_state T) HEATER_STATE_ACTIVE);
          [|discriminate].
        now rewrite (set_temp_Ok _ _ _ h) in Ew by exact Hh. }
    assert (HT2 : tools s2 !! t = Some T').
    { unfold when in Ew.
      destruct (HeaterState_eqb (heater_state T) HEATER_STATE_ACTIVE).
      - rewrite (set_temp_Ok _ _ _ h) in Ew by exact Hh.
        now injection Ew as <-.
      - now injection Ew as <-. }
    rewrite (bind_Ok _ _ _ _ _ Ew).
    do 2 (rewrite (bind_Ok _ _ s2 tt s2) by reflexivity).
    rewrite (bind_Ok _ _ _ _ _ (lookup_tool_Some _ _ _ HT2)).
    replace (bool_decide (is_Some (@None Q))
             || bool_decide (is_Some (@None Q))) with false by reflexivity.
    rewrite andb_false_r. unfold when at 1.
    rewrite (bind_Ok _ _ s2 tt s2) by reflexivity. reflexivity. }
  unfold bind at 1. rewrite E. unfold when.
  destruct (HeaterState_eqb (heater_state T) HEATER_STATE_ACTIVE).
  - rewrite (set_temp_Ok _ _ _ h) by exact Hh.
    eexists. split; [reflexivity|]. simpl. rewrite lookup_insert_eq.
    repeat split.
  - eexists. split; [reflexivity|]. repeat split.
Qed.

Lemma SET_TOOL_TEMPERATURE_sets_active_temperature_witness :
  exists s',
    cmd_SET_TOOL_TEMPERATURE
      (mk_temperature_params (Some 2) None (Some (4201 # 20)) None None None)
      Scenario.printing = Ok (inr tt) s' /\
    trace s' = trace Scenario.printing ++ [SetTemp "extruder" 210].
Proof.
  edestruct (SET_TOOL_TEMPERATURE_sets_active_temperature
               Scenario.printing 2)
    as (s' & E & _ & _ & _ & H).
  - lia.
  - reflexivity.
  - reflexivity.
  - reflexivity.
  - reflexivity.
  - instantiate (1 := 4201 # 20). discriminate.
  - exists s'. split; [exact E|]. apply H.
Defined.

Lemma ret_inr_not_inl {A} (m : M A) s (e : gcmd_error) s' :
  (m ;;; ret (inr (A := gcmd_error) tt)) s <> Ok (inl e) s'.
Proof. unfold bind, ret. destruct (m s); discriminate. Qed.

(** X19.  A command that rejects a parameter has done nothing: when
    [SET_AND_SAVE_FAN_SPEED], [SET_TOOL_TEMPERATURE] or
    [TEMPERATURE_WAIT_WITH_TOLERANCE] ends in a [gcmd.error], the printer
    is in the state it was in, no call made. *)
Theorem rejected_command_changes_nothing (c : command) s e s' :
  (exists S P, c = cmd_SET_AND_SAVE_FAN_SPEED S P) \/
  (exists gcmd, c = cmd_SET_TOOL_TEMPERATURE gcmd) \/
  (exists TOOL HEATER TOLERANCE,
     c = cmd_TEMPERATURE_WAIT_WITH_TOLERANCE TOOL HEATER TOLERANCE) ->
  c s = Ok (inl e) s' -> s' = s.
Proof.
  intros [(S & P & ->)|[(gcmd & ->)|(TOOL & HEATER & TOLERANCE & ->)]].
  - unfold cmd_SET_AND_SAVE_FAN_SPEED.
    destruct (get_float S (Some 1%Q) (Some 0%Q) (Some 255%Q));
      [now intros [= _ <-]|].
    rewrite (bind_Ok _ _ s (tool_current s) s) by reflexivity.
    destruct (get_int P (Some (tool_current s)) (Some 0) None);
      [now intros [= _ <-]|].
    cbv zeta.
    destruct (_ <? 0); [discriminate|].
    intros H. now apply ret_inr_not_inl in H.
  - unfold cmd_SET_TOOL_TEMPERATURE.
    destruct (_get_tool_id_from_gcmd_spec (TOOL gcmd) s) as (r & E & _).
    rewrite (bind_Ok _ _ _ _ _ E).
    destruct r as [x|[tool_id|]]; [now intros [= _ <-]| |discriminate].
    destruct (get_float (STDB_TMP gcmd) None (Some 0%Q) None);
      [now intros [= _ <-]|].
    destruct (get_float (ACTV_TMP gcmd) None (Some 0%Q) None);
      [now intros [= _ <-]|].
    destruct (get_int (CHNG_STATE gcmd) None (Some 0) (Some 2));
      [now intros [= _ <-]|].
    destruct (get_float (STDB_TIMEOUT gcmd) None (Some 0%Q) None);
      [now intros [= _ <-]|].
    destruct (get_float (SHTDWN_TIMEOUT gcmd) None (Some 0%Q) None);
      [now intros [= _ <-]|].
    unfold bind at 1, lookup_tool.
    destruct (tools s !! tool_id); [|discriminate].
    cbv zeta. destruct (empty_kwargs _); [discriminate|].
    intros H. now apply ret_inr_not_inl in H.
  - unfold cmd_TEMPERATURE_WAIT_WITH_TOLERANCE.
    destruct (get_int TOOL None (Some 0) None) as [|tool_id];
      [now intros [= _ <-]|].
    destruct (get_int HEATER None (Some 0) None) as [|heater_id];
      [now intros [= _ <-]|].
    destruct (get_int TOLERANCE (Some 1) (Some 0) None);
      [now intros [= _ <-]|].
    cbv zeta.
    destruct tool_id, heater_id; try discriminate.
    + unfold bind at 1, tool_is_remaped, gets.
      unfold bind at 1, lookup_tool.
      destruct (tools s !! _); [|discriminate].
      intros H. now apply ret_inr_not_inl in H.
    + intros H. now apply ret_inr_not_inl in H.
    + rewrite (bind_Ok _ _ s (tool_current s) s) by reflexivity.
      unfold bind at 1.
      destruct (_ s) as [heater_name s1|]; [|discriminate].
      intros H.
      assert (H' : ((_Temperature_wait_with_tolerance
                      (Some "heater_bed"%string) (default 1 o) ;;;
                     match heater_name with
                     | Some n =>
                         _Temperature_wait_with_tolerance (Some n)
                           (default 1 o)
                     | None => ret tt
                     end) ;;; ret (inr (A := gcmd_error) tt)) s1
                   = Ok (inl e) s').
      { rewrite <- H. now rewrite !bind_assoc. }
      now apply ret_inr_not_inl in H'.
Qed.

Lemma rejected_command_changes_nothing_witness :
  cmd_SET_TOOL_TEMPERATURE
    (mk_temperature_params (Some 2) (Some (-5)%Q) None None None None)
    Scenario.printing = Ok (inl BelowMinimum) Scenario.printing.
Proof.
  assert (E : exists s',
            cmd_SET_TOOL_TEMPERATURE
              (mk_temperature_params (Some 2) (Some (-5)%Q) None None None
                 None)
              Scenario.printing = Ok (inl BelowMinimum) s')
    by (eexists; reflexivity).
  destruct E as [s' E].
  rewrite E. f_equal.
  apply (rejected_command_changes_nothing _ _ _ _
           (or_intror (or_introl (ex_intro _ _ eq_refl))) E).
Defined.

#[export] Instance only_waits_preorder tolerance :
  PreOrder (only_waits tolerance).
Proof.
  split.
  - intros s. exists []. split; [|constructor].
    destruct s. unfold set_trace. simpl. now rewrite app_nil_r.
  - intros s1 s2 s3 (evs1 & -> & H1) (evs2 & -> & H2).
    exists (evs1 ++ evs2). split; [|now apply Forall_app].
    unfold set_trace. simpl. now rewrite app_assoc.
Qed.

Lemma only_waits__Temperature_wait_with_tolerance n tolerance :
  keeps (only_waits tolerance)
    (_Temperature_wait_with_tolerance n tolerance).
Proof.
  intros s. unfold _Temperature_wait_with_tolerance, bind, lookup_heater.
  destruct n as [n|]; [|reflexivity].
  destruct (heaters s !! n) as [h|] eqn:Hh; [|reflexivity].
  destruct (int_of_float (target h) >? 40) eqn:E; [|reflexivity].
  apply Z.gtb_lt in E.
  eexists. split; [reflexivity|]. repeat constructor.
  exists h. auto.
Qed.

(** X20.  [TEMPERATURE_WAIT_WITH_TOLERANCE] only waits.  Whatever its
    parameters, and whether it returns or raises, it leaves the printer as
    it was but for the [TEMPERATURE_WAIT]s it issued, and each of them
    names as sensor a heater of the printer whose target is above 40
    degrees, with bounds from TOLERANCE (1 when not given) below that
    heater's target to TOLERANCE above it. *)
Theorem TEMPERATURE_WAIT_WITH_TOLERANCE_only_waits TOOL HEATER TOLERANCE s :
  only_waits (default 1 TOLERANCE) s
    (final (cmd_TEMPERATURE_WAIT_WITH_TOLERANCE TOOL HEATER TOLERANCE s)).
Proof.
  revert s. change (keeps (only_waits (default 1 TOLERANCE))
                      (cmd_TEMPERATURE_WAIT_WITH_TOLERANCE TOOL HEATER
                         TOLERANCE)).
  unfold cmd_TEMPERATURE_WAIT_WITH_TOLERANCE, tool_is_remaped.
  destruct (get_int TOOL None (Some 0) None) as [|tool_id];
    [apply keeps_ret; exact _|].
  destruct (get_int HEATER None (Some 0) None) as [|heater_id];
    [apply keeps_ret; exact _|].
  destruct (get_int TOLERANCE (Some 1) (Some 0) None) as [|tolerance] eqn:E;
    [apply keeps_ret; exact _|].
  assert (default 1 tolerance = default 1 TOLERANCE) as ->.
  { unfold get_int in E. destruct TOLERANCE as [v|]; [|now injection E as <-].
    cbn [from_option] in E. destruct (v <? 0); [discriminate|].
    now injection E as <-. }
  pose proof (only_waits__Temperature_wait_with_tolerance) as Hw.
  repeat keeps_step; auto.
Qed.

(** ** Restore types *)

Lemma parse_restore_type_letters type default r :
  parse_restore_type (Some type) default = inr r ->
  exists axes,
    r = Some axes /\
    forallb in_XYZ_TO_INDEX (String.list_ascii_of_string axes) = true.
Proof.
  unfold parse_restore_type.
  destruct (String.eqb type "0"); [intros [= <-]; now eexists|].
  destruct (String.eqb type "1"); [intros [= <-]; now eexists|].
  destruct (String.eqb type "2"); [intros [= <-]; now eexists|].
  destruct (forallb in_XYZ_TO_INDEX (String.list_ascii_of_string type))
    eqn:E; [|discriminate].
  intros [= <-]. now exists type.
Qed.

(** X21.  The restore mode of a select command names axes only.  When
    the parameters R and RESTORE_POSITION_TYPE are accepted and give a
    restore mode, every character of it is one of [xXyYzZ], the legacy
    values 0, 1 and 2 having become the empty string, XY and XYZ; the
    second parameter wins over the first. *)
Theorem restore_mode_names_axes_only R RESTORE_POSITION_TYPE r :
  restore_mode_of_gcmd R RESTORE_POSITION_TYPE = inr (Some r) ->
  forallb in_XYZ_TO_INDEX (String.list_ascii_of_string r) = true /\
  r <> "0"%string /\ r <> "1"%string /\ r <> "2"%string /\
  (is_Some RESTORE_POSITION_TYPE ->
   parse_restore_type RESTORE_POSITION_TYPE None = inr (Some r)).
Proof.
  unfold restore_mode_of_gcmd. intros H.
  assert (Hr : forallb in_XYZ_TO_INDEX (String.list_ascii_of_string r)
               = true).
  { destruct R as [ty|], RESTORE_POSITION_TYPE as [ty'|].
    - destruct (parse_restore_type (Some ty) None) as [|o]; simpl in H;
        [discriminate|].
      apply (parse_restore_type_letters _ o) in H as (axes & [= <-] & Ha).
      exact Ha.
    - destruct (parse_restore_type (Some ty) None) eqn:E; simpl in H;
        [discriminate|]. injection H as ->.
      apply (parse_restore_type_letters _ None) in E
        as (axes & [= <-] & Ha).
      exact Ha.
    - simpl in H.
      apply (parse_restore_type_letters _ None) in H
        as (axes & [= <-] & Ha).
      exact Ha.
    - discriminate. }
  split; [exact Hr|].
  repeat split; try (intros ->; discriminate).
  intros [ty ->].
  destruct (parse_restore_type R None); simpl in H; [discriminate|].
  unfold parse_restore_type in *. exact H.
Qed.

Lemma restore_mode_names_axes_only_witness :
  restore_mode_of_gcmd (Some "2"%string) (Some "xy"%string)
    = inr (Some "xy"%string) /\
  forallb in_XYZ_TO_INDEX (String.list_ascii_of_string "xy") = true.
Proof.
  split; [reflexivity|].
  apply (restore_mode_names_axes_only (Some "2"%string) (Some "xy"%string)).
  reflexivity.
Defined.

(** ** Waiting on an endstop *)

Lemma query_endstop_loop_bounded endstop is_shutdown should attempts :
  (forall k, is_shutdown k = false) -> 0 < attempts ->
  forall fuel i prev,
    Z.of_nat i < attempts -> attempts - Z.of_nat i <= Z.of_nat fuel ->
    exists n,
      query_endstop_loop fuel endstop is_shutdown should attempts i prev
        = Some (EndstopQueried (endstop (Nat.pred n)) n) /\
      (i < n)%nat /\ Z.of_nat n <= attempts /\
      (endstop (Nat.pred n) = should \/ Z.of_nat n = attempts) /\
      forall j, (i <= j < Nat.pred n)%nat -> endstop j <> should.
Proof.
  intros Hup Hpos. induction fuel as [|fuel IH]; intros i prev Hi Hfuel.
  { simpl in Hfuel. lia. }
  cbn [query_endstop_loop]. rewrite Hup. cbv zeta. cbn [Nat.pred].
  destruct (Bool.eqb (endstop i) should) eqn:E.
  { apply eqb_prop in E. exists (S i). cbn [Nat.pred].
    split; [reflexivity|]. repeat split; try lia. now left. }
  apply eqb_false_iff in E.
  replace (attempts >? 0) with true by (symmetry; apply Z.gtb_lt; lia).
  cbn [andb].
  destruct (attempts <=? Z.of_nat (S i)) eqn:Ea.
  { apply Z.leb_le in Ea. exists (S i). cbn [Nat.pred].
    split; [reflexivity|]. repeat split; lia. }
  apply Z.leb_gt in Ea.
  destruct (IH (S i) (Some (endstop i))) as (n & En & Hn & Hle & Hend & Hfirst);
    [lia|lia|].
  exists n. split; [exact En|]. repeat split; try lia; [exact Hend|].
  intros j Hj. destruct (decide (j = i)) as [->|Hne]; [exact E|].
  apply Hfirst. lia.
Qed.

(** X22.  With ATTEMPTS given, [query_endstop] gives up.  On a printer
    that is not shut down, the wait for a known endstop with [attempts]
    above 0 ends after [attempts] polls at most: at the first poll that
    reads as asked for, or else at poll number [attempts]; it stores the
    reading of its last poll. *)
Theorem query_endstop_gives_up_after_attempts
    endstops is_shutdown endstop_name endstop should attempts :
  List.find (fun es => String.eqb (snd es) endstop_name) endstops
    = Some (endstop, endstop_name) ->
  (forall k, is_shutdown k = false) -> 0 < attempts ->
  exists n,
    query_endstop (Z.to_nat attempts) endstops is_shutdown endstop_name
      should attempts = Some (EndstopQueried (endstop (Nat.pred n)) n) /\
    (0 < n)%nat /\ Z.of_nat n <= attempts /\
    (endstop (Nat.pred n) = should \/ Z.of_nat n = attempts) /\
    forall j, (j < Nat.pred n)%nat -> endstop j <> should.
Proof.
  intros Hfind Hup Hpos. unfold query_endstop. rewrite Hfind.
  destruct (query_endstop_loop_bounded endstop is_shutdown should attempts
              Hup Hpos (Z.to_nat attempts) 0%nat None)
    as (n & En & Hn & Hle & Hend & Hfirst); [lia|lia|].
  exists n. split; [exact En|]. repeat split; try assumption.
  intros j Hj. apply Hfirst. lia.
Qed.

Lemma query_endstop_gives_up_after_attempts_witness :
  exists n,
    query_endstop 3 [(fun k => (5 <=? k)%nat, "tool_lock"%string)]
      (fun _ => false) "tool_lock" true 3
    = Some (EndstopQueried false n) /\ Z.of_nat n <= 3.
Proof.
  destruct (query_endstop_gives_up_after_attempts
              [(fun k => (5 <=? k)%nat, "tool_lock"%string)]
              (fun _ => false) "tool_lock"%string
              (fun k => (5 <=? k)%nat) true 3)
    as (n & E & Hn & Hle & _).
  - reflexivity.
  - reflexivity.
  - lia.
  - exists n. split; [|exact Hle].
    assert (Hf : (5 <=? Nat.pred n)%nat = false)
      by (apply Nat.leb_gt; lia).
    rewrite Hf in E. exact E.
Defined.

(** ** Tool changes *)

(** The first two steps of a selection: the heater of the tool is set
    active and the position is saved. *)
Lemma select_tool_actual_prelude s t rm (T : Tool) :
  tools s !! t = Some T -> heater_ready s t ->
  exists s1 sp,
    match extruder T with
    | Some _ => set_heater t (only_heater_state HEATER_STATE_ACTIVE)
    | None => ret tt
    end s = Ok tt s1 /\
    match rm with
    | Some r => SaveCurrentPosition r
    | None => ret tt
    end s1 = Ok tt sp /\
    heating_only s s1 /\
    (is_Some (extruder T) ->
     (fun T : Tool => heater_state T) <$> tools s1 !! t
       = Some HEATER_STATE_ACTIVE) /\
    tools sp = tools s1 /\ trace sp = trace s1 /\
    homed_axes sp = homed_axes s /\ template_fails sp = template_fails s /\
    tool_current sp = tool_current s /\
    match rm with
    | Some r =>
        saved_position sp = Some (gcode_position s) /\
        restore_axis_on_toolchange sp = r
    | None =>
        saved_position sp = saved_position s /\
        restore_axis_on_toolchange sp = restore_axis_on_toolchange s
    end.
Proof.
  intros HT Hready.
  assert (exists s1,
            match extruder T with
            | Some _ => set_heater t (only_heater_state HEATER_STATE_ACTIVE)
            | None => ret tt
            end s = Ok tt s1 /\ heating_only s s1 /\
            (is_Some (extruder T) ->
             (fun T : Tool => heater_state T) <$> tools s1 !! t
               = Some HEATER_STATE_ACTIVE)) as (s1 & E1 & K1 & Hstate).
  { destruct (extruder T) as [e|] eqn:He.
    - destruct (set_heater_active_returns s t Hready) as [s1 E1].
      exists s1. split; [exact E1|]. split.
      + exact (keeps_Ok _ _ _ _ _ (heating_only_set_heater _ _) E1).
      + intros _. eapply set_heater_state_Ok_inv; eauto.
    - exists s. split; [reflexivity|]. split; [reflexivity|].
      now intros [? ?]. }
  exists s1,
    (match rm with
     | Some r => set_saved_position (Some (gcode_position s1)) r s1
     | None => s1
     end).
  split; [exact E1|]. split; [now destruct rm|]. split; [exact K1|].
  split; [exact Hstate|].
  destruct K1 as [Hc _ Hh _ Hsp Hra Hgp _ Hf _ _].
  destruct rm; simpl; repeat split; congruence.
Qed.

(** A [Dropoff] on a homed machine whose dropoff template does not
    fail. *)
Lemma Dropoff_returns s t force (T : Tool) :
  tools s !! t = Some T -> all_homed (homed_axes s) = true ->
  template_fails s dropoff_gcode t = false ->
  exists s' pre,
    Dropoff t force s = Ok tt s' /\ tool_current s' = TOOL_UNLOCKED /\
    tools s' = tools s /\ homed_axes s' = homed_axes s /\
    template_fails s' = template_fails s /\
    saved_position s' = saved_position s /\
    restore_axis_on_toolchange s' = restore_axis_on_toolchange s /\
    Forall service_call pre /\
    trace s' = trace s ++ pre ++ [RunTemplate dropoff_gcode t;
                                  SaveVariable TOOL_UNLOCKED].
Proof.
  intros HT Hh Hf.
  exists (final (Dropoff t force s)),
    (match fan T with Some f => [SetFanSpeed f 0] | None => [] end
     ++ [Dwell]).
  unfold Dropoff, PrinterIsHomedForToolchange, run_gcode_from_command,
    SaveCurrentTool, lookup_tool, bind, gets, emit, modify, ret, raise.
  rewrite HT. simpl. rewrite Hh. simpl.
  destruct (fan T) as [f|]; simpl; rewrite Hf; simpl;
    repeat (split; [reflexivity|]);
    (split; [repeat constructor|]);
    now rewrite <- ?app_assoc.
Qed.

(** X23.  A tool change between two physical tools.  [A] is mounted, [B]
    is another, physical tool, the parents the comparison looks at are
    different, all axes are homed and neither [A]'s dropoff template nor
    [B]'s pickup template fails: the selection of [B] returns with [B] as
    the current tool, having run the dropoff template of [A] and then the
    pickup template of [B], and no other template. *)
Theorem physical_tool_change_parks_then_picks_up
    s A B rm (TA TB : Tool) pa pb :
  tool_current s = A -> 0 <= A -> A <> B ->
  tools s !! A = Some TA -> tools s !! B = Some TB ->
  is_virtual TB = false ->
  physical_parent_id TA = Some pa -> physical_parent_id TB = Some pb ->
  (if pb =? TOOL_UNLOCKED then 1 else pb) <> pa ->
  heater_ready s B -> all_homed (homed_axes s) = true ->
  template_fails s dropoff_gcode A = false ->
  template_fails s pickup_gcode B = false ->
  exists s',
    select_tool_actual B rm s = Ok tt s' /\
    tool_current s' = B /\
    templates_run (trace s') =
      templates_run (trace s) ++ [(dropoff_gcode, A); (pickup_gcode, B)].
Proof.
  intros Hcur HA0 Hne HTA HTB Hv HpA HpB Hpab Hready Hhomed Hfd Hfp.
  unfold select_tool_actual.
  rewrite (bind_Ok _ _ _ _ _ (lookup_tool_Some _ _ _ HTB)).
  rewrite (bind_Ok _ _ s (tool_current s) s) by reflexivity.
  rewrite Hcur.
  replace (A =? B) with false by (symmetry; now apply Z.eqb_neq).
  replace (A <? TOOL_UNLOCKED) with false
    by (symmetry; apply Z.ltb_ge; unfold TOOL_UNLOCKED; lia).
  replace (A >? TOOL_UNLOCKED) with true
    by (symmetry; apply Z.gtb_lt; unfold TOOL_UNLOCKED; lia).
  rewrite Hv. cbn [negb].
  destruct (select_tool_actual_prelude s B rm TB HTB Hready)
    as (s1 & sp & E1 & Ep & K1 & _ & Htp & Htrp & Hhp & Hfp' & _ & _).
  rewrite (bind_Ok _ _ _ _ _ E1), (bind_Ok _ _ _ _ _ Ep).
  destruct (heating_only_lookup _ _ _ _ K1 HTA) as (TA1 & HTA1 & EA & _).
  destruct (heating_only_lookup _ _ _ _ K1 HTB) as (TB1 & HTB1 & EB & _).
  rewrite <- Htp in HTA1, HTB1.
  (* the mounted tool is parked *)
  destruct (Dropoff_returns sp A false TA1 HTA1)
    as (sd & pre0 & Ed & _ & Htd & Hhd & Hfd' & _ & _ & Hpre0 & Htrd);
    [congruence|congruence|].
  assert (Edrop :
    (let* current_tool := lookup_tool A in
     let* mine := int_unlocked_or_parent (physical_parent_id TB) in
     let* theirs := int_parent (physical_parent_id current_tool) in
     if negb (mine =? theirs) then Dropoff A false ;;; ret TOOL_UNLOCKED
     else UnloadVirtual A ;;; ret A) sp = Ok TOOL_UNLOCKED sd).
  { rewrite (bind_Ok _ _ _ _ _ (lookup_tool_Some _ _ _ HTA1)).
    rewrite HpB. replace (physical_parent_id TA1) with (Some pa)
      by now rewrite EA.
    unfold int_unlocked_or_parent, int_parent.
    rewrite (bind_Ok _ _ sp (if pb =? TOOL_UNLOCKED then 1 else pb) sp)
      by now destruct (pb =? TOOL_UNLOCKED).
    rewrite (bind_Ok _ _ sp pa sp) by reflexivity.
    replace ((if pb =? TOOL_UNLOCKED then 1 else pb) =? pa) with false
      by (symmetry; now apply Z.eqb_neq).
    cbn [negb]. now rewrite (bind_Ok _ _ _ _ _ Ed). }
  rewrite (bind_Ok _ _ _ _ _ Edrop).
  (* the new tool is picked up *)
  rewrite <- Htd in HTB1.
  destruct (Pickup_returns sd B TB1 HTB1)
    as (sk & pre & post & Ek & _ & _ & _ & _ & Hpre & Hpost & Htrk & _);
    [congruence|congruence|].
  rewrite (bind_Ok _ _ _ _ _ Ek), SaveCurrentTool_Ok.
  eexists. split; [reflexivity|]. simpl. split; [reflexivity|].
  destruct K1 as [_ _ _ _ _ _ _ _ _ _ (evs & Hevs & Hheat)].
  rewrite Htrk, Htrd, Htrp, Hevs, !templates_run_app.
  rewrite (templates_run_heater_calls _ Hheat),
    (templates_run_service _ Hpre0), (templates_run_service _ Hpre),
    (templates_run_service _ Hpost).
  simpl. now rewrite !app_nil_r, <- !app_assoc.
Qed.

Lemma physical_tool_change_parks_then_picks_up_witness :
  exists s',
    select_tool_actual 3 None
      (final (select_tool_actual 2 None Example.printer)) = Ok tt s' /\
    tool_current s' = 3 /\
    templates_run (trace s') =
      [(pickup_gcode, 2); (dropoff_gcode, 2); (pickup_gcode, 3)].
Proof.
  edestruct (physical_tool_change_parks_then_picks_up
               (final (select_tool_actual 2 None Example.printer)) 2 3 None)
    as (s' & E & Hc & Ht).
  - reflexivity.
  - lia.
  - lia.
  - vm_compute. reflexivity.
  - vm_compute. reflexivity.
  - reflexivity.
  - reflexivity.
  - reflexivity.
  - vm_compute. discriminate.
  - eexists. split; [vm_compute; reflexivity|]. intros e [=].
  - reflexivity.
  - reflexivity.
  - reflexivity.
  - exists s'. split; [exact E|]. split; [exact Hc|]. exact Ht.
Defined.

(** X24.  Mounting a virtual tool with nothing mounted.  [t] is virtual
    on the physical tool [p], on which no other virtual tool is left
    loaded; all axes are homed and neither the pickup nor the virtual
    load template of [t] fails.  The selection of [t] returns with [t]
    as the current tool and recorded as loaded on [p], having run the
    pickup template and then the virtual load template of [t], and no
    other template. *)
Theorem select_virtual_from_unlocked_picks_up_and_loads
    s t rm (T TP : Tool) p :
  tool_current s = TOOL_UNLOCKED -> t <> TOOL_UNLOCKED ->
  tools s !! t = Some T -> is_virtual T = true ->
  physical_parent_id T = Some p -> tools s !! p = Some TP ->
  virtual_loaded TP = -1 \/ virtual_loaded TP = t ->
  heater_ready s t -> all_homed (homed_axes s) = true ->
  template_fails s pickup_gcode t = false ->
  template_fails s virtual_toolload_gcode t = false ->
  exists s',
    select_tool_actual t rm s = Ok tt s' /\
    tool_current s' = t /\
    (fun T : Tool => virtual_loaded T) <$> tools s' !! p = Some t /\
    templates_run (trace s') =
      templates_run (trace s) ++
      [(pickup_gcode, t); (virtual_toolload_gcode, t)].
Proof.
  intros Hcur Hne HT Hv Hp HP Hfree Hready Hhomed Hfp Hfl.
  unfold select_tool_actual.
  rewrite (bind_Ok _ _ _ _ _ (lookup_tool_Some _ _ _ HT)).
  rewrite (bind_Ok _ _ s (tool_current s) s) by reflexivity.
  rewrite Hcur.
  replace (TOOL_UNLOCKED =? t) with false
    by (symmetry; apply Z.eqb_neq; congruence).
  replace (TOOL_UNLOCKED <? TOOL_UNLOCKED) with false by reflexivity.
  replace (TOOL_UNLOCKED >? TOOL_UNLOCKED) with false by reflexivity.
  rewrite Hv. cbn [negb].
  destruct (select_tool_actual_prelude s t rm T HT Hready)
    as (s1 & sp & E1 & Ep & K1 & _ & Htp & Htrp & Hhp & Hfp' & _ & _).
  rewrite (bind_Ok _ _ _ _ _ E1), (bind_Ok _ _ _ _ _ Ep).
  rewrite (bind_Ok _ _ sp TOOL_UNLOCKED sp) by reflexivity.
  destruct (heating_only_lookup _ _ _ _ K1 HT) as (T1 & HT1 & ET & _).
  destruct (heating_only_lookup _ _ _ _ K1 HP) as (TP1 & HP1 & _ & EP).
  rewrite <- Htp in HT1, HP1.
  change (TOOL_UNLOCKED >? TOOL_UNLOCKED) with false. cbv iota.
  rewrite Hp. cbn [lookup_tool_opt]. rewrite !bind_assoc.
  rewrite (bind_Ok _ _ _ _ _ (lookup_tool_Some _ _ _ HP1)).
  destruct (Pickup_returns sp t T1 HT1)
    as (sk & pre & post & Ek & _ & Htk & _ & _ & Hpre & Hpost & Htrk & _);
    [congruence|congruence|].
  rewrite !bind_assoc, (bind_Ok _ _ _ _ _ Ek).
  replace ((virtual_loaded TP1 >? TOOL_UNLOCKED)
           && negb (virtual_loaded TP1 =? t)) with false.
  2:{ rewrite EP. destruct Hfree as [->| ->]; [reflexivity|].
      now rewrite Z.eqb_refl, andb_false_r. }
  unfold when at 1. rewrite ?bind_assoc.
  rewrite (bind_Ok _ _ sk tt sk) by reflexivity.
  assert (Hfk : template_fails sk virtual_toolload_gcode t = false).
  { unfold Pickup, PrinterIsHomedForToolchange, run_gcode_from_command,
      SaveCurrentTool, lookup_tool, bind, gets, emit, modify, ret, raise,
      when in Ek.
    rewrite HT1 in Ek. simpl in Ek.
    replace (all_homed (homed_axes sp)) with true in Ek by congruence.
    simpl in Ek.
    assert (Hsame : template_fails sk = template_fails sp).
    { destruct (extruder T1); simpl in Ek;
        destruct (template_fails sp pickup_gcode t); simpl in Ek;
        try discriminate;
        destruct (fan T1); simpl in Ek;
        destruct (Qnonzero (shaper_freq_x T1)
                  || Qnonzero (shaper_freq_y T1));
        simpl in Ek; now injection Ek as <-. }
    congruence. }
  rewrite <- Htk in HT1, HP1.
  unfold LoadVirtual.
  rewrite (bind_Ok _ _ _ _ _
             (set_virtual_parent_Ok sk t virtual_toolload_gcode t T1 TP1 p
                HT1 ltac:(now rewrite ET) ltac:(now rewrite ET) HP1 Hfk)).
  rewrite SaveCurrentTool_Ok.
  eexists. split; [reflexivity|]. simpl. split; [reflexivity|].
  split; [now rewrite lookup_insert_eq|].
  destruct K1 as [_ _ _ _ _ _ _ _ _ _ (evs & Hevs & Hheat)].
  rewrite Htrk, Htrp, Hevs, !templates_run_app.
  rewrite (templates_run_heater_calls _ Hheat),
    (templates_run_service _ Hpre), (templates_run_service _ Hpost).
  simpl. now rewrite !app_nil_r, <- !app_assoc.
Qed.

Lemma select_virtual_from_unlocked_picks_up_and_loads_witness :
  exists s',
    select_tool_actual 0 None Example.printer = Ok tt s' /\
    tool_current s' = 0 /\
    templates_run (trace s') =
      [(pickup_gcode, 0); (virtual_toolload_gcode, 0)].
Proof.
  edestruct (select_virtual_from_unlocked_picks_up_and_loads
               Example.printer 0 None)
    as (s' & E & Hc & _ & Ht).
  - reflexivity.
  - discriminate.
  - reflexivity.
  - reflexivity.
  - reflexivity.
  - reflexivity.
  - left. reflexivity.
  - eexists. split; [reflexivity|]. intros e [= <-]. split.
    + eexists. reflexivity.
    + eexists _, 2. repeat split; eexists; reflexivity.
  - reflexivity.
  - reflexivity.
  - reflexivity.
  - exists s'. split; [exact E|]. split; [exact Hc|]. exact Ht.
Defined.

(** ** Changing an idle time *)

(** X25.  A new [idle_to_standby_time] is stored on the tool and pushes
    no temperature.  On a tool in STANDBY it restarts the timers that are
    counting down, and only those: the to-powerdown timer with the tool's
    [idle_to_powerdown_time], the to-standby timer with the new time.  On
    a tool in another state no timer is touched. *)
Theorem new_idle_time_restarts_counting_timers
    s t (T : Tool) e h r ts tp d d_powerdown :
  tools s !! t = Some T -> extruder T = Some e -> heaters s !! e = Some h ->
  timer_ref T = Some r ->
  timers_to_standby s !! r = Some ts -> inside_timer ts = false ->
  timers_to_powerdown s !! r = Some tp -> inside_timer tp = false ->
  idle_to_powerdown_time T = Some d_powerdown ->
  let in_standby := HeaterState_eqb (heater_state T) HEATER_STATE_STANDBY in
  exists s',
    set_heater t (mk_kwargs None None (Some d) None None) s = Ok tt s' /\
    tools s' = <[t := with_idle_to_standby_time d T]> (tools s) /\
    heaters s' = heaters s /\
    timers_to_powerdown s' !! r =
      Some (if in_standby && counting_down tp
            then armed s tp d_powerdown t else tp) /\
    timers_to_standby s' !! r =
      Some (if in_standby && counting_down ts
            then armed s ts d t else ts) /\
    trace s' = trace s ++
      (if in_standby && counting_down tp
       then [UpdateTimer r TIMER_TO_SHUTDOWN
               (Some (monotonic s
                      + py_max d_powerdown min_duration_threshold)%Q)]
       else []) ++
      (if in_standby && counting_down ts
       then [UpdateTimer r TIMER_TO_STANDBY
               (Some (monotonic s + py_max d min_duration_threshold)%Q)]
       else []).
Proof.
  intros HT He Hh Hr Hts Hits Htp Hitp Hdp in_standby.
  unfold set_heater.
  rewrite (bind_Ok _ _ _ _ _ (lookup_tool_Some _ _ _ HT)), He.
  rewrite (bind_Ok _ _ _ _ _ (lookup_heater_Some _ _ _ Hh)).
  cbn [kw_heater_standby_temp kw_heater_active_temp
       kw_idle_to_standby_time kw_idle_to_powerdown_time kw_heater_state].
  do 2 (rewrite (bind_Ok _ _ s tt s) by reflexivity).
  rewrite (bind_Ok _ _ _ _ _ (update_tool_Ok _ _ _ _ HT)).
  set (T' := with_idle_to_standby_time d T).
  set (s1 := set_tools (insert t T') s).
  assert (HT' : tools s1 !! t = Some T') by apply lookup_insert_eq.
  rewrite (bind_Ok _ _ s1 tt s1) by reflexivity.
  rewrite (bind_Ok _ _ _ _ _ (lookup_tool_Some _ _ _ HT')).
  replace (bool_decide (is_Some (Some d)) || bool_decide (is_Some (@None Q)))
    with true by reflexivity.
  rewrite andb_true_r.
  change (heater_state T') with (heater_state T). fold in_standby.
  change (idle_to_powerdown_time T') with (idle_to_powerdown_time T).
  change (idle_to_standby_time T') with (Some d).
  rewrite Hdp.
  destruct in_standby; cbn [andb].
  2:{ unfold when at 1. rewrite (bind_Ok _ _ s1 tt s1) by reflexivity.
      exists s1. split; [reflexivity|]. simpl.
      repeat split; try assumption. now rewrite !app_nil_r. }
  unfold when at 1. rewrite !bind_assoc.
  rewrite (bind_Ok _ _ _ _ _
             (tool_timer_Ok s1 t TIMER_TO_SHUTDOWN T' r tp HT' Hr Htp)).
  rewrite ?bind_assoc.
  rewrite (bind_Ok _ _ _ _ _
             (lookup_timer_Some s1 r TIMER_TO_SHUTDOWN tp Htp)).
  destruct (counting_down tp); unfold when at 1; rewrite ?bind_assoc.
  - erewrite bind_Ok
      by (eapply set_timer_idle_Ok; [exact HT'|exact Hr|exact Htp|exact Hitp]).
    rewrite ?bind_assoc.
    erewrite bind_Ok
      by (eapply (tool_timer_Ok _ t TIMER_TO_STANDBY T' r ts);
          [exact HT'|exact Hr|exact Hts]).
    rewrite ?bind_assoc.
    erewrite bind_Ok
      by (apply (lookup_timer_Some _ r TIMER_TO_STANDBY ts); exact Hts).
    destruct (counting_down ts); unfold when at 1; rewrite ?bind_assoc.
    + erewrite bind_Ok
        by (eapply set_timer_idle_Ok;
            [exact HT'|exact Hr|exact Hts|exact Hits]).
      eexists. split; [reflexivity|]. simpl. rewrite !lookup_insert_eq.
      repeat split. now rewrite <- app_assoc.
    + rewrite (bind_Ok _ _ _ tt _) by reflexivity.
      eexists. split; [reflexivity|]. simpl. rewrite !lookup_insert_eq.
      repeat split; try assumption.
  - rewrite (bind_Ok _ _ s1 tt s1) by reflexivity.
    rewrite ?bind_assoc.
    rewrite (bind_Ok _ _ _ _ _
               (tool_timer_Ok s1 t TIMER_TO_STANDBY T' r ts HT' Hr Hts)).
    rewrite ?bind_assoc.
    rewrite (bind_Ok _ _ _ _ _
               (lookup_timer_Some s1 r TIMER_TO_STANDBY ts Hts)).
    destruct (counting_down ts); unfold when at 1; rewrite ?bind_assoc.
    + erewrite bind_Ok
        by (eapply set_timer_idle_Ok;
            [exact HT'|exact Hr|exact Hts|exact Hits]).
      eexists. split; [reflexivity|]. simpl. rewrite !lookup_insert_eq.
      repeat split; try assumption.
    + rewrite (bind_Ok _ _ s1 tt s1) by reflexivity.
      exists s1. split; [reflexivity|]. simpl.
      repeat split; try assumption. now rewrite !app_nil_r.
Qed.

Lemma new_idle_time_restarts_counting_timers_witness :
  exists s',
    set_heater 2 (mk_kwargs None None (Some 45%Q) None None)
      Cooling.in_standby = Ok tt s' /\
    scheduled <$> timers_to_standby s' !! 2 = Some (Some 45%Q) /\
    heaters s' = heaters Cooling.in_standby.
Proof.
  edestruct (new_idle_time_restarts_counting_timers Cooling.in_standby 2)
    as (s' & E & _ & Hh & _ & Hs & _).
  - reflexivity.
  - reflexivity.
  - reflexivity.
  - reflexivity.
  - reflexivity.
  - reflexivity.
  - reflexivity.
  - reflexivity.
  - reflexivity.
  - exists s'. split; [exact E|]. rewrite Hs. split; [reflexivity|exact Hh].
Defined.

(** ** Tool remapping *)

(** X26.  Remapping keeps the saved table in step.  Once the variable
    [ktcc_state_tool_remap] holds the table, every accepted
    [KTCC_REMAP_TOOL] leaves it holding the table of the tool lock.  A
    remap to a tool that does not exist changes nothing; an accepted
    remap of [TOOL] to an existing tool [SET] makes select requests for
    [TOOL] resolve to [SET] and leaves the other entries of the table as
    they were; after RESET=1 the table is empty and every tool resolves
    to itself. *)
Theorem remap_command_saves_the_table RESET TOOL SET v v' :
  ktcc_state_tool_remap v = Some (tool_map (printer v)) ->
  cmd_KTCC_REMAP_TOOL RESET TOOL SET v = inr v' ->
  ktcc_state_tool_remap v' = Some (tool_map (printer v')) /\
  (RESET = Some 1 ->
     tool_map (printer v') = ∅ /\
     forall t, resolved_tool (printer v') t = t) /\
  (forall from_tool to_tool,
     default 0 RESET <> 1 -> TOOL = Some from_tool -> SET = Some to_tool ->
     if bool_decide (is_Some (tools (printer v) !! to_tool))
     then resolved_tool (printer v') from_tool = to_tool /\
          tool_map (printer v')
            = <[from_tool := to_tool]> (tool_map (printer v))
     else v' = v).
Proof.
  intros Hsync. unfold cmd_KTCC_REMAP_TOOL.
  destruct (get_int RESET (Some 0) (Some 0) (Some 1)) as [|reset] eqn:Er;
    [discriminate|].
  assert (Hreset : default 0 reset = default 0 RESET).
  { unfold get_int in Er. destruct RESET as [x|]; [|now injection Er as <-].
    cbn [from_option] in Er. destruct (x <? 0); [discriminate|].
    destruct (1 <? x); [discriminate|]. now injection Er as <-. }
  rewrite Hreset.
  destruct (default 0 RESET =? 1) eqn:E1.
  { intros [= <-]. apply Z.eqb_eq in E1. simpl.
    repeat split; try reflexivity.
    intros from_tool to_tool Hne. congruence. }
  apply Z.eqb_neq in E1.
  destruct (get_int TOOL (Some (-1)) (Some 0) None) as [|from] eqn:Ef;
    [discriminate|].
  destruct (get_int_required SET (Some 0)) as [|to_tool] eqn:Et;
    [discriminate|].
  assert (Hsome : RESET = Some 1 -> False)
    by (intros ->; now apply E1).
  destruct (negb (default (-1) from =? -1)) eqn:Eneg; intros [= <-].
  - unfold _remap_tool, _set_tool_to_tool.
    destruct (tools (printer v) !! to_tool) as [T|] eqn:HT; simpl.
    + split; [reflexivity|]. split; [tauto|].
      intros from_tool to_tool' _ -> ->.
      unfold get_int in Ef. cbn [from_option] in Ef.
      destruct (from_tool <? 0) eqn:E0; [discriminate|].
      injection Ef as <-. apply Z.ltb_ge in E0.
      unfold get_int_required in Et. cbn [from_option] in Et.
      destruct (to_tool' <? 0) eqn:E0'; [discriminate|].
      injection Et as <-. apply Z.ltb_ge in E0'.
      rewrite HT. rewrite bool_decide_eq_true_2 by eauto.
      split; [|reflexivity].
      unfold resolved_tool. simpl. rewrite lookup_insert_eq. simpl.
      replace (to_tool' >? -1) with true
        by (symmetry; apply Z.gtb_lt; lia).
      reflexivity.
    + split; [assumption|]. split; [tauto|].
      intros from_tool to_tool' _ -> ->.
      unfold get_int_required in Et. cbn [from_option] in Et.
      destruct (to_tool' <? 0); [discriminate|]. injection Et as <-.
      rewrite HT. rewrite bool_decide_eq_false_2; [reflexivity|].
      intros [? ?]. discriminate.
  - split; [assumption|]. split; [tauto|].
    intros from_tool to_tool' _ -> ->. exfalso.
    unfold get_int in Ef. cbn [from_option] in Ef.
    destruct (from_tool <? 0) eqn:E0; [discriminate|].
    injection Ef as <-. apply Z.ltb_ge in E0.
    apply negb_false_iff, Z.eqb_eq in Eneg. simpl in Eneg. lia.
Qed.

(** The example printer with the table {2 -> 3}: T1 is remapped to T3. *)
Lemma remap_command_saves_the_table_witness :
  let v := mkSaved (set_tool_map {[ 2 := 3 ]} Example.printer)
             (Some {[ 2 := 3 ]}) in
  exists v',
    cmd_KTCC_REMAP_TOOL None (Some 1) (Some 3) v = inr v' /\
    ktcc_state_tool_remap v' = Some {[ 1 := 3; 2 := 3 ]} /\
    resolved_tool (printer v') 1 = 3.
Proof.
  intros v.
  destruct (cmd_KTCC_REMAP_TOOL None (Some 1) (Some 3) v) as [e|v'] eqn:E.
  - vm_compute in E. discriminate.
  - exists v'. split; [reflexivity|].
    destruct (remap_command_saves_the_table None (Some 1) (Some 3) v v')
      as (Hv & _ & Hs).
    + reflexivity.
    + exact E.
    + destruct (Hs 1 3) as [Hr Hm];
        [discriminate|reflexivity|reflexivity|].
      split; [|exact Hr].
      rewrite Hv, Hm. reflexivity.
Defined.

(** ** Turning all heaters off, and back on *)

#[export] Instance same_tools_preorder : PreOrder same_tools.
Proof.
  split; [now intros s|].
  intros s1 s2 s3 H1 H2. unfold same_tools in *. congruence.
Qed.

Lemma same_tools_modify f :
  (forall s, tools (f s) = tools s) -> keeps same_tools (modify f).
Proof. intros H. apply keeps_modify. exact H. Qed.

Lemma same_tools_put_timer r k tm : keeps same_tools (put_timer r k tm).
Proof. destruct k; apply keeps_modify; now intros s. Qed.

Lemma same_tools_set_temp e v : keeps same_tools (set_temp e v).
Proof.
  unfold set_temp, emit.
  apply keeps_bind; [exact _| |intros _]; apply keeps_modify; now intros s.
Qed.

Create HintDb same_tools.

#[local] Hint Resolve same_tools_put_timer same_tools_set_temp : same_tools.
#[local] Hint Extern 1 (keeps _ (emit _)) =>
  (apply keeps_modify; intros ?; reflexivity) : same_tools.

Ltac same_tools_walk := repeat keeps_step; auto with same_tools.

Lemma same_tools_set_timer_of t k d a :
  keeps same_tools (set_timer_of t k d a).
Proof. unfold set_timer_of, tool_timer, set_timer. same_tools_walk. Qed.

Lemma same_tools_set_timer_idle t k d a :
  keeps same_tools (set_timer_idle t k d a).
Proof. unfold set_timer_idle, tool_timer, set_timer. same_tools_walk. Qed.

#[local] Hint Resolve same_tools_set_timer_of same_tools_set_timer_idle
  : same_tools.

(** The tool objects after a [set_heater(heater_state = chng)] that
    returned: only the heater state of the tool has changed. *)
Lemma set_heater_state_tools s t (T : Tool) chng s' :
  tools s !! t = Some T -> is_Some (extruder T) ->
  set_heater t (only_heater_state chng) s = Ok tt s' ->
  tools s' = <[t := with_heater_state chng T]> (tools s).
Proof.
  intros HT [e He] E.
  destruct (heaters s !! e) as [h|] eqn:Hh.
  2:{ unfold set_heater in E.
      rewrite (bind_Ok _ _ _ _ _ (lookup_tool_Some _ _ _ HT)), He in E.
      rewrite (bind_Raise _ _ _ _ _ (lookup_heater_None _ _ Hh)) in E.
      discriminate. }
  rewrite (set_heater_only_heater_state _ _ _ _ _ _ HT He Hh) in E.
  destruct (HeaterState_eqb (heater_state T) chng) eqn:Hc.
  - assert (heater_state T = chng) as <-
        by (destruct (heater_state T), chng; easy).
    assert (tools s' = tools s) as ->.
    { destruct (heater_state T); [now injection E as <-| |];
        rewrite (set_temp_Ok _ _ _ _ Hh) in E; now injection E as <-. }
    symmetry. apply insert_id. rewrite HT. f_equal. now destruct T.
  - apply bind_Ok_inv in E as ([] & s1 & E1 & E).
    assert (K : same_tools s s1).
    { refine (keeps_Ok same_tools _ _ _ _ _ E1).
      destruct chng; same_tools_walk. }
    unfold same_tools in K.
    assert (HT1 : tools s1 !! t = Some T) by now rewrite K.
    rewrite (update_tool_Ok _ _ _ _ HT1) in E. injection E as <-.
    simpl. now rewrite K.
Qed.

Lemma set_timer_idle_returns s t k d a :
  timers_ready s t -> exists s', set_timer_idle t k (Some d) a s = Ok tt s'.
Proof.
  intros H.
  destruct (timers_ready_store s t k H) as (T & r & tm & HT & Hr & Htm).
  unfold set_timer_idle.
  rewrite (bind_Ok _ _ _ _ _ (tool_timer_Ok _ _ _ _ _ _ HT Hr Htm)).
  eapply set_timer_returns; eauto.
Qed.

Lemma service_follows_set_timer_idle t k d a :
  keeps (follows service_call) (set_timer_idle t k d a).
Proof. apply follows_set_timer_idle. auto. Qed.

(** [set_heater(heater_state = chng)] returns on a tool that is set up. *)
Lemma set_heater_state_returns s t chng :
  heater_set_up s t ->
  exists s', set_heater t (only_heater_state chng) s = Ok tt s'.
Proof.
  intros (T & HT & Hready & Hidle).
  destruct (extruder T) as [e|] eqn:He.
  2:{ exists s. unfold set_heater.
      now rewrite (bind_Ok _ _ _ _ _ (lookup_tool_Some _ _ _ HT)), He. }
  destruct Hready as (T0 & HT0 & Hready).
  assert (T0 = T) as -> by congruence.
  destruct (Hready e He) as ([h Hh] & Ht).
  destruct Hidle as ([ds Hds] & [dp Hdp]); [eauto|].
  rewrite (set_heater_only_heater_state _ _ _ _ _ _ HT He Hh).
  destruct (HeaterState_eqb (heater_state T) chng).
  { destruct chng; [now eexists| |];
      rewrite (set_temp_Ok _ _ _ _ Hh); now eexists. }
  assert (Hbody : forall (m1 m2 : M unit),
            (forall s0, timers_ready s0 t -> exists s1, m1 s0 = Ok tt s1) ->
            (forall s0, timers_ready s0 t -> exists s1, m2 s0 = Ok tt s1) ->
            keeps (follows service_call) m1 ->
            keeps (follows service_call) m2 ->
            exists s2, (m1 ;;; m2) s = Ok tt s2 /\
                       follows service_call s s2).
  { intros m1 m2 H1 H2 K1 K2.
    destruct (H1 s Ht) as [s1 E1].
    pose proof (keeps_Ok _ _ _ _ _ K1 E1) as F1.
    destruct (H2 s1 (timers_ready_follows _ _ _ _ F1 Ht)) as [s2 E2].
    pose proof (keeps_Ok _ _ _ _ _ K2 E2) as F2.
    exists s2. rewrite (bind_Ok _ _ _ _ _ E1). split; [exact E2|].
    etransitivity; eassumption. }
  assert (Hend : forall (m : M unit) s2,
            m s = Ok tt s2 -> follows service_call s s2 ->
            exists s', (m ;;; update_tool t (with_heater_state chng)) s
                       = Ok tt s').
  { intros m s2 E F. rewrite (bind_Ok _ _ _ _ _ E).
    destruct (follows_lookup _ _ _ _ _ F HT) as (T2 & HT2 & _).
    rewrite (update_tool_Ok _ _ _ _ HT2). now eexists. }
  destruct chng.
  - destruct (Hbody (set_timer_of t TIMER_TO_STANDBY 0 t)
                (set_timer_of t TIMER_TO_SHUTDOWN (1 # 10) t))
      as (s2 & E & F);
      [intros; now apply set_timer_of_returns
      |intros; now apply set_timer_of_returns
      |apply service_follows_set_timer_of
      |apply service_follows_set_timer_of|].
    exact (Hend _ _ E F).
  - rewrite bind_assoc, (bind_Ok _ _ _ _ _ (lookup_heater_Some _ _ _ Hh)).
    rewrite Hds, Hdp.
    destruct (_ && _).
    + destruct (Hbody (set_timer_idle t TIMER_TO_STANDBY (Some ds) t)
                  (set_timer_idle t TIMER_TO_SHUTDOWN (Some dp) t))
        as (s2 & E & F);
        [intros; now apply set_timer_idle_returns
        |intros; now apply set_timer_idle_returns
        |apply service_follows_set_timer_idle
        |apply service_follows_set_timer_idle|].
      exact (Hend _ _ E F).
    + destruct (Hbody (set_timer_of t TIMER_TO_STANDBY (1 # 10) t)
                  (set_timer_idle t TIMER_TO_SHUTDOWN (Some dp) t))
        as (s2 & E & F);
        [intros; now apply set_timer_of_returns
        |intros; now apply set_timer_idle_returns
        |apply service_follows_set_timer_of
        |apply service_follows_set_timer_idle|].
      exact (Hend _ _ E F).
  - assert (exists s2,
              (set_timer_of t TIMER_TO_STANDBY 0 t ;;;
               set_timer_of t TIMER_TO_SHUTDOWN 0 t ;;;
               set_temp e (heater_active_temp T)) s = Ok tt s2 /\
              follows service_call s s2) as (s2 & E & F).
    { destruct (Hbody (set_timer_of t TIMER_TO_STANDBY 0 t)
                  (set_timer_of t TIMER_TO_SHUTDOWN 0 t))
        as (s2 & E & F);
        [intros; now apply set_timer_of_returns
        |intros; now apply set_timer_of_returns
        |apply service_follows_set_timer_of
        |apply service_follows_set_timer_of|].
      apply bind_Ok_inv in E as ([] & s1 & E1 & E2).
      rewrite (bind_Ok _ _ _ _ _ E1), (bind_Ok _ _ _ _ _ E2).
      destruct (proj2 (follows_heaters _ _ _ F e)) as [h2 Hh2]; [eauto|].
      rewrite (set_temp_Ok _ _ _ _ Hh2). eexists. split; [reflexivity|].
      etransitivity; [exact F|].
      apply (keeps_Ok (follows service_call)
               (set_temp e (heater_active_temp T)) s2 tt).
      - apply follows_set_temp. auto.
      - apply (set_temp_Ok _ _ _ _ Hh2). }
    exact (Hend _ _ E F).
Qed.

Lemma HeaterState_eqb_eq a b : HeaterState_eqb a b = true <-> a = b.
Proof. destruct a, b; cbv; split; congruence. Qed.

Lemma heater_set_up_after_set_heater s s' t (T : Tool) chng u :
  tools s !! t = Some T -> follows service_call s s' ->
  tools s' = <[t := with_heater_state chng T]> (tools s) ->
  heater_set_up s u -> heater_set_up s' u.
Proof.
  intros HT F Htools (U & HU & Hready & Hidle).
  destruct (decide (u = t)) as [->|Hne].
  - assert (U = T) as -> by congruence.
    exists (with_heater_state chng T).
    split; [rewrite Htools; apply lookup_insert_eq|].
    split; [eapply heater_ready_follows; eauto|exact Hidle].
  - exists U. split; [now rewrite Htools, lookup_insert_ne|].
    split; [eapply heater_ready_follows; eauto|exact Hidle].
Qed.

(** One [set_heater(heater_state = chng)] on a tool that is set up and
    has an extruder. *)
Lemma set_heater_state_step s t chng :
  heater_set_up s t -> has_extruder s t ->
  exists s' (T : Tool),
    tools s !! t = Some T /\
    set_heater t (only_heater_state chng) s = Ok tt s' /\
    tools s' = <[t := with_heater_state chng T]> (tools s) /\
    forall u, heater_set_up s u -> heater_set_up s' u.
Proof.
  intros Hup (T & HT & He).
  destruct (set_heater_state_returns s t chng Hup) as [s' E].
  pose proof (set_heater_state_tools _ _ _ _ _ HT He E) as Htools.
  pose proof (keeps_Ok _ _ _ _ _ (service_follows_set_heater _ _) E) as F.
  exists s', T. repeat split; try assumption.
  intros u. now apply (heater_set_up_after_set_heater s s' t T chng).
Qed.

Lemma has_extruder_insert s s' t (T : Tool) chng u :
  tools s !! t = Some T ->
  tools s' = <[t := with_heater_state chng T]> (tools s) ->
  has_extruder s u -> has_extruder s' u.
Proof.
  intros HT Htools (U & HU & He).
  destruct (decide (u = t)) as [->|Hne].
  - assert (U = T) as -> by congruence.
    exists (with_heater_state chng T).
    split; [rewrite Htools; apply lookup_insert_eq|exact He].
  - exists U. split; [now rewrite Htools, lookup_insert_ne|exact He].
Qed.

Lemma resume_loop_spec state items :
  forall s,
    NoDup items.*1 ->
    (forall t saved, (t, saved) ∈ items ->
                     heater_set_up s t /\ has_extruder s t) ->
    exists s',
      resume_loop state items s = Ok tt s' /\
      (forall u, heater_set_up s u -> heater_set_up s' u) /\
      (forall u, has_extruder s u -> has_extruder s' u) /\
      (forall u, (u, state) ∈ items ->
         tools s' !! u = with_heater_state state <$> tools s !! u) /\
      (forall u, (u, state) ∉ items -> tools s' !! u = tools s !! u).
Proof.
  induction items as [|[t saved] items IH]; intros s Hnd Hitems.
  { exists s. split; [reflexivity|]. repeat split; auto.
    intros u Hu. now apply elem_of_nil in Hu. }
  cbn [fmap list_fmap fst] in Hnd. apply NoDup_cons in Hnd as [Hfresh Hnd].
  assert (Hnot : forall st, (t, st) ∉ items).
  { intros st Hin. apply Hfresh.
    apply (list_elem_of_fmap_2 fst) in Hin. exact Hin. }
  cbn [resume_loop].
  destruct (HeaterState_eqb saved state) eqn:Es; unfold when.
  - apply HeaterState_eqb_eq in Es as ->.
    destruct (Hitems t state) as [Hup Hext]; [left|].
    destruct (set_heater_state_step s t state Hup Hext)
      as (s1 & T & HT & E & Htools & Hkeep).
    rewrite (bind_Ok _ _ _ _ _ E).
    destruct (IH s1 Hnd) as (s' & E' & Hkeep' & Hext' & Hin & Hout).
    { intros u st Hu. destruct (Hitems u st) as [H1 H2]; [now right|].
      split; [now apply Hkeep|].
      now apply (has_extruder_insert s s1 t T state). }
    exists s'. split; [exact E'|].
    split; [intros u Hu; now apply Hkeep', Hkeep|].
    split; [intros u Hu; apply Hext';
            now apply (has_extruder_insert s s1 t T state)|].
    split.
    + intros u Hu. apply elem_of_cons in Hu as [[= ->]|Hu].
      * rewrite (Hout t (Hnot state)), Htools, lookup_insert_eq, HT.
        reflexivity.
      * assert (u <> t) by (intros ->; now apply (Hnot state)).
        now rewrite (Hin u Hu), Htools, lookup_insert_ne.
    + intros u Hu.
      assert (u <> t) by (intros ->; apply Hu; left).
      rewrite Hout, Htools, lookup_insert_ne; auto.
      intros Hin'. apply Hu. now right.
  - rewrite (bind_Ok _ _ s tt s) by reflexivity.
    destruct (IH s Hnd) as (s' & E' & Hkeep' & Hext' & Hin & Hout).
    { intros u st Hu. apply (Hitems u st). now right. }
    exists s'. split; [exact E'|]. split; [exact Hkeep'|].
    split; [exact Hext'|]. split.
    + intros u Hu. apply elem_of_cons in Hu as [[= -> <-]|Hu].
      * assert (HeaterState_eqb state state = true)
          by now apply HeaterState_eqb_eq.
        congruence.
      * now apply Hin.
    + intros u Hu. apply Hout. intros Hin'. apply Hu. now right.
Qed.

Lemma dict_set_fresh k v d : k ∉ d.*1 -> dict_set k v d = d ++ [(k, v)].
Proof.
  induction d as [|[k' v'] d IH]; intros Hk; [reflexivity|].
  cbn [fmap list_fmap fst] in Hk. apply not_elem_of_cons in Hk as [Hne Hk].
  cbn [dict_set].
  replace (k =? k') with false by (symmetry; now apply Z.eqb_neq).
  now rewrite IH.
Qed.

Lemma omap_agree {A B} (f g : A -> option B) (l : list A) :
  (forall x, x ∈ l -> f x = g x) -> omap f l = omap g l.
Proof.
  induction l as [|x l IH]; intros H; [reflexivity|].
  cbn [omap list_omap]. rewrite (H x) by left.
  rewrite IH; [reflexivity|]. intros y Hy. apply H. now right.
Qed.

Lemma with_heater_state_same (T : Tool) :
  HeaterState_eqb (heater_state T) HEATER_STATE_OFF = true ->
  with_heater_state HEATER_STATE_OFF T = T.
Proof.
  intros H. apply HeaterState_eqb_eq in H. destruct T. simpl in *.
  now subst.
Qed.

Lemma set_all_tool_heaters_off_loop_spec all_tools :
  forall changes s,
    NoDup all_tools ->
    (forall t, t ∈ all_tools -> heater_set_up s t) ->
    (forall t, t ∈ all_tools -> t ∉ changes.*1) ->
    exists s',
      set_all_tool_heaters_off_loop all_tools changes s
        = (None, changes ++ omap (saved_entry s) all_tools, s') /\
      (forall u, heater_set_up s u -> heater_set_up s' u) /\
      (forall u, u ∉ all_tools -> tools s' !! u = tools s !! u) /\
      (forall u (U : Tool), u ∈ all_tools -> tools s !! u = Some U ->
         tools s' !! u =
         Some (if bool_decide (is_Some (extruder U))
               then with_heater_state HEATER_STATE_OFF U else U)).
Proof.
  induction all_tools as [|t rest IH]; intros changes s Hnd Hup Hkeys.
  { exists s. cbn. rewrite app_nil_r. split; [reflexivity|].
    repeat split; auto. intros u U Hu. now apply elem_of_nil in Hu. }
  apply NoDup_cons in Hnd as [Hfresh Hnd].
  assert (Hupt : heater_set_up s t) by (apply Hup; left).
  destruct (Hup t) as (T & HT & Hready & Hidle); [left|].
  cbn [set_all_tool_heaters_off_loop omap list_omap].
  unfold saved_entry at 1. rewrite HT.
  (* the two cases in which the tool is passed over *)
  assert (Hskip :
    (bool_decide (is_Some (extruder T))
     && negb (HeaterState_eqb (heater_state T) HEATER_STATE_OFF)) = false ->
    exists s',
      set_all_tool_heaters_off_loop rest changes s
        = (None, changes ++ omap (saved_entry s) rest, s') /\
      (forall u, heater_set_up s u -> heater_set_up s' u) /\
      (forall u, u ∉ t :: rest -> tools s' !! u = tools s !! u) /\
      (forall u (U : Tool), u ∈ t :: rest -> tools s !! u = Some U ->
         tools s' !! u =
         Some (if bool_decide (is_Some (extruder U))
               then with_heater_state HEATER_STATE_OFF U else U))).
  { intros Hoff.
    destruct (IH changes s Hnd) as (s' & E & Hkeep & Hout & Hin).
    { intros u Hu. apply Hup. now right. }
    { intros u Hu. apply Hkeys. now right. }
    exists s'. split; [exact E|]. split; [exact Hkeep|]. split.
    - intros u Hu. apply Hout. intros Hin'. apply Hu. now right.
    - intros u U Hu HU. apply elem_of_cons in Hu as [->|Hu];
        [|now apply Hin].
      rewrite (Hout t Hfresh), HU. f_equal.
      assert (U = T) as -> by congruence.
      destruct (bool_decide (is_Some (extruder T))); [|reflexivity].
      cbn [andb] in Hoff. apply negb_false_iff in Hoff.
      symmetry. now apply with_heater_state_same. }
  destruct (extruder T) as [e|] eqn:He.
  2:{ rewrite bool_decide_eq_true_2 by reflexivity.
      rewrite (bool_decide_eq_false_2 (is_Some None))
        by (intros [? ?]; discriminate).
      cbn [andb]. apply Hskip. rewrite ?He.
      rewrite bool_decide_eq_false_2 by (intros [? ?]; discriminate).
      reflexivity. }
  rewrite bool_decide_eq_false_2 by discriminate.
  rewrite (bool_decide_eq_true_2 (is_Some (Some e))) by eauto.
  cbn [andb].
  destruct (HeaterState_eqb (heater_state T) HEATER_STATE_OFF) eqn:Eoff;
    cbn [negb].
  { apply Hskip. rewrite ?He, ?Eoff.
    now rewrite bool_decide_eq_true_2 by eauto. }
  (* the heater is turned off *)
  destruct (set_heater_state_step s t HEATER_STATE_OFF)
    as (s1 & T' & HT' & E & Htools & Hkeep);
    [exact Hupt|exists T; rewrite ?He; eauto|].
  assert (T' = T) as -> by congruence.
  rewrite E, (dict_set_fresh _ _ _ (Hkeys t ltac:(left))).
  destruct (IH (changes ++ [(t, heater_state T)]) s1 Hnd)
    as (s' & E' & Hkeep' & Hout & Hin).
  { intros u Hu. apply Hkeep, Hup. now right. }
  { intros u Hu. rewrite fmap_app. intros Hin.
    apply elem_of_app in Hin as [Hin|Hin].
    - revert Hin. apply Hkeys. now right.
    - apply list_elem_of_singleton in Hin. simpl in Hin. subst u.
      now apply Hfresh. }
  assert (Hsame : omap (saved_entry s1) rest = omap (saved_entry s) rest).
  { apply omap_agree. intros u Hu. unfold saved_entry.
    rewrite Htools, lookup_insert_ne; [reflexivity|].
    intros ->. now apply Hfresh. }
  exists s'. split.
  { rewrite E', Hsame, <- app_assoc. reflexivity. }
  split; [intros u Hu; now apply Hkeep', Hkeep|]. split.
  - intros u Hu. apply not_elem_of_cons in Hu as [Hne Hu].
    now rewrite (Hout u Hu), Htools, lookup_insert_ne.
  - intros u U Hu HU. apply elem_of_cons in Hu as [->|Hu].
    + assert (U = T) as -> by congruence.
      rewrite (Hout t Hfresh), Htools, lookup_insert_eq, ?He.
      now rewrite bool_decide_eq_true_2 by eauto.
    + apply Hin; [exact Hu|].
      rewrite Htools, lookup_insert_ne; [exact HU|].
      intros ->. now apply Hfresh.
Qed.

Lemma saved_entry_key s t k saved :
  saved_entry s t = Some (k, saved) ->
  k = t /\ saved <> HEATER_STATE_OFF /\
  exists T : Tool, tools s !! t = Some T /\ is_Some (extruder T) /\
                   heater_state T = saved.
Proof.
  unfold saved_entry. destruct (tools s !! t) as [T|]; [|discriminate].
  destruct (bool_decide (is_Some (extruder T))) eqn:He; [|discriminate].
  destruct (HeaterState_eqb (heater_state T) HEATER_STATE_OFF) eqn:Eoff;
    [discriminate|].
  intros [= <- <-]. split; [reflexivity|]. split.
  - intros H. apply HeaterState_eqb_eq in H. congruence.
  - exists T. apply bool_decide_eq_true_1 in He. auto.
Qed.

Lemma saved_entries_NoDup s (l : list Z) :
  NoDup l -> NoDup (omap (saved_entry s) l).*1.
Proof.
  induction 1 as [|t l Hfresh Hnd IH]; [constructor|].
  cbn [omap list_omap]. destruct (saved_entry s t) as [[k saved]|] eqn:E;
    [|exact IH].
  apply saved_entry_key in E as (-> & _).
  cbn [fmap list_fmap fst]. apply NoDup_cons. split; [|exact IH].
  intros Hin. apply list_elem_of_fmap in Hin as ([k saved'] & -> & Hin).
  apply list_elem_of_omap in Hin as (u & Hu & Eu).
  apply saved_entry_key in Eu as (Ek & _). simpl in *. now subst.
Qed.

(** X27.  Turning all heaters off, and back on.  When every listed tool
    is set up, [set_all_tool_heaters_off] returns and leaves every tool
    with an extruder in heater state OFF; [resume_all_tool_heaters]
    after it returns too and gives every tool the heater state it had
    before the two calls. *)
Theorem heaters_off_and_back all_tools f :
  NoDup all_tools ->
  (forall t, t ∈ all_tools -> heater_set_up (fleet_printer f) t) ->
  exists f1 f2,
    set_all_tool_heaters_off all_tools f = (None, f1) /\
    (forall t (T : Tool),
       t ∈ all_tools -> tools (fleet_printer f1) !! t = Some T ->
       is_Some (extruder T) -> heater_state T = HEATER_STATE_OFF) /\
    resume_all_tool_heaters f1 = (None, f2) /\
    forall t, t ∈ all_tools ->
      (fun T : Tool => heater_state T) <$> tools (fleet_printer f2) !! t
      = (fun T : Tool => heater_state T) <$> tools (fleet_printer f) !! t.
Proof.
  intros Hnd Hup. set (s := fleet_printer f) in *.
  destruct (set_all_tool_heaters_off_loop_spec all_tools [] s Hnd Hup)
    as (s1 & E1 & Hkeep1 & _ & Hin1).
  { intros t _ Hin. now apply elem_of_nil in Hin. }
  cbn [app] in E1. set (items := omap (saved_entry s) all_tools) in *.
  assert (Hitems : forall t saved, (t, saved) ∈ items ->
            t ∈ all_tools /\ saved <> HEATER_STATE_OFF /\
            exists T : Tool, tools s !! t = Some T /\
              is_Some (extruder T) /\ heater_state T = saved).
  { intros t saved Hin. apply list_elem_of_omap in Hin as (u & Hu & Eu).
    destruct (saved_entry_key _ _ _ _ Eu) as (-> & H). now split. }
  assert (Hres1 : forall t saved, (t, saved) ∈ items ->
            heater_set_up s1 t /\ has_extruder s1 t).
  { intros t saved Hin.
    destruct (Hitems t saved Hin) as (Ht & _ & T & HT & He & _).
    split; [now apply Hkeep1, Hup|].
    eexists. split; [apply (Hin1 t T Ht HT)|].
    now destruct (bool_decide (is_Some (extruder T))). }
  pose proof (saved_entries_NoDup s all_tools Hnd) as Hnd'. fold items in Hnd'.
  destruct (resume_loop_spec HEATER_STATE_STANDBY items s1 Hnd' Hres1)
    as (s2 & E2 & Hkeep2 & Hext2 & Hin2 & Hout2).
  destruct (resume_loop_spec HEATER_STATE_ACTIVE items s2 Hnd')
    as (s3 & E3 & _ & _ & Hin3 & Hout3).
  { intros t saved Hin. destruct (Hres1 t saved Hin). auto. }
  exists (mkFleet s1 items), (mkFleet s3 items).
  split; [unfold set_all_tool_heaters_off; fold s; now rewrite E1|].
  split.
  { cbn [fleet_printer]. intros t T Ht HT He.
    destruct (Hup t Ht) as (T0 & HT0 & _).
    rewrite (Hin1 t T0 Ht HT0) in HT. injection HT as <-.
    destruct (bool_decide (is_Some (extruder T0))) eqn:Eb; [reflexivity|].
    apply bool_decide_eq_false_1 in Eb. contradiction. }
  split.
  { unfold resume_all_tool_heaters.
    cbn [fleet_printer changes_made_by_set_all_tool_heaters_off].
    now rewrite (bind_Ok _ _ _ _ _ E2), E3. }
  cbn [fleet_printer]. intros t Ht.
  destruct (Hup t Ht) as (T & HT & _). rewrite HT.
  pose proof (Hin1 t T Ht HT) as HT1.
  destruct (saved_entry s t) as [[k saved]|] eqn:Es.
  - destruct (saved_entry_key _ _ _ _ Es)
      as (-> & Hoff & T' & HT' & He & Hst).
    assert (T' = T) as -> by congruence.
    assert (Hin : (t, saved) ∈ items)
      by (apply list_elem_of_omap; eauto).
    assert (Hother : forall c, c <> saved -> (t, c) ∉ items).
    { intros c Hc Hin'.
      destruct (Hitems t c Hin') as (_ & _ & T2 & HT2 & _ & Hst2).
      congruence. }
    destruct saved; [congruence| |].
    + rewrite (Hout3 t (Hother HEATER_STATE_ACTIVE ltac:(discriminate))),
        (Hin2 t Hin), HT1.
      simpl. now rewrite Hst.
    + rewrite (Hin3 t Hin),
        (Hout2 t (Hother HEATER_STATE_STANDBY ltac:(discriminate))), HT1.
      simpl. now rewrite Hst.
  - assert (Hnot : forall c, (t, c) ∉ items).
    { intros c Hin. apply list_elem_of_omap in Hin as (u & Hu & Eu).
      destruct (saved_entry_key _ _ _ _ Eu) as (-> & _). congruence. }
    rewrite (Hout3 t (Hnot _)), (Hout2 t (Hnot _)), HT1. simpl. f_equal.
    unfold saved_entry in Es. rewrite HT in Es.
    destruct (bool_decide (is_Some (extruder T))); [|reflexivity].
    cbn [andb] in Es.
    destruct (HeaterState_eqb (heater_state T) HEATER_STATE_OFF) eqn:Eoff;
      [|discriminate].
    apply HeaterState_eqb_eq in Eoff. now rewrite Eoff.
Qed.

Lemma heaters_off_and_back_witness :
  exists f1 f2,
    set_all_tool_heaters_off [2] (mkFleet Scenario.printing []) = (None, f1) /\
    changes_made_by_set_all_tool_heaters_off f1 = [(2, HEATER_STATE_ACTIVE)] /\
    resume_all_tool_heaters f1 = (None, f2) /\
    (fun T : Tool => heater_state T) <$> tools (fleet_printer f2) !! 2
      = Some HEATER_STATE_ACTIVE.
Proof.
  destruct (heaters_off_and_back [2] (mkFleet Scenario.printing []))
    as (f1 & f2 & E1 & _ & E2 & H).
  - apply NoDup_singleton.
  - intros t Ht. apply list_elem_of_singleton in Ht as ->.
    eexists. split; [reflexivity|]. split.
    + eexists. split; [reflexivity|]. intros e [= <-]. split.
      * eexists. reflexivity.
      * eexists _, 2. repeat split; eexists; reflexivity.
    + intros _. split; eexists; reflexivity.
  - exists f1, f2. split; [exact E1|]. split.
    + vm_compute in E1. now injection E1 as <-.
    + split; [exact E2|]. rewrite (H 2); [reflexivity|]. left.
Defined.
